(** * Reminder and recurrence scheduling: a shallow embedding

    The scheduling core of the todo application:

    - [backend/reminder-agent/services/reminder_calculator.py]
      (class [ReminderCalculator]),
    - [backend/reminder-agent/services/duplicate_checker.py]
      (class [DuplicateChecker]),
    - [backend/reminder-agent/jobs/reminder_processor.py]
      (class [ReminderProcessor]) with [models/agent_state.py],
    - [backend/reminder-agent/services/task_reader.py] and
      [services/delivery_tracker.py],
    - [phase-v/services/recurring-task-service/app/generator.py],
      [app/consumer.py] and [app/dapr_client.py],
    - [backend/api-service/routes/tasks.py] and [app/validators.py].

    The code computes with Python's naive [datetime], [date], [time] and
    [timedelta] values and with [dateutil.relativedelta].  The first part of
    this file is a model of that calendar arithmetic; the embedding of the
    repository's functions follows, then the theorems.

    The calendar arithmetic ([dt_add], [date_add_months], ...) is that of
    the proleptic Gregorian calendar over all integer years.  Python keeps
    [year] within [MINYEAR]..[MAXYEAR] and raises when a result leaves that
    range; [representable] and [in_range] are that check.  The functions
    that catch the exception and answer with a value
    ([DuplicateChecker.exists], [TaskReader.get_tasks_needing_reminders],
    [calculate_next_occurrence] and its helpers) carry the check.  In
    [ReminderCalculator] and in [create_recurring_instance] the exception
    would leave the function; these are embedded on the arithmetic alone,
    and agree with the code wherever the datetimes they compute are
    representable: the theorems that assert a result of theirs state that
    range as a hypothesis. *)

From Stdlib Require Import ZArith Lia List String Ascii Bool Sorted.
Import ListNotations.
Local Open Scope Z_scope.

(* ================================================================= *)
(** ** Exceptions *)

Inductive exn : Type :=
| ValueError
| OverflowError
| OperationalError
| IntegrityError
| RuntimeError.

Inductive res (A : Type) : Type :=
| Ok (a : A)
| Raise (e : exn).
Arguments Ok {A} a.
Arguments Raise {A} e.

(* ================================================================= *)
(** ** Calendar: [datetime.date], [datetime.time], [datetime.datetime] *)

Record date : Type := mkDate { year : Z; month : Z; day : Z }.

Record time : Type :=
  mkTime { hour : Z; minute : Z; second : Z; microsecond : Z }.

(** A naive [datetime]; [dt_date] is [.date()], [dt_time] is [.time()] and
    the constructor is [datetime.combine]. *)
Record datetime : Type := combine { dt_date : date; dt_time : time }.

Definition is_leap (y : Z) : bool :=
  (y mod 4 =? 0) && (negb (y mod 100 =? 0) || (y mod 400 =? 0)).

Definition leap_day (y : Z) : Z := if is_leap y then 1 else 0.

Definition days_in_month (y m : Z) : Z :=
  if m =? 2 then 28 + leap_day y
  else if (m =? 4) || (m =? 6) || (m =? 9) || (m =? 11) then 30
  else 31.

(** Days of year [y] that precede the first day of month [m]. *)
Definition days_before_month (y m : Z) : Z :=
  match m with
  | 1 => 0
  | 2 => 31
  | 3 => 59 + leap_day y
  | 4 => 90 + leap_day y
  | 5 => 120 + leap_day y
  | 6 => 151 + leap_day y
  | 7 => 181 + leap_day y
  | 8 => 212 + leap_day y
  | 9 => 243 + leap_day y
  | 10 => 273 + leap_day y
  | 11 => 304 + leap_day y
  | _ => 334 + leap_day y
  end.

(** Days before January 1st of year [y] (year 1 starts at ordinal 1). *)
Definition days_before_year (y : Z) : Z :=
  let p := y - 1 in 365 * p + p / 4 - p / 100 + p / 400.

(** [date.toordinal()]. *)
Definition toordinal (d : date) : Z :=
  days_before_year (year d) + days_before_month (year d) (month d) + day d.

(** [date.weekday()]: Monday is 0, Sunday is 6. *)
Definition weekday (d : date) : Z := (toordinal d + 6) mod 7.

Definition date_ok (d : date) : bool :=
  (1 <=? month d) && (month d <=? 12) &&
  (1 <=? day d) && (day d <=? days_in_month (year d) (month d)).

Definition time_ok (t : time) : bool :=
  (0 <=? hour t) && (hour t <? 24) &&
  (0 <=? minute t) && (minute t <? 60) &&
  (0 <=? second t) && (second t <? 60) &&
  (0 <=? microsecond t) && (microsecond t <? 1000000).

Definition datetime_ok (dt : datetime) : bool :=
  date_ok (dt_date dt) && time_ok (dt_time dt).

(** The day after and the day before. *)
Definition tomorrow (d : date) : date :=
  if day d <? days_in_month (year d) (month d)
  then mkDate (year d) (month d) (day d + 1)
  else if month d <? 12
       then mkDate (year d) (month d + 1) 1
       else mkDate (year d + 1) 1 1.

Definition yesterday (d : date) : date :=
  if 1 <? day d
  then mkDate (year d) (month d) (day d - 1)
  else if 1 <? month d
       then mkDate (year d) (month d - 1)
                   (days_in_month (year d) (month d - 1))
       else mkDate (year d - 1) 12 31.

(** [d + timedelta(days=n)]. *)
Definition date_add_days (d : date) (n : Z) : date :=
  if 0 <=? n
  then Nat.iter (Z.to_nat n) tomorrow d
  else Nat.iter (Z.to_nat (- n)) yesterday d.

(** [d.replace(day=k)]: [ValueError] when month [month d] of year [year d]
    has no day [k]. *)
Definition date_replace_day (d : date) (k : Z) : res date :=
  if (1 <=? k) && (k <=? days_in_month (year d) (month d))
  then Ok (mkDate (year d) (month d) k)
  else Raise ValueError.

(** Months are counted from year 0: [month_index] of January of year [y]
    is [12 * y]. *)
Definition month_index (d : date) : Z := 12 * year d + (month d - 1).

(** [d + relativedelta(months=k)]: the month moves by [k], the year
    follows, and the day is cut down to the length of the month reached. *)
Definition date_add_months (d : date) (k : Z) : date :=
  let i := month_index d + k in
  let y := i / 12 in
  let m := i mod 12 + 1 in
  mkDate y m (Z.min (day d) (days_in_month y m)).

(** Specification device, not code: day [k] of the month with index [i],
    or the last day of that month when it has no day [k]. *)
Definition place_day (i k : Z) : date :=
  let y := i / 12 in
  let m := i mod 12 + 1 in
  mkDate y m (Z.min k (days_in_month y m)).

(** *** Durations: [timedelta] as a number of microseconds *)

Definition timedelta : Type := Z.

Definition us_per_second : Z := 1000000.
Definition us_per_minute : Z := 60 * us_per_second.
Definition us_per_hour : Z := 60 * us_per_minute.
Definition us_per_day : Z := 24 * us_per_hour.

Definition td_seconds (n : Z) : timedelta := n * us_per_second.
Definition td_minutes (n : Z) : timedelta := n * us_per_minute.
Definition td_hours (n : Z) : timedelta := n * us_per_hour.
Definition td_days (n : Z) : timedelta := n * us_per_day.
Definition td_weeks (n : Z) : timedelta := td_days (7 * n).

(** [timedelta.days]: the normalised day count, rounded towards minus
    infinity. *)
Definition td_days_field (delta : timedelta) : Z := delta / us_per_day.

Definition time_to_us (t : time) : Z :=
  hour t * us_per_hour + minute t * us_per_minute
  + second t * us_per_second + microsecond t.

Definition time_of_us (u : Z) : time :=
  mkTime (u / us_per_hour) ((u / us_per_minute) mod 60)
         ((u / us_per_second) mod 60) (u mod us_per_second).

(** The instant of a datetime, in microseconds. *)
Definition to_us (dt : datetime) : Z :=
  toordinal (dt_date dt) * us_per_day + time_to_us (dt_time dt).

(** [dt + delta] and [dt - delta]. *)
Definition dt_add (dt : datetime) (delta : timedelta) : datetime :=
  let u := time_to_us (dt_time dt) + delta in
  combine (date_add_days (dt_date dt) (u / us_per_day))
          (time_of_us (u mod us_per_day)).

Definition dt_sub (dt : datetime) (delta : timedelta) : datetime :=
  dt_add dt (- delta).

(** [a - b] for two datetimes. *)
Definition dt_diff (a b : datetime) : timedelta := to_us a - to_us b.

(** [dt.replace(hour=h, minute=m, second=s)]: the microsecond stays. *)
Definition dt_replace_hms (dt : datetime) (h m s : Z) : datetime :=
  combine (dt_date dt) (mkTime h m s (microsecond (dt_time dt))).

(** *** Ordering: field by field, as Python compares *)

Definition lex (c : comparison) (k : comparison) : comparison :=
  match c with Eq => k | _ => c end.

Definition date_compare (a b : date) : comparison :=
  lex (year a ?= year b) (lex (month a ?= month b) (day a ?= day b)).

Definition time_compare (a b : time) : comparison :=
  lex (hour a ?= hour b)
      (lex (minute a ?= minute b)
           (lex (second a ?= second b) (microsecond a ?= microsecond b))).

Definition dt_compare (a b : datetime) : comparison :=
  lex (date_compare (dt_date a) (dt_date b))
      (time_compare (dt_time a) (dt_time b)).

Definition dt_ltb (a b : datetime) : bool :=
  match dt_compare a b with Lt => true | _ => false end.
Definition dt_leb (a b : datetime) : bool :=
  match dt_compare a b with Gt => false | _ => true end.
Definition dt_gtb (a b : datetime) : bool := dt_ltb b a.
Definition dt_geb (a b : datetime) : bool := dt_leb b a.

(* ================================================================= *)
(** ** A small exception monad for the code that raises and catches *)

Definition bind {A B : Type} (m : res A) (k : A -> res B) : res B :=
  match m with
  | Ok a => k a
  | Raise e => Raise e
  end.

Notation "x <- m ;; k" := (bind m (fun x => k))
  (at level 61, m at next level, right associativity).

(** [try: body / except ValueError: handler]; other exceptions pass. *)
Definition try_except_ValueError {A : Type} (body handler : res A) : res A :=
  match body with
  | Ok a => Ok a
  | Raise ValueError => handler
  | Raise e => Raise e
  end.

(** [try: body / except Exception: handler]. *)
Definition try_except {A : Type} (body : res A) (handler : exn -> A) : A :=
  match body with
  | Ok a => a
  | Raise e => handler e
  end.

(** [dt.replace(day=k)] and [dt + relativedelta(months=k)] on datetimes act
    on the date and keep the time. *)
Definition dt_replace_day (dt : datetime) (k : Z) : res datetime :=
  d <- date_replace_day (dt_date dt) k ;; Ok (combine d (dt_time dt)).

Definition dt_add_months (dt : datetime) (k : Z) : datetime :=
  combine (date_add_months (dt_date dt) k) (dt_time dt).

(** *** Python's range of dates

    [datetime.MINYEAR] and [datetime.MAXYEAR].  A sum or difference whose
    year leaves them is not built: [dt + timedelta] and [dt - timedelta]
    raise [OverflowError], [dt + relativedelta] raises [ValueError].  (A
    [timedelta] itself is limited to 999999999 days; from a representable
    datetime the sum leaves the range of years long before.  For a year
    beyond the machine integers [relativedelta] may raise [OverflowError]
    in place of [ValueError]; where the code adds months, no handler
    tells the two apart.) *)
Definition MINYEAR : Z := 1.
Definition MAXYEAR : Z := 9999.

Definition representable (dt : datetime) : bool :=
  (MINYEAR <=? year (dt_date dt)) && (year (dt_date dt) <=? MAXYEAR).

Definition in_range (e : exn) (dt : datetime) : res datetime :=
  if representable dt then Ok dt else Raise e.

(* ================================================================= *)
(** ** config/constants.py *)

Definition DUPLICATE_CHECK_TOLERANCE_SECONDS : Z := 60.
Definition GRACE_PERIOD_DAYS : Z := 7.

(* ================================================================= *)
(** ** models/task.py

    The fields the scheduler reads.  A row read from the table carries its
    primary key, so [id] is a number. *)

Record Task : Type := mkTask {
  id : Z;
  user_id : string;
  title : string;
  completed : bool;
  due_date : option datetime;
  reminder_time : option datetime;
  recurrence_pattern : string
}.

(* ================================================================= *)
(** ** services/reminder_calculator.py *)

Module ReminderCalculator.

(** The four handlers read [task.reminder_time] only, which the dispatcher
    has found present; they take it as their first argument. *)

Definition _calculate_one_time (reminder_time now : datetime)
  : option datetime :=
  let grace_period := dt_sub now (td_minutes 5) in
  if dt_geb reminder_time grace_period then Some reminder_time else None.

Definition _calculate_daily (reminder_time now : datetime)
  : option datetime :=
  let reminder_time_obj := dt_time reminder_time in
  let today_reminder := combine (dt_date now) reminder_time_obj in
  if dt_gtb today_reminder now
  then Some today_reminder
  else
    let tomorrow_reminder := dt_add today_reminder (td_days 1) in
    Some tomorrow_reminder.

Definition _calculate_weekly (reminder_time now : datetime)
  : option datetime :=
  let target_weekday := weekday (dt_date reminder_time) in
  let reminder_time_obj := dt_time reminder_time in
  let days_until_target := (target_weekday - weekday (dt_date now)) mod 7 in
  if days_until_target =? 0
  then
    let today_reminder := combine (dt_date now) reminder_time_obj in
    if dt_gtb today_reminder now
    then Some today_reminder
    else
      let next_week_reminder := dt_add today_reminder (td_weeks 1) in
      Some next_week_reminder
  else
    let next_date := date_add_days (dt_date now) days_until_target in
    let next_reminder := combine next_date reminder_time_obj in
    Some next_reminder.

Definition _calculate_monthly (reminder_time now : datetime)
  : res (option datetime) :=
  let target_day := day (dt_date reminder_time) in
  let reminder_time_obj := dt_time reminder_time in
  this_month_date <-
    try_except_ValueError
      (date_replace_day (dt_date now) target_day)
      (first_of_this_month <- date_replace_day (dt_date now) 1 ;;
       let first_of_next_month := date_add_months first_of_this_month 1 in
       Ok (date_add_days first_of_next_month (-1))) ;;
  let this_month_reminder := combine this_month_date reminder_time_obj in
  if dt_gtb this_month_reminder now
  then Ok (Some this_month_reminder)
  else
    next_month_date <-
      try_except_ValueError
        (date_replace_day (date_add_months (dt_date now) 1) target_day)
        (first_of_this_month <- date_replace_day (dt_date now) 1 ;;
         let first_of_month_after_next :=
           date_add_months first_of_this_month 2 in
         Ok (date_add_days first_of_month_after_next (-1))) ;;
    let next_month_reminder := combine next_month_date reminder_time_obj in
    Ok (Some next_month_reminder).

Definition calculate_reminder_datetime (task : Task) (now : datetime)
  : res (option datetime) :=
  match reminder_time task with
  | None => Ok None
  | Some rt =>
      if String.eqb (recurrence_pattern task) "none"
      then Ok (_calculate_one_time rt now)
      else if String.eqb (recurrence_pattern task) "daily"
      then Ok (_calculate_daily rt now)
      else if String.eqb (recurrence_pattern task) "weekly"
      then Ok (_calculate_weekly rt now)
      else if String.eqb (recurrence_pattern task) "monthly"
      then _calculate_monthly rt now
      else Ok None
  end.

Definition should_skip_reminder (task : Task) (now : datetime) : bool :=
  if completed task then true
  else
    match due_date task with
    | Some due =>
        let days_overdue := td_days_field (dt_diff now due) in
        if days_overdue >? GRACE_PERIOD_DAYS then true else false
    | None => false
    end.

End ReminderCalculator.

(* ================================================================= *)
(** ** recurring-task-service/app/generator.py *)

Module Generator.

(** [sorted(days_of_week)] on a list of integers. *)
Fixpoint insert_sorted (x : Z) (l : list Z) : list Z :=
  match l with
  | [] => [x]
  | y :: l' => if x <=? y then x :: l else y :: insert_sorted x l'
  end.

Definition sorted (l : list Z) : list Z := fold_right insert_sorted [] l.

(** [dt.replace(hour=.., minute=.., second=..)] from [original_due_date]
    when there is one. *)
Definition preserve_time_of_day (next_date : datetime)
    (original_due_date : option datetime) : datetime :=
  match original_due_date with
  | Some odd =>
      dt_replace_hms next_date (hour (dt_time odd)) (minute (dt_time odd))
                     (second (dt_time odd))
  | None => next_date
  end.

Definition _calculate_daily (completed_at : datetime) (interval : Z)
    (original_due_date : option datetime) : res datetime :=
  next_date <- in_range OverflowError
                 (dt_add completed_at (td_days interval)) ;;
  Ok (preserve_time_of_day next_date original_due_date).

(** The [for day in sorted_days] loop: the first day after
    [current_weekday], if any. *)
Fixpoint first_day_after (current_weekday : Z) (sorted_days : list Z)
  : option Z :=
  match sorted_days with
  | [] => None
  | d :: rest =>
      if d >? current_weekday then Some d
      else first_day_after current_weekday rest
  end.

Definition _calculate_weekly (completed_at : datetime) (interval : Z)
    (days_of_week : list Z) (original_due_date : option datetime)
  : res (option datetime) :=
  match days_of_week with
  | [] => Ok None
  | _ :: _ =>
      let sorted_days := sorted days_of_week in
      let current_weekday := weekday (dt_date completed_at) in
      next_date <-
        match first_day_after current_weekday sorted_days with
        | Some d =>
            let days_ahead := d - current_weekday in
            in_range OverflowError
              (dt_add completed_at (td_days days_ahead))
        | None =>
            let days_ahead := (7 - current_weekday) + hd 0 sorted_days in
            let days_ahead :=
              if interval >? 1 then days_ahead + (interval - 1) * 7
              else days_ahead in
            in_range OverflowError
              (dt_add completed_at (td_days days_ahead))
        end ;;
      Ok (Some (preserve_time_of_day next_date original_due_date))
  end.

Definition _calculate_monthly (completed_at : datetime) (interval : Z)
    (day_of_month : option Z) (original_due_date : option datetime)
  : res (option datetime) :=
  match day_of_month with
  | None => Ok None
  | Some day_of_month =>
      if day_of_month =? 0 then Ok None
      else if (day_of_month <? 1) || (day_of_month >? 31) then Ok None
      else
        next_date <- in_range ValueError
                       (dt_add_months completed_at interval) ;;
        next_date <-
          try_except_ValueError
            (dt_replace_day next_date day_of_month)
            (first <- dt_replace_day next_date 1 ;;
             first_of_next <- in_range ValueError (dt_add_months first 1) ;;
             last <- in_range OverflowError
                       (dt_add first_of_next (td_days (-1))) ;;
             let last_day := day (dt_date last) in
             dt_replace_day next_date (Z.min day_of_month last_day)) ;;
        Ok (Some (preserve_time_of_day next_date original_due_date))
  end.

(** [str.lower()] on ASCII text: the letters A to Z move to a to z.  A
    string here is a sequence of bytes; on text with characters outside
    ASCII, [str.lower()] does more (the Kelvin sign becomes [k]). *)
Definition lower_ascii (c : Ascii.ascii) : Ascii.ascii :=
  let n := Ascii.N_of_ascii c in
  if ((65 <=? n) && (n <=? 90))%N then Ascii.ascii_of_N (n + 32) else c.

Fixpoint lower (s : string) : string :=
  match s with
  | EmptyString => EmptyString
  | String c s' => String (lower_ascii c) (lower s')
  end.

(** The [recurrence_rule] dictionary, with no keys but these four: each
    key is absent ([None]) or holds a value of the JSON type the code
    expects of it (a string, an integer, a list of integers, an
    integer). *)
Record RecurrenceRule : Type := mkRecurrenceRule {
  frequency : option string;
  interval : option Z;
  days_of_week : option (list Z);
  day_of_month : option Z
}.

(** [not recurrence_rule] for a dictionary: true when it has no entry. *)
Definition is_empty (rule : RecurrenceRule) : bool :=
  match frequency rule, interval rule, days_of_week rule,
        day_of_month rule with
  | None, None, None, None => true
  | _, _, _, _ => false
  end.

(** [d.get(key, default)]. *)
Definition get {A : Type} (entry : option A) (default : A) : A :=
  match entry with Some v => v | None => default end.

Definition calculate_next_occurrence (completed_at : datetime)
    (recurrence_rule : RecurrenceRule) (original_due_date : option datetime)
  : option datetime :=
  try_except
    (let frequency := lower (get (frequency recurrence_rule) EmptyString) in
     let interval := get (interval recurrence_rule) 1 in
     if String.eqb frequency "daily"
     then
       next_date <- _calculate_daily completed_at interval
                                     original_due_date ;;
       Ok (Some next_date)
     else if String.eqb frequency "weekly"
     then
       let days_of_week := get (days_of_week recurrence_rule) [] in
       _calculate_weekly completed_at interval days_of_week
                         original_due_date
     else if String.eqb frequency "monthly"
     then
       let day_of_month := day_of_month recurrence_rule in
       _calculate_monthly completed_at interval day_of_month
                          original_due_date
     else Ok None)
    (fun _ => None).

End Generator.

(* ================================================================= *)
(** ** The database: models and sessions *)

(** [models/user.py]. *)
Record User : Type := mkUser {
  user_pk : string;          (* id *)
  email : string;
  name : option string
}.

(** [models/reminder_log.py] is not part of the sources at hand; the
    fields are those that [DeliveryTracker] writes and [DuplicateChecker]
    reads. *)
Inductive DeliveryStatus : Type := SENT | FAILED.

Record ReminderLog : Type := mkReminderLog {
  log_task_id : Z;           (* task_id *)
  log_user_id : string;      (* user_id *)
  reminder_datetime : datetime;
  email_to : string;
  email_subject : string;
  email_body : string;
  delivery_status : DeliveryStatus;
  error_message : option string;
  sent_at : datetime
}.

(** [models/agent_state.py]. *)
Inductive AgentStatus : Type := INITIALIZED | RUNNING | PAUSED | ERROR.

Definition AgentStatus_value (s : AgentStatus) : string :=
  match s with
  | INITIALIZED => "initialized"
  | RUNNING => "running"
  | PAUSED => "paused"
  | ERROR => "error"
  end.

Record AgentState : Type := mkAgentState {
  last_check_at : datetime;
  tasks_processed : Z;
  reminders_sent : Z;
  errors_count : Z;
  status : string;
  created_at : datetime;
  updated_at : datetime
}.

(** The tables, and [fault]: when it is [Some e] the database is out of
    reach and every use of a session raises [e]. *)
Record Database : Type := mkDatabase {
  fault : option exn;
  tasks : list Task;
  users : list User;
  reminder_log : list ReminderLog;
  agent_state : list AgentState
}.

(** [services/database.py], [get_session]: the session gives access to
    the tables, or the attempt raises.  [fault] says which, for every
    session opened on one [Database] value.  The code opens a session per
    call, so the database can go out of reach between two calls: a
    theorem about a write states that the database is within reach, and a
    theorem about two calls states what it needs of the value between
    them. *)
Definition get_session (db : Database) : res Database :=
  match fault db with
  | Some e => Raise e
  | None => Ok db
  end.

(** [session.exec(select(..).where(p)).all()] and [.first()]. *)
Definition select_where {A : Type} (p : A -> bool) (table : list A)
  : list A := filter p table.

Definition first {A : Type} (rows : list A) : option A := hd_error rows.

Definition is_not_None {A : Type} (o : option A) : bool :=
  match o with Some _ => true | None => false end.

(* ================================================================= *)
(** ** services/duplicate_checker.py *)

Module DuplicateChecker.

(** The [where] clause of the query. *)
Definition in_window (task_id : Z) (start_window end_window : datetime)
    (row : ReminderLog) : bool :=
  (log_task_id row =? task_id)
  && dt_geb (reminder_datetime row) start_window
  && dt_leb (reminder_datetime row) end_window.

(** [DuplicateChecker.exists] ([exists] is a keyword here). *)
Definition exists_ (db : Database) (task_id : Z)
    (reminder_datetime : datetime) : bool :=
  try_except
    (session <- get_session db ;;
     let tolerance := td_seconds DUPLICATE_CHECK_TOLERANCE_SECONDS in
     start_window <- in_range OverflowError
                       (dt_sub reminder_datetime tolerance) ;;
     end_window <- in_range OverflowError
                     (dt_add reminder_datetime tolerance) ;;
     let result :=
       first (select_where (in_window task_id start_window end_window)
                           (reminder_log session)) in
     Ok (is_not_None result))
    (fun _ => false).

End DuplicateChecker.

(* ================================================================= *)
(** ** services/delivery_tracker.py *)

Module DeliveryTracker.

Definition add_log (db : Database) (entry : ReminderLog) : Database :=
  mkDatabase (fault db) (tasks db) (users db)
             (reminder_log db ++ [entry]) (agent_state db).

Definition log_success (db : Database) (pakistan_now : datetime)
    (task_id : Z) (user_id : string) (reminder_datetime : datetime)
    (email_to email_subject email_body : string) : Database :=
  try_except
    (session <- get_session db ;;
     Ok (add_log session
           (mkReminderLog task_id user_id reminder_datetime email_to
              email_subject email_body SENT None pakistan_now)))
    (fun _ => db).

Definition log_failure (db : Database) (pakistan_now : datetime)
    (task_id : Z) (user_id : string) (reminder_datetime : datetime)
    (email_to email_subject email_body error_message : string) : Database :=
  try_except
    (session <- get_session db ;;
     Ok (add_log session
           (mkReminderLog task_id user_id reminder_datetime email_to
              email_subject email_body FAILED (Some error_message)
              pakistan_now)))
    (fun _ => db).

End DeliveryTracker.

(* ================================================================= *)
(** ** services/task_reader.py *)

Module TaskReader.

Definition _should_process_now (task : Task) (now lookahead : datetime)
  : res bool :=
  match reminder_time task with
  | None => Ok false
  | Some rt =>
      if String.eqb (recurrence_pattern task) "none"
      then
        grace_period <- in_range OverflowError
                          (dt_sub now (td_minutes 5)) ;;
        Ok (dt_leb grace_period rt && dt_ltb rt lookahead)
      else Ok true
  end.

(** The list comprehension [[x for x in xs if p(x)]] with a test that may
    raise. *)
Fixpoint comprehension {A : Type} (p : A -> res bool) (xs : list A)
  : res (list A) :=
  match xs with
  | [] => Ok []
  | x :: rest =>
      keep <- p x ;;
      kept <- comprehension p rest ;;
      Ok (if keep : bool then x :: kept else kept)
  end.

Definition get_tasks_needing_reminders (db : Database) (now : datetime)
    (reminder_lookahead_minutes : Z) : list Task :=
  try_except
    (session <- get_session db ;;
     lookahead <- in_range OverflowError
                    (dt_add now (td_minutes reminder_lookahead_minutes)) ;;
     let tasks :=
       select_where
         (fun t => negb (completed t) && is_not_None (reminder_time t))
         (tasks session) in
     filtered_tasks <-
       comprehension (fun task => _should_process_now task now lookahead)
                     tasks ;;
     Ok filtered_tasks)
    (fun _ => []).

Definition get_user_email (db : Database) (user_id : string)
  : option string :=
  try_except
    (session <- get_session db ;;
     let user :=
       first (select_where (fun u => String.eqb (user_pk u) user_id)
                           (users session)) in
     match user with
     | None => Ok None
     | Some u =>
         if String.eqb (email u) "" then Ok None else Ok (Some (email u))
     end)
    (fun _ => None).

End TaskReader.

(* ================================================================= *)
(** ** jobs/reminder_processor.py *)

Module ReminderProcessor.

Record EmailContent : Type := mkEmailContent {
  subject : string;
  body : string
}.

(** What a cycle takes from outside the scheduling core: the clock, the
    configured lookahead, the mail generator and the mail sender (each may
    raise), and [body_fault], an exception that escapes the body of [run]
    between the fetch and the loop (every guarded call in the body handles
    its own exceptions). *)
Record Env : Type := mkEnv {
  clock : datetime;
  reminder_lookahead_minutes : Z;
  generate : Task -> res EmailContent;
  send : string -> EmailContent -> Task -> res bool;
  body_fault : option exn
}.

Definition set_agent_state (db : Database) (rows : list AgentState)
  : Database :=
  mkDatabase (fault db) (tasks db) (users db) (reminder_log db) rows.

(** The [else] branch of [_update_agent_state]: the assignments to the
    row found. *)
Definition touch (state : AgentState) (pakistan_now : datetime)
    (status_value : string) (processed sent errors : Z) : AgentState :=
  mkAgentState pakistan_now
    (tasks_processed state + processed)
    (reminders_sent state + sent)
    (errors_count state + errors)
    status_value
    (created_at state)
    pakistan_now.

(** When the table is empty the code builds a row without a value for
    [id], the primary key, which has neither a default nor a generator:
    the INSERT is refused at [session.commit()], the exception is caught
    like any other, and the table stays empty. *)
Definition _update_agent_state (env : Env) (db : Database)
    (status : AgentStatus) (tasks_processed reminders_sent errors_count : Z)
  : Database :=
  try_except
    (session <- get_session db ;;
     let pakistan_now := clock env in
     match first (agent_state session) with
     | None => Raise IntegrityError
     | Some state =>
         Ok (set_agent_state session
               (touch state pakistan_now (AgentStatus_value status)
                      tasks_processed reminders_sent errors_count
                :: tl (agent_state session)))
     end)
    (fun _ => db).

(** The counters of [run]. *)
Record Counters : Type := mkCounters {
  n_processed : Z;           (* tasks_processed *)
  n_sent : Z;                (* reminders_sent *)
  n_errors : Z               (* errors_count *)
}.

(** The body of the inner [try] for one task: the database after it and
    the increments of [reminders_sent] and [errors_count], or the
    exception that leaves it. *)
Definition process_task (env : Env) (db : Database) (task : Task)
  : res (Database * Z * Z) :=
  let now := clock env in
  if ReminderCalculator.should_skip_reminder task now then Ok (db, 0, 0)
  else
    reminder_dt <- ReminderCalculator.calculate_reminder_datetime task now ;;
    match reminder_dt with
    | None => Ok (db, 0, 0)
    | Some reminder_dt =>
        if DuplicateChecker.exists_ db (id task) reminder_dt
        then Ok (db, 0, 0)
        else
          match TaskReader.get_user_email db (user_id task) with
          | None => Ok (db, 0, 0)
          | Some user_email =>
              email_content <- generate env task ;;
              success <- send env user_email email_content task ;;
              if success : bool
              then
                Ok (DeliveryTracker.log_success db (clock env) (id task)
                      (user_id task) reminder_dt user_email
                      (subject email_content) (body email_content),
                    1, 0)
              else
                Ok (DeliveryTracker.log_failure db (clock env) (id task)
                      (user_id task) reminder_dt user_email
                      (subject email_content) (body email_content)
                      "Email send failed after retries",
                    0, 1)
          end
    end.

(** One turn of the [for task in tasks] loop. *)
Definition loop_step (env : Env) (st : Database * Counters) (task : Task)
  : Database * Counters :=
  let '(db, c) := st in
  let processed := n_processed c + 1 in
  match process_task env db task with
  | Ok (db', sent, errors) =>
      (db', mkCounters processed (n_sent c + sent) (n_errors c + errors))
  | Raise _ =>
      (db, mkCounters processed (n_sent c) (n_errors c + 1))
  end.

Definition run (env : Env) (db : Database) : Database :=
  let db := _update_agent_state env db RUNNING 0 0 0 in
  let tasks :=
    TaskReader.get_tasks_needing_reminders db (clock env)
      (reminder_lookahead_minutes env) in
  match body_fault env with
  | Some _ => _update_agent_state env db ERROR 0 0 1
  | None =>
      let '(db, c) :=
        fold_left (loop_step env) tasks (db, mkCounters 0 0 0) in
      _update_agent_state env db RUNNING
        (n_processed c) (n_sent c) (n_errors c)
  end.

End ReminderProcessor.

(* ================================================================= *)
(** ** api-service: routes/tasks.py and app/validators.py *)

Module ApiService.

(** [models.py], class [Task]: the fields that the two functions below
    read or set. *)
Record Task : Type := mkTask {
  id : option Z;
  user_id : string;
  title : string;
  description : option string;
  completed : bool;
  priority : option string;
  tags : list string;
  due_date : option datetime;
  reminder_time : option datetime;
  recurrence_pattern : string;
  last_completed_at : option datetime;
  created_at : datetime;
  updated_at : datetime
}.

(** [create_recurring_instance(completed_task, session)].  The clock
    reading [pakistan_now] and the primary key [new_id] that the database
    gives the new row come from outside.  The result is the new task, if
    any, and [completed_task] after the call. *)
Definition create_recurring_instance (completed_task : Task)
    (pakistan_now : datetime) (new_id : Z) : option Task * Task :=
  match due_date completed_task with
  | None => (None, completed_task)
  | Some due =>
      let next_due : option datetime :=
        if String.eqb (recurrence_pattern completed_task) "daily"
        then Some (dt_add due (td_days 1))
        else if String.eqb (recurrence_pattern completed_task) "weekly"
        then Some (dt_add due (td_weeks 1))
        else if String.eqb (recurrence_pattern completed_task) "monthly"
        then Some (dt_add_months due 1)
        else None in
      match next_due with
      | None => (None, completed_task)
      | Some next_due =>
          let next_reminder :=
            match reminder_time completed_task with
            | Some reminder =>
                let reminder_offset := dt_diff due reminder in
                Some (dt_sub next_due reminder_offset)
            | None => None
            end in
          let new_task :=
            mkTask (Some new_id)
                   (user_id completed_task)
                   (title completed_task)
                   (description completed_task)
                   false
                   (priority completed_task)
                   (tags completed_task)
                   (Some next_due)
                   next_reminder
                   (recurrence_pattern completed_task)
                   None
                   pakistan_now
                   pakistan_now in
          let completed_task' :=
            mkTask (id completed_task)
                   (user_id completed_task)
                   (title completed_task)
                   (description completed_task)
                   (completed completed_task)
                   (priority completed_task)
                   (tags completed_task)
                   (due_date completed_task)
                   (reminder_time completed_task)
                   (recurrence_pattern completed_task)
                   (Some pakistan_now)
                   (created_at completed_task)
                   (updated_at completed_task) in
          (Some new_task, completed_task')
      end
  end.

(** [task_to_event_data(task)]: the entries of the dictionary it returns,
    but for [reminder_offset], a text made from a floating-point number
    of seconds. *)
Record TaskEventData : Type := mkTaskEventData {
  ev_title : string;
  ev_description : option string;
  ev_status : string;
  ev_priority : option string;
  ev_tags : list string;
  ev_due_date : option datetime;
  ev_recurrence_rule : option Generator.RecurrenceRule;
  ev_parent_task_id : option Z;
  ev_created_at : datetime;
  ev_updated_at : datetime;
  ev_completed_at : option datetime
}.

Definition task_to_event_data (task : Task) : TaskEventData :=
  let status :=
    if completed task then "completed"%string else "pending"%string in
  let recurrence_rule :=
    if negb (String.eqb (recurrence_pattern task) EmptyString)
       && negb (String.eqb (recurrence_pattern task) "NONE")
    then Some (Generator.mkRecurrenceRule
                 (Some (Generator.lower (recurrence_pattern task)))
                 (Some 1) None None)
    else None in
  mkTaskEventData (title task) (description task) status (priority task)
    (tags task) (due_date task) recurrence_rule None
    (created_at task) (updated_at task)
    (if completed task then last_completed_at task else None).

(** [validate_recurrence_rule(recurrence_rule)]: it returns, or raises
    [HTTPException] with status 400. *)
Inductive validation : Type := Passed | HTTP_400_BAD_REQUEST.

Definition valid_day (d : Z) : bool := negb ((d <? 1) || (d >? 7)).

Definition validate_recurrence_rule
    (recurrence_rule : option Generator.RecurrenceRule) : validation :=
  match recurrence_rule with
  | None => Passed
  | Some rule =>
      let frequency :=
        Generator.lower
          (Generator.get (Generator.frequency rule) EmptyString) in
      if Generator.is_empty rule then Passed
      else if negb (String.eqb frequency "daily"
               || String.eqb frequency "weekly"
               || String.eqb frequency "monthly")
      then HTTP_400_BAD_REQUEST
      else if String.eqb frequency "weekly"
              && match Generator.days_of_week rule with
                 | None | Some [] => true
                 | Some days => negb (forallb valid_day days)
                 end
      then HTTP_400_BAD_REQUEST
      else if String.eqb frequency "monthly"
              && match Generator.day_of_month rule with
                 | None => true
                 | Some d => (d <? 1) || (d >? 31)
                 end
      then HTTP_400_BAD_REQUEST
      else if Generator.get (Generator.interval rule) 1 <? 1
      then HTTP_400_BAD_REQUEST
      else Passed
  end.

End ApiService.

(* ================================================================= *)
(** ** recurring-task-service: app/consumer.py and app/dapr_client.py *)

Module Consumer.

Inductive Status : Type := SUCCESS | RETRY | DROP.

(** The entries of [task_data] and of the event that the handler reads. *)
Record TaskData : Type := mkTaskData {
  recurrence_rule : option Generator.RecurrenceRule;
  due_date : option string
}.

Record Event : Type := mkEvent {
  event_id : option string;
  event_type : option string;
  task_id : option Z;
  user_id : option Z;
  task_data : option TaskData
}.

(** What [save_state] stores under the idempotency key. *)
Record Processed : Type := mkProcessed {
  processed_at : datetime;
  processed_task_id : option Z;
  next_due_date : datetime
}.

(** What [publish_task_event] sends: the event type, the ids, and
    [new_task_data], that is [task_data] with [due_date], [status],
    [completed_at] and [parent_task_id] set. *)
Record Published : Type := mkPublished {
  pub_event_type : string;
  pub_task_id : option Z;
  pub_user_id : option Z;
  pub_task_data : TaskData;
  pub_due_date : datetime;
  pub_status : string;
  pub_parent_task_id : option Z
}.

(** The Dapr sidecar as the handler sees it: the state store, the events
    published so far, and whether each of the three calls of one run of
    the handler goes through (a call that does not go through is logged
    and answers [None] or [False]).  Each call is an HTTP request of its
    own, so between two runs the three flags may change. *)
Record Dapr : Type := mkDapr {
  state_store : list (string * Processed);
  published : list Published;
  get_up : bool;
  publish_up : bool;
  save_up : bool
}.

Fixpoint lookup (key : string) (store : list (string * Processed))
  : option Processed :=
  match store with
  | [] => None
  | (k, v) :: rest => if String.eqb k key then Some v else lookup key rest
  end.

Definition get_state (dapr : Dapr) (key : string) : option Processed :=
  if get_up dapr then lookup key (state_store dapr) else None.

Definition save_state (dapr : Dapr) (key : string) (value : Processed)
  : bool * Dapr :=
  if save_up dapr
  then (true, mkDapr ((key, value) :: state_store dapr) (published dapr)
                     (get_up dapr) (publish_up dapr) (save_up dapr))
  else (false, dapr).

Definition publish_task_event (dapr : Dapr) (event : Published)
  : bool * Dapr :=
  if publish_up dapr
  then (true, mkDapr (state_store dapr) (published dapr ++ [event])
                     (get_up dapr) (publish_up dapr) (save_up dapr))
  else (false, dapr).

(** [s.replace('Z', '+00:00')]. *)
Fixpoint replace_Z (s : string) : string :=
  match s with
  | EmptyString => EmptyString
  | String c s' =>
      if Ascii.eqb c "Z"%char then ("+00:00" ++ replace_Z s')%string
      else String c (replace_Z s')
  end.

(** The clock and [datetime.fromisoformat], which parses or raises. *)
Record Env : Type := mkEnv {
  utcnow : datetime;
  fromisoformat : string -> res datetime
}.

(** The f-string [recurring-task:processed:{event_id}]. *)
Definition idempotency_key (event_id : option string) : string :=
  ("recurring-task:processed:"
   ++ match event_id with Some i => i | None => "None" end)%string.

Definition handle_task_event (env : Env) (dapr : Dapr) (event : Event)
  : Status * Dapr :=
  let task_data :=
    match task_data event with
    | Some td => td
    | None => mkTaskData None None
    end in
  if negb match event_type event with
          | Some t => String.eqb t "task.completed"
          | None => false
          end
  then (DROP, dapr)
  else
    match recurrence_rule task_data with
    | None => (DROP, dapr)
    | Some recurrence_rule =>
        if Generator.is_empty recurrence_rule then (DROP, dapr) else
        let idempotency_key := idempotency_key (event_id event) in
        match get_state dapr idempotency_key with
        | Some _ => (SUCCESS, dapr)
        | None =>
            let completed_at := utcnow env in
            let original_due_date :=
              match due_date task_data with
              | None => None
              | Some due_date_str =>
                  if String.eqb due_date_str EmptyString then None
                  else
                    try_except
                      (d <- fromisoformat env (replace_Z due_date_str) ;;
                       Ok (Some d))
                      (fun _ => None)
              end in
            match Generator.calculate_next_occurrence
                    completed_at recurrence_rule original_due_date with
            | None => (DROP, dapr)
            | Some next_due_date =>
                let '(success, dapr) :=
                  publish_task_event dapr
                    (mkPublished "task.created"%string (task_id event)
                       (user_id event) task_data next_due_date
                       "pending"%string (task_id event)) in
                if negb success then (RETRY, dapr)
                else
                  let '(_, dapr) :=
                    save_state dapr idempotency_key
                      (mkProcessed (utcnow env) (task_id event)
                                   next_due_date) in
                  (SUCCESS, dapr)
            end
        end
    end.

End Consumer.

(* ================================================================= *)
(** ** Specification devices for the reminder calculator *)

(** The candidate of the daily and weekly rules: the anchor's time of day
    on the day of [now]. *)
Definition today_reminder (reminder_time now : datetime) : datetime :=
  combine (dt_date now) (dt_time reminder_time).

(** The candidate of the monthly rule in the month [j] months after the
    month of [now]: the anchor's day of the month, or the last day of that
    month, at the anchor's time of day. *)
Definition month_reminder (reminder_time now : datetime) (j : Z) : datetime :=
  combine (place_day (month_index (dt_date now) + j)
                     (day (dt_date reminder_time)))
          (dt_time reminder_time).

(** The recurring patterns. *)
Definition recurring (pattern : string) : Prop :=
  pattern = "daily"%string \/ pattern = "weekly"%string \/
  pattern = "monthly"%string.

(** Date [d] is day [k] of the month with index [i], or the last day of
    that month when it has no day [k]. *)
Definition placed_in_month (d : date) (i k : Z) : Prop :=
  month_index d = i /\ 1 <= month d <= 12 /\
  day d = Z.min k (days_in_month (year d) (month d)).

(** The time of day of the generator's result: the hour, minute and
    second of the original due date when there is one, with the
    microsecond of [completed_at]; the time of [completed_at] otherwise. *)
Definition due_time (completed_at : datetime)
    (original_due_date : option datetime) : time :=
  match original_due_date with
  | Some due =>
      mkTime (hour (dt_time due)) (minute (dt_time due))
             (second (dt_time due)) (microsecond (dt_time completed_at))
  | None => dt_time completed_at
  end.

(** Text of ASCII characters only, on which [lower] is [str.lower()]. *)
Definition is_ascii (s : string) : bool :=
  forallb (fun c => (Ascii.N_of_ascii c <? 128)%N) (list_ascii_of_string s).

(* ================================================================= *)
(** ** Specification devices for the event consumer *)

(** [task_data = event.get("task_data", {})] and the original due date as
    the handler reads it from the event. *)
Definition task_data_of (event : Consumer.Event) : Consumer.TaskData :=
  match Consumer.task_data event with
  | Some td => td
  | None => Consumer.mkTaskData None None
  end.

Definition original_due_date_of (env : Consumer.Env)
    (td : Consumer.TaskData) : option datetime :=
  match Consumer.due_date td with
  | None => None
  | Some due_date_str =>
      if String.eqb due_date_str EmptyString then None
      else
        try_except
          (d <- Consumer.fromisoformat env (Consumer.replace_Z due_date_str) ;;
           Ok (Some d))
          (fun _ => None)
  end.

(* ================================================================= *)
(** ** Specification devices for the scheduling loop *)




(* ================================================================= *)
(** ** Sample values, used to instantiate the theorems *)

Definition at_ (y mo d h mi : Z) : datetime :=
  combine (mkDate y mo d) (mkTime h mi 0 0).

Definition sample_task (pattern : string) (rt : datetime) : Task :=
  mkTask 1 "user_abc123" "Pay rent" false None (Some rt) pattern.

Definition sample_row (task_id : Z) (T : datetime) : ReminderLog :=
  mkReminderLog task_id "user_abc123" T "user@example.com"
                "Reminder: Pay rent" "Pay rent is due." SENT None T.

Definition sample_user : User :=
  mkUser "user_abc123" "user@example.com" None.

(** A database within reach and one out of reach, with the same tables. *)
Definition sample_db (f : option exn) : Database :=
  mkDatabase f
    [sample_task "none" (at_ 2025 1 15 14 0)]
    [sample_user]
    [sample_row 1 (at_ 2025 1 15 14 0)]
    [].

Definition sample_state : AgentState :=
  mkAgentState (at_ 2025 1 15 13 58) 10 4 1 "initialized"
               (at_ 2025 1 1 0 0) (at_ 2025 1 15 13 58).

(** A database with a heartbeat row and one task whose reminder is due. *)
Definition sample_db_with_state : Database :=
  mkDatabase None
    [sample_task "none" (at_ 2025 1 15 14 0)]
    [sample_user] [] [sample_state].

Definition sample_env (crash : option exn) : ReminderProcessor.Env :=
  ReminderProcessor.mkEnv (at_ 2025 1 15 14 3) 5
    (fun _ => Ok (ReminderProcessor.mkEmailContent
                    "Reminder: Pay rent" "Pay rent is due."))
    (fun _ _ _ => Ok true)
    crash.

(** A task due on 1 January 2025 at 09:00, seen on 8 January at 10:00: seven
    days and one hour overdue. *)
Definition overdue_task : Task :=
  mkTask 1 "user_abc123" "Pay rent" false
         (Some (at_ 2025 1 1 9 0)) (Some (at_ 2025 1 1 8 0)) "daily".

Definition overdue_now : datetime := at_ 2025 1 8 10 0.

(** Wednesday 15 January 2025 at 08:00, and a due date at 09:00. *)
Definition wednesday_morning : datetime := at_ 2025 1 15 8 0.
Definition due_at_nine : datetime := at_ 2025 1 13 9 0.

(** A completion event for a daily task, the sidecar with nothing stored
    or published, and the consumer's clock. *)
Definition sample_event : Consumer.Event :=
  Consumer.mkEvent (Some "e-1"%string) (Some "task.completed"%string)
    (Some 1) (Some 7)
    (Some (Consumer.mkTaskData
             (Some (Generator.mkRecurrenceRule (Some "daily"%string) (Some 1)
                                               None None))
             None)).

Definition sample_dapr (save_up : bool) : Consumer.Dapr :=
  Consumer.mkDapr [] [] true true save_up.

Definition sample_consumer_env (utcnow : datetime) : Consumer.Env :=
  Consumer.mkEnv utcnow (fun _ => Raise ValueError).

(* ================================================================= *)
(** * Calendar lemmas *)

(** Split a month known to lie in 1..12 into its twelve values. *)
Ltac month_cases m :=
  let H := fresh "Hm" in
  assert (H : m = 1 \/ m = 2 \/ m = 3 \/ m = 4 \/ m = 5 \/ m = 6 \/
              m = 7 \/ m = 8 \/ m = 9 \/ m = 10 \/ m = 11 \/ m = 12) by lia;
  repeat (destruct H as [H | H]; [ subst m | ]); [ .. | subst m ].

Lemma leap_day_range (y : Z) : 0 <= leap_day y <= 1.
Proof. unfold leap_day; destruct (is_leap y); lia. Qed.

Lemma date_ok_iff (d : date) :
  date_ok d = true <->
  1 <= month d <= 12 /\ 1 <= day d <= days_in_month (year d) (month d).
Proof.
  unfold date_ok. rewrite !andb_true_iff, !Z.leb_le. lia.
Qed.

Lemma time_ok_iff (t : time) :
  time_ok t = true <->
  0 <= hour t < 24 /\ 0 <= minute t < 60 /\ 0 <= second t < 60 /\
  0 <= microsecond t < 1000000.
Proof.
  unfold time_ok. rewrite !andb_true_iff, !Z.leb_le, !Z.ltb_lt. lia.
Qed.

Lemma datetime_ok_iff (dt : datetime) :
  datetime_ok dt = true <->
  date_ok (dt_date dt) = true /\ time_ok (dt_time dt) = true.
Proof. unfold datetime_ok. apply andb_true_iff. Qed.

Lemma days_in_month_range (y m : Z) : 28 <= days_in_month y m <= 31.
Proof.
  unfold days_in_month. pose proof (leap_day_range y).
  destruct (m =? 2); [lia|].
  destruct ((m =? 4) || (m =? 6) || (m =? 9) || (m =? 11)); lia.
Qed.

Lemma days_before_month_succ (y m : Z) :
  1 <= m < 12 ->
  days_before_month y (m + 1) = days_before_month y m + days_in_month y m.
Proof.
  intros Hm. month_cases m; try lia;
    unfold days_before_month, days_in_month, leap_day;
    destruct (is_leap y); reflexivity.
Qed.

Lemma days_before_month_december (y : Z) :
  days_before_month y 12 + days_in_month y 12 = 365 + leap_day y.
Proof.
  unfold days_before_month, days_in_month, leap_day;
  destruct (is_leap y); reflexivity.
Qed.

Lemma days_before_year_succ (y : Z) :
  days_before_year (y + 1) = days_before_year y + 365 + leap_day y.
Proof.
  unfold days_before_year, leap_day, is_leap. cbv zeta.
  replace (y + 1 - 1) with y by lia.
  destruct (Z.eqb_spec (y mod 4) 0), (Z.eqb_spec (y mod 100) 0),
    (Z.eqb_spec (y mod 400) 0); cbn [andb orb negb];
    Z.div_mod_to_equations; lia.
Qed.

Lemma toordinal_tomorrow (d : date) :
  date_ok d = true ->
  toordinal (tomorrow d) = toordinal d + 1 /\ date_ok (tomorrow d) = true.
Proof.
  intros Hd. apply date_ok_iff in Hd. destruct Hd as [Hm Hday].
  unfold tomorrow.
  destruct (Z.ltb_spec (day d) (days_in_month (year d) (month d))).
  - split; [unfold toordinal; cbn; lia | apply date_ok_iff; cbn; lia].
  - destruct (Z.ltb_spec (month d) 12).
    + split.
      * unfold toordinal; cbn [year month day].
        rewrite days_before_month_succ by lia. lia.
      * apply date_ok_iff; cbn [year month day].
        pose proof (days_in_month_range (year d) (month d + 1)). lia.
    + assert (month d = 12) as E by lia. split.
      * unfold toordinal; cbn [year month day].
        rewrite days_before_year_succ.
        pose proof (days_before_month_december (year d)).
        rewrite E in *. change (days_before_month (year d + 1) 1) with 0. lia.
      * reflexivity.
Qed.

Lemma toordinal_yesterday (d : date) :
  date_ok d = true ->
  toordinal (yesterday d) = toordinal d - 1 /\ date_ok (yesterday d) = true.
Proof.
  intros Hd. apply date_ok_iff in Hd. destruct Hd as [Hm Hday].
  unfold yesterday.
  destruct (Z.ltb_spec 1 (day d)).
  - split; [unfold toordinal; cbn; lia | apply date_ok_iff; cbn; lia].
  - destruct (Z.ltb_spec 1 (month d)).
    + split.
      * unfold toordinal; cbn [year month day].
        pose proof (days_before_month_succ (year d) (month d - 1)) as S.
        replace (month d - 1 + 1) with (month d) in S by lia. lia.
      * apply date_ok_iff; cbn [year month day].
        pose proof (days_in_month_range (year d) (month d - 1)). lia.
    + assert (month d = 1) as E by lia. split.
      * unfold toordinal; cbn [year month day].
        pose proof (days_before_year_succ (year d - 1)) as S.
        replace (year d - 1 + 1) with (year d) in S by lia.
        pose proof (days_before_month_december (year d - 1)) as D.
        change (days_in_month (year d - 1) 12) with 31 in D.
        rewrite E. change (days_before_month (year d) 1) with 0. lia.
      * reflexivity.
Qed.

Lemma toordinal_iter_tomorrow (n : nat) (d : date) :
  date_ok d = true ->
  toordinal (Nat.iter n tomorrow d) = toordinal d + Z.of_nat n /\
  date_ok (Nat.iter n tomorrow d) = true.
Proof.
  intros Hd. induction n as [|n [IHo IHk]].
  - cbn. split; [lia | exact Hd].
  - change (Nat.iter (S n) tomorrow d) with (tomorrow (Nat.iter n tomorrow d)).
    destruct (toordinal_tomorrow _ IHk) as [E K].
    split; [lia | exact K].
Qed.

Lemma toordinal_iter_yesterday (n : nat) (d : date) :
  date_ok d = true ->
  toordinal (Nat.iter n yesterday d) = toordinal d - Z.of_nat n /\
  date_ok (Nat.iter n yesterday d) = true.
Proof.
  intros Hd. induction n as [|n [IHo IHk]].
  - cbn. split; [lia | exact Hd].
  - change (Nat.iter (S n) yesterday d)
      with (yesterday (Nat.iter n yesterday d)).
    destruct (toordinal_yesterday _ IHk) as [E K].
    split; [lia | exact K].
Qed.

Lemma toordinal_add_days (d : date) (n : Z) :
  date_ok d = true ->
  toordinal (date_add_days d n) = toordinal d + n.
Proof.
  intros Hd. unfold date_add_days. destruct (Z.leb_spec 0 n).
  - destruct (toordinal_iter_tomorrow (Z.to_nat n) d Hd) as [E _]. lia.
  - destruct (toordinal_iter_yesterday (Z.to_nat (- n)) d Hd) as [E _]. lia.
Qed.

Lemma date_ok_add_days (d : date) (n : Z) :
  date_ok d = true -> date_ok (date_add_days d n) = true.
Proof.
  intros Hd. unfold date_add_days. destruct (0 <=? n).
  - apply toordinal_iter_tomorrow, Hd.
  - apply toordinal_iter_yesterday, Hd.
Qed.

(** *** Times of day *)

Lemma time_to_us_range (t : time) :
  time_ok t = true -> 0 <= time_to_us t < us_per_day.
Proof.
  intros H. apply time_ok_iff in H.
  unfold time_to_us, us_per_day, us_per_hour, us_per_minute, us_per_second.
  lia.
Qed.

Lemma time_of_us_to_us (t : time) :
  time_ok t = true -> time_of_us (time_to_us t) = t.
Proof.
  intros H. apply time_ok_iff in H. destruct t as [h m s u]. cbn in H.
  unfold time_of_us, time_to_us, us_per_hour, us_per_minute, us_per_second.
  cbn [hour minute second microsecond].
  f_equal; Z.div_mod_to_equations; lia.
Qed.

Lemma time_to_us_of_us (u : Z) :
  0 <= u < us_per_day ->
  time_to_us (time_of_us u) = u /\ time_ok (time_of_us u) = true.
Proof.
  unfold us_per_day, us_per_hour, us_per_minute, us_per_second. intros H.
  split.
  - unfold time_of_us, time_to_us, us_per_hour, us_per_minute, us_per_second.
    cbn [hour minute second microsecond].
    Z.div_mod_to_equations; lia.
  - apply time_ok_iff.
    unfold time_of_us, us_per_hour, us_per_minute, us_per_second.
    cbn [hour minute second microsecond].
    Z.div_mod_to_equations; lia.
Qed.

(** *** Instants *)

Lemma to_us_dt_add (dt : datetime) (delta : timedelta) :
  datetime_ok dt = true ->
  to_us (dt_add dt delta) = to_us dt + delta /\
  datetime_ok (dt_add dt delta) = true.
Proof.
  intros H. apply datetime_ok_iff in H. destruct H as [Hd Ht].
  unfold dt_add. set (u := time_to_us (dt_time dt) + delta).
  assert (0 < us_per_day) as Hpos by (vm_compute; reflexivity).
  pose proof (Z.mod_pos_bound u us_per_day Hpos) as Hr.
  destruct (time_to_us_of_us _ Hr) as [E K].
  split.
  - unfold to_us. cbn [dt_date dt_time].
    rewrite toordinal_add_days, E by exact Hd.
    pose proof (Z.div_mod u us_per_day) as DM. subst u. lia.
  - apply datetime_ok_iff. cbn [dt_date dt_time].
    split; [apply date_ok_add_days, Hd | exact K].
Qed.

Lemma to_us_dt_sub (dt : datetime) (delta : timedelta) :
  datetime_ok dt = true ->
  to_us (dt_sub dt delta) = to_us dt - delta /\
  datetime_ok (dt_sub dt delta) = true.
Proof.
  intros H. unfold dt_sub. destruct (to_us_dt_add dt (- delta) H). split;
    [lia | assumption].
Qed.

(** *** The field-wise order is the order of instants *)

Lemma days_before_year_mono (y1 y2 : Z) :
  y1 <= y2 -> days_before_year y1 <= days_before_year y2.
Proof.
  intros H. unfold days_before_year. cbv zeta.
  Z.div_mod_to_equations. lia.
Qed.

Lemma days_before_month_bound (y m : Z) :
  1 <= m <= 12 ->
  0 <= days_before_month y m /\
  days_before_month y m + days_in_month y m <= 365 + leap_day y.
Proof.
  intros Hm. month_cases m;
    unfold days_before_month, days_in_month, leap_day;
    destruct (is_leap y); cbn; lia.
Qed.

Lemma days_before_month_mono (y m1 m2 : Z) :
  1 <= m1 -> m1 < m2 -> m2 <= 12 ->
  days_before_month y m1 + days_in_month y m1 <= days_before_month y m2.
Proof.
  intros H1 H12 H2.
  month_cases m1; month_cases m2; try lia;
    unfold days_before_month, days_in_month, leap_day;
    destruct (is_leap y); cbn; lia.
Qed.

Lemma toordinal_lt_year (a b : date) :
  date_ok a = true -> date_ok b = true ->
  year a < year b -> toordinal a < toordinal b.
Proof.
  intros Ha Hb Hy. apply date_ok_iff in Ha, Hb.
  unfold toordinal.
  pose proof (days_before_month_bound (year a) (month a) (proj1 Ha)).
  pose proof (days_before_month_bound (year b) (month b) (proj1 Hb)).
  pose proof (days_before_year_succ (year a)).
  pose proof (days_before_year_mono (year a + 1) (year b)).
  lia.
Qed.

Lemma toordinal_lt_month (a b : date) :
  date_ok a = true -> date_ok b = true ->
  year a = year b -> month a < month b -> toordinal a < toordinal b.
Proof.
  intros Ha Hb Hy Hm. apply date_ok_iff in Ha, Hb.
  unfold toordinal. rewrite Hy.
  pose proof (days_before_month_mono (year b) (month a) (month b)).
  rewrite Hy in Ha. lia.
Qed.

Lemma date_compare_toordinal (a b : date) :
  date_ok a = true -> date_ok b = true ->
  date_compare a b = (toordinal a ?= toordinal b).
Proof.
  intros Ha Hb. unfold date_compare, lex. symmetry.
  destruct (Z.compare_spec (year a) (year b)) as [Ey | Ly | Ly].
  - destruct (Z.compare_spec (month a) (month b)) as [Em | Lm | Lm].
    + unfold toordinal. rewrite Ey, Em.
      destruct (Z.compare_spec (day a) (day b));
        [apply Z.compare_eq_iff | apply Z.compare_lt_iff
        | apply Z.compare_gt_iff]; lia.
    + apply Z.compare_lt_iff, toordinal_lt_month; assumption.
    + apply Z.compare_gt_iff, toordinal_lt_month; auto.
  - apply Z.compare_lt_iff, toordinal_lt_year; assumption.
  - apply Z.compare_gt_iff, toordinal_lt_year; assumption.
Qed.

Lemma time_compare_to_us (a b : time) :
  time_ok a = true -> time_ok b = true ->
  time_compare a b = (time_to_us a ?= time_to_us b).
Proof.
  intros Ha Hb. apply time_ok_iff in Ha, Hb.
  unfold time_compare, lex, time_to_us,
    us_per_hour, us_per_minute, us_per_second. symmetry.
  destruct (Z.compare_spec (hour a) (hour b));
    [ destruct (Z.compare_spec (minute a) (minute b));
      [ destruct (Z.compare_spec (second a) (second b));
        [ destruct (Z.compare_spec (microsecond a) (microsecond b)) | | ]
      | | ]
    | | ];
    first [ apply Z.compare_eq_iff; lia | apply Z.compare_lt_iff; lia
          | apply Z.compare_gt_iff; lia ].
Qed.

Lemma dt_compare_to_us (a b : datetime) :
  datetime_ok a = true -> datetime_ok b = true ->
  dt_compare a b = (to_us a ?= to_us b).
Proof.
  intros Ha Hb. apply datetime_ok_iff in Ha, Hb.
  destruct Ha as [Hda Hta], Hb as [Hdb Htb].
  unfold dt_compare, to_us.
  rewrite date_compare_toordinal, time_compare_to_us by assumption.
  pose proof (time_to_us_range _ Hta). pose proof (time_to_us_range _ Htb).
  unfold lex. symmetry.
  destruct (Z.compare_spec (toordinal (dt_date a)) (toordinal (dt_date b)))
    as [E | L | L].
  - rewrite E.
    destruct (Z.compare_spec (time_to_us (dt_time a))
                             (time_to_us (dt_time b)));
      [apply Z.compare_eq_iff | apply Z.compare_lt_iff
      | apply Z.compare_gt_iff]; lia.
  - apply Z.compare_lt_iff. nia.
  - apply Z.compare_gt_iff. nia.
Qed.

Lemma dt_ltb_to_us (a b : datetime) :
  datetime_ok a = true -> datetime_ok b = true ->
  dt_ltb a b = (to_us a <? to_us b).
Proof.
  intros Ha Hb. unfold dt_ltb, Z.ltb. now rewrite dt_compare_to_us.
Qed.

Lemma dt_leb_to_us (a b : datetime) :
  datetime_ok a = true -> datetime_ok b = true ->
  dt_leb a b = (to_us a <=? to_us b).
Proof.
  intros Ha Hb. unfold dt_leb, Z.leb. now rewrite dt_compare_to_us.
Qed.

Lemma dt_gtb_to_us (a b : datetime) :
  datetime_ok a = true -> datetime_ok b = true ->
  dt_gtb a b = (to_us b <? to_us a).
Proof. intros. unfold dt_gtb. now apply dt_ltb_to_us. Qed.

Lemma dt_geb_to_us (a b : datetime) :
  datetime_ok a = true -> datetime_ok b = true ->
  dt_geb a b = (to_us b <=? to_us a).
Proof. intros. unfold dt_geb. now apply dt_leb_to_us. Qed.

Lemma dt_compare_Eq (a b : datetime) : dt_compare a b = Eq -> a = b.
Proof.
  destruct a as [[ya ma da] [ha mia sa ua]], b as [[yb mb db] [hb mib sb ub]].
  unfold dt_compare, date_compare, time_compare, lex.
  cbn [dt_date dt_time year month day hour minute second microsecond].
  destruct (Z.compare_spec ya yb); try discriminate.
  destruct (Z.compare_spec ma mb); try discriminate.
  destruct (Z.compare_spec da db); try discriminate.
  destruct (Z.compare_spec ha hb); try discriminate.
  destruct (Z.compare_spec mia mib); try discriminate.
  destruct (Z.compare_spec sa sb); try discriminate.
  destruct (Z.compare_spec ua ub); try discriminate.
  intros _. congruence.
Qed.

Lemma to_us_inj (a b : datetime) :
  datetime_ok a = true -> datetime_ok b = true ->
  to_us a = to_us b -> a = b.
Proof.
  intros Ha Hb E. apply dt_compare_Eq.
  rewrite dt_compare_to_us by assumption. now apply Z.compare_eq_iff.
Qed.

(** *** Months *)

Lemma month_index_place_day (i k : Z) : month_index (place_day i k) = i.
Proof.
  unfold month_index, place_day. cbn [year month].
  Z.div_mod_to_equations. lia.
Qed.

Lemma date_ok_place_day (i k : Z) :
  1 <= k -> date_ok (place_day i k) = true.
Proof.
  intros Hk. apply date_ok_iff. unfold place_day. cbn [year month day].
  pose proof (days_in_month_range (i / 12) (i mod 12 + 1)).
  pose proof (Z.mod_pos_bound i 12). lia.
Qed.

Lemma date_add_months_place_day (d : date) (k : Z) :
  date_add_months d k = place_day (month_index d + k) (day d).
Proof. reflexivity. Qed.

Lemma month_index_inj (a b : date) :
  1 <= month a <= 12 -> 1 <= month b <= 12 ->
  month_index a = month_index b -> year a = year b /\ month a = month b.
Proof. unfold month_index. lia. Qed.

Lemma place_day_self (d : date) :
  date_ok d = true -> place_day (month_index d) (day d) = d.
Proof.
  intros H. apply date_ok_iff in H. destruct d as [y m k].
  unfold place_day, month_index. cbn [year month day] in *.
  assert ((12 * y + (m - 1)) / 12 = y) as -> by (Z.div_mod_to_equations; lia).
  assert ((12 * y + (m - 1)) mod 12 + 1 = m) as ->
    by (Z.div_mod_to_equations; lia).
  f_equal. lia.
Qed.

Lemma toordinal_lt_month_index (a b : date) :
  date_ok a = true -> date_ok b = true ->
  month_index a < month_index b -> toordinal a < toordinal b.
Proof.
  intros Ha Hb L.
  pose proof (proj1 (date_ok_iff a) Ha) as [Hma _].
  pose proof (proj1 (date_ok_iff b) Hb) as [Hmb _].
  unfold month_index in L.
  destruct (Z.lt_ge_cases (year a) (year b)).
  - now apply toordinal_lt_year.
  - apply toordinal_lt_month; try assumption; lia.
Qed.

(** [replace(day=k)] with the fall-back to the last day of the month, as
    both calculators write it, is [place_day]. *)
Lemma date_replace_day_spec (d : date) (k : Z) :
  date_ok d = true -> 1 <= k ->
  date_replace_day d k =
    if k <=? days_in_month (year d) (month d)
    then Ok (place_day (month_index d) k)
    else Raise ValueError.
Proof.
  intros H Hk. unfold date_replace_day.
  replace (1 <=? k) with true by (symmetry; apply Z.leb_le; exact Hk).
  cbn [andb].
  destruct (Z.leb_spec k (days_in_month (year d) (month d))); [|reflexivity].
  f_equal. rewrite <- (place_day_self d H) at 1.
  unfold place_day. cbn [year month day].
  apply date_ok_iff in H.
  set (i := month_index d).
  assert (i / 12 = year d) as Ey
    by (subst i; unfold month_index; Z.div_mod_to_equations; lia).
  assert (i mod 12 + 1 = month d) as Em
    by (subst i; unfold month_index; Z.div_mod_to_equations; lia).
  rewrite Ey, Em. f_equal. lia.
Qed.

Lemma date_add_days_minus_1 (d : date) : date_add_days d (-1) = yesterday d.
Proof. reflexivity. Qed.

Lemma date_add_days_0 (d : date) : date_add_days d 0 = d.
Proof. reflexivity. Qed.

(** The day before the first of a month is the last day of the month
    before. *)
Lemma last_day_of_month (i : Z) :
  date_add_days (place_day (i + 1) 1) (-1) =
  place_day i (days_in_month (i / 12) (i mod 12 + 1)).
Proof.
  rewrite date_add_days_minus_1.
  unfold yesterday, place_day. cbn [year month day].
  pose proof (days_in_month_range ((i + 1) / 12) ((i + 1) mod 12 + 1)).
  rewrite Z.min_l by lia. rewrite Z.min_id.
  rewrite Z.ltb_irrefl.
  destruct (Z.ltb_spec 1 ((i + 1) mod 12 + 1)).
  - assert ((i + 1) / 12 = i / 12) as -> by (Z.div_mod_to_equations; lia).
    assert ((i + 1) mod 12 + 1 - 1 = i mod 12 + 1) as ->
      by (Z.div_mod_to_equations; lia).
    reflexivity.
  - assert ((i + 1) / 12 - 1 = i / 12) as -> by (Z.div_mod_to_equations; lia).
    assert (i mod 12 + 1 = 12) as -> by (Z.div_mod_to_equations; lia).
    reflexivity.
Qed.

Lemma place_day_day_1 (i : Z) : day (place_day i 1) = 1.
Proof.
  unfold place_day. cbn [day].
  pose proof (days_in_month_range (i / 12) (i mod 12 + 1)). lia.
Qed.

(** The [try: .. replace(day=k) / except ValueError: first of the month
    after, minus one day] of both monthly branches of the reminder
    calculator: month [j] after the month of [d]. *)
Lemma replace_day_or_last (d : date) (j k : Z) :
  date_ok d = true -> 1 <= k ->
  try_except_ValueError
    (date_replace_day (date_add_months d j) k)
    (first_of_this_month <- date_replace_day d 1 ;;
     Ok (date_add_days (date_add_months first_of_this_month (j + 1)) (-1)))
  = Ok (place_day (month_index d + j) k).
Proof.
  intros Hd Hk.
  pose proof (proj1 (date_ok_iff d) Hd) as [Hm Hday].
  rewrite date_add_months_place_day.
  rewrite date_replace_day_spec
    by (try apply date_ok_place_day; lia).
  rewrite month_index_place_day.
  destruct (Z.leb_spec k (days_in_month
              (year (place_day (month_index d + j) (day d)))
              (month (place_day (month_index d + j) (day d)))))
    as [L | G]; [reflexivity|].
  cbn [try_except_ValueError].
  rewrite date_replace_day_spec by (assumption || lia).
  pose proof (days_in_month_range (year d) (month d)).
  replace (1 <=? days_in_month (year d) (month d)) with true
    by (symmetry; apply Z.leb_le; lia).
  cbn [bind]. rewrite date_add_months_place_day, month_index_place_day.
  rewrite place_day_day_1.
  replace (month_index d + (j + 1)) with (month_index d + j + 1) by lia.
  rewrite last_day_of_month. f_equal.
  unfold place_day in *. cbn [year month day] in *. f_equal. lia.
Qed.

Lemma date_add_months_0 (d : date) :
  date_ok d = true -> date_add_months d 0 = d.
Proof.
  intros H. rewrite date_add_months_place_day, Z.add_0_r.
  now apply place_day_self.
Qed.

Lemma later_day_is_later (a b : datetime) :
  datetime_ok a = true -> datetime_ok b = true ->
  toordinal (dt_date a) < toordinal (dt_date b) -> to_us a < to_us b.
Proof.
  intros Ha Hb L. apply datetime_ok_iff in Ha, Hb.
  pose proof (time_to_us_range _ (proj2 Ha)).
  pose proof (time_to_us_range _ (proj2 Hb)).
  unfold to_us. nia.
Qed.

Lemma weekday_range (d : date) : 0 <= weekday d < 7.
Proof. unfold weekday. apply Z.mod_pos_bound. lia. Qed.

Lemma weekday_add_days (d : date) (k : Z) :
  date_ok d = true ->
  weekday (date_add_days d k) = (weekday d + k) mod 7.
Proof.
  intros H. unfold weekday. rewrite toordinal_add_days by exact H.
  rewrite Zplus_mod_idemp_l. f_equal. lia.
Qed.

Lemma dt_add_whole_days (dt : datetime) (k : Z) :
  datetime_ok dt = true ->
  dt_add dt (td_days k) = combine (date_add_days (dt_date dt) k) (dt_time dt).
Proof.
  intros H. apply datetime_ok_iff in H. destruct H as [_ Ht].
  pose proof (time_to_us_range _ Ht) as R.
  assert (0 < us_per_day) as Hpos by (vm_compute; reflexivity).
  unfold dt_add, td_days.
  rewrite Z.div_add, Z.mod_add by lia.
  rewrite Z.div_small, Z.mod_small by exact R.
  rewrite Z.add_0_l, time_of_us_to_us by exact Ht. reflexivity.
Qed.

(* ================================================================= *)
(** * Python's range of years *)

Lemma year_of_nearby_day (a b : date) :
  date_ok a = true -> date_ok b = true ->
  toordinal a <= toordinal b <= toordinal a + 31 ->
  year a <= year b <= year a + 1.
Proof.
  intros Ha Hb R. split.
  - destruct (Z.lt_ge_cases (year b) (year a)) as [L | G]; [| lia].
    pose proof (toordinal_lt_year b a Hb Ha L). lia.
  - destruct (Z.lt_ge_cases (year a + 1) (year b)) as [L | G]; [| lia].
    apply date_ok_iff in Ha, Hb.
    pose proof (days_before_month_bound (year a) _ (proj1 Ha)).
    pose proof (days_before_month_bound (year b) _ (proj1 Hb)).
    pose proof (leap_day_range (year a)).
    pose proof (days_before_year_succ (year a)).
    pose proof (days_before_year_succ (year a + 1)).
    pose proof (days_before_year_mono (year a + 1 + 1) (year b)).
    pose proof (leap_day_range (year a + 1)).
    unfold toordinal in R. lia.
Qed.

Lemma days_before_year_span (y m : Z) :
  0 <= m -> days_before_year y + 365 * m <= days_before_year (y + m).
Proof.
  intros Hm. unfold days_before_year. Z.div_mod_to_equations. lia.
Qed.

Lemma toordinal_in_year (d : date) :
  date_ok d = true ->
  days_before_year (year d) < toordinal d <= days_before_year (year d + 1).
Proof.
  intros H. apply date_ok_iff in H.
  pose proof (days_before_month_bound (year d) _ (proj1 H)).
  pose proof (days_before_year_succ (year d)).
  pose proof (leap_day_range (year d)).
  unfold toordinal. lia.
Qed.

Lemma year_le_of_toordinal (a b : date) :
  date_ok a = true -> date_ok b = true ->
  toordinal a <= toordinal b -> year a <= year b.
Proof.
  intros Ha Hb L.
  destruct (Z.lt_ge_cases (year b) (year a)) as [Lt | G]; [| lia].
  pose proof (toordinal_lt_year b a Hb Ha Lt). lia.
Qed.

(** A date at most [365 * m] days away lies at most [m] years away. *)
Lemma year_of_later_day (a b : date) (m : Z) :
  date_ok a = true -> date_ok b = true -> 0 <= m ->
  toordinal a <= toordinal b <= toordinal a + 365 * m ->
  year a <= year b <= year a + m.
Proof.
  intros Ha Hb Hm R.
  pose proof (toordinal_in_year a Ha) as Ia.
  pose proof (toordinal_in_year b Hb) as Ib.
  split.
  - destruct (Z.lt_ge_cases (year b) (year a)) as [L | G]; [| lia].
    pose proof (days_before_year_mono (year b + 1) (year a)). lia.
  - destruct (Z.lt_ge_cases (year a + m) (year b)) as [L | G]; [| lia].
    pose proof (days_before_year_span (year a + 1) m Hm).
    pose proof (days_before_year_mono (year a + 1 + m) (year b)). lia.
Qed.

Lemma representable_iff (dt : datetime) :
  representable dt = true <-> MINYEAR <= year (dt_date dt) <= MAXYEAR.
Proof.
  unfold representable. rewrite andb_true_iff, !Z.leb_le. reflexivity.
Qed.

Lemma in_range_Ok (e : exn) (dt : datetime) :
  representable dt = true -> in_range e dt = Ok dt.
Proof. intros H. unfold in_range. now rewrite H. Qed.

Lemma in_range_inv (e : exn) (dt r : datetime) :
  in_range e dt = Ok r -> r = dt /\ representable dt = true.
Proof.
  unfold in_range. destruct (representable dt); [| discriminate].
  intros H. injection H as <-. auto.
Qed.

(** A well-formed date at most [365 * m] days from a date in the years
    [MINYEAR + m] to [MAXYEAR - m] is representable. *)
Lemma representable_days_away (a : datetime) (b : date) (t : time) (m : Z) :
  datetime_ok a = true -> date_ok b = true -> 0 <= m ->
  Z.abs (toordinal b - toordinal (dt_date a)) <= 365 * m ->
  MINYEAR + m <= year (dt_date a) <= MAXYEAR - m ->
  representable (combine b t) = true.
Proof.
  intros Ha Hb Hm Hclose Hy. apply datetime_ok_iff in Ha. destruct Ha as [Ha _].
  apply representable_iff. cbn [dt_date].
  destruct (Z.le_ge_cases (toordinal (dt_date a)) (toordinal b)) as [L | G].
  - pose proof (year_of_later_day (dt_date a) b m Ha Hb Hm). lia.
  - pose proof (year_of_later_day b (dt_date a) m Hb Ha Hm). lia.
Qed.

(** An instant at most [365 * m] days from a datetime in the years
    [MINYEAR + m] to [MAXYEAR - m] is representable. *)
Lemma representable_near (a : datetime) (delta : timedelta) (m : Z) :
  datetime_ok a = true -> 0 <= m ->
  - td_days (365 * m) <= delta <= td_days (365 * m) ->
  MINYEAR + m <= year (dt_date a) <= MAXYEAR - m ->
  representable (dt_add a delta) = true.
Proof.
  intros Ha Hm Hd Hy.
  destruct (to_us_dt_add a delta Ha) as [E K].
  pose proof (proj1 (datetime_ok_iff _) Ha) as [_ Hat].
  pose proof (proj1 (datetime_ok_iff _) K) as [Kd Kt].
  pose proof (time_to_us_range _ Hat).
  pose proof (time_to_us_range _ Kt).
  destruct (dt_add a delta) as [b t] eqn:Eb. cbn [dt_date dt_time] in *.
  apply (representable_days_away a b t m); try assumption.
  unfold to_us, td_days in *. cbn [dt_date dt_time] in *.
  change us_per_day with 86400000000 in *. lia.
Qed.

(* ================================================================= *)
(** * The reminder calculator *)

Section Calculator.

Import ReminderCalculator.

Variables reminder_time now : datetime.
Hypothesis reminder_time_ok : datetime_ok reminder_time = true.
Hypothesis now_ok : datetime_ok now = true.

Local Abbreviation today_reminder := (today_reminder reminder_time now).
Local Abbreviation month_reminder := (month_reminder reminder_time now).

Lemma today_reminder_ok : datetime_ok today_reminder = true.
Proof.
  apply datetime_ok_iff in reminder_time_ok, now_ok.
  apply datetime_ok_iff. cbn. tauto.
Qed.

Lemma month_reminder_ok (j : Z) : datetime_ok (month_reminder j) = true.
Proof.
  apply datetime_ok_iff in reminder_time_ok.
  destruct reminder_time_ok as [Hd Ht]. apply date_ok_iff in Hd.
  apply datetime_ok_iff. cbn [month_reminder dt_date dt_time].
  split; [apply date_ok_place_day; lia | exact Ht].
Qed.

Lemma one_time_spec :
  _calculate_one_time reminder_time now =
  if to_us now - td_minutes 5 <=? to_us reminder_time
  then Some reminder_time else None.
Proof.
  unfold _calculate_one_time.
  destruct (to_us_dt_sub now (td_minutes 5) now_ok) as [E K].
  rewrite dt_geb_to_us, E by assumption. reflexivity.
Qed.

Lemma daily_spec :
  _calculate_daily reminder_time now =
  Some (if to_us now <? to_us today_reminder
        then today_reminder
        else dt_add today_reminder (td_days 1)).
Proof.
  unfold _calculate_daily. fold today_reminder.
  rewrite dt_gtb_to_us by (exact today_reminder_ok || exact now_ok).
  destruct (to_us now <? to_us today_reminder); reflexivity.
Qed.

Lemma weekly_spec :
  _calculate_weekly reminder_time now =
  Some (if weekday (dt_date reminder_time) =? weekday (dt_date now)
        then if to_us now <? to_us today_reminder
             then today_reminder
             else dt_add today_reminder (td_weeks 1)
        else combine
               (date_add_days (dt_date now)
                  ((weekday (dt_date reminder_time)
                    - weekday (dt_date now)) mod 7))
               (dt_time reminder_time)).
Proof.
  unfold _calculate_weekly. fold today_reminder.
  pose proof (weekday_range (dt_date reminder_time)).
  pose proof (weekday_range (dt_date now)).
  set (k := (weekday (dt_date reminder_time) - weekday (dt_date now)) mod 7).
  assert ((k =? 0) =
          (weekday (dt_date reminder_time) =? weekday (dt_date now))) as ->.
  { subst k.
    destruct (Z.eqb_spec (weekday (dt_date reminder_time))
                         (weekday (dt_date now))) as [E | N].
    - rewrite E, Z.sub_diag. reflexivity.
    - apply Z.eqb_neq. Z.div_mod_to_equations. lia. }
  rewrite dt_gtb_to_us by (exact today_reminder_ok || exact now_ok).
  destruct (weekday (dt_date reminder_time) =? weekday (dt_date now));
    [destruct (to_us now <? to_us today_reminder)|]; reflexivity.
Qed.

Lemma monthly_spec :
  _calculate_monthly reminder_time now =
  Ok (Some (if to_us now <? to_us (month_reminder 0)
            then month_reminder 0
            else month_reminder 1)).
Proof.
  pose proof (proj1 (datetime_ok_iff _) reminder_time_ok) as [Hd _].
  pose proof (proj1 (datetime_ok_iff _) now_ok) as [Hnd _].
  apply date_ok_iff in Hd.
  unfold _calculate_monthly.
  rewrite <- (date_add_months_0 (dt_date now) Hnd) at 1.
  rewrite (replace_day_or_last (dt_date now) 0) by (assumption || lia).
  cbn [bind]. fold (month_reminder 0).
  rewrite dt_gtb_to_us by (apply month_reminder_ok || exact now_ok).
  destruct (to_us now <? to_us (month_reminder 0)); [reflexivity|].
  rewrite (replace_day_or_last (dt_date now) 1) by (assumption || lia).
  reflexivity.
Qed.

(** Each candidate lies on the day, or in the month, it is placed in. *)

Lemma to_us_today_reminder :
  to_us today_reminder =
  toordinal (dt_date now) * us_per_day + time_to_us (dt_time reminder_time).
Proof. reflexivity. Qed.

Lemma now_before_next_day (r : datetime) :
  datetime_ok r = true ->
  toordinal (dt_date now) < toordinal (dt_date r) -> to_us now < to_us r.
Proof. intros. now apply later_day_is_later. Qed.

Lemma now_before_next_month : to_us now < to_us (month_reminder 1).
Proof.
  pose proof (proj1 (datetime_ok_iff _) now_ok) as [Hnd _].
  pose proof (proj1 (datetime_ok_iff _) (month_reminder_ok 1)) as [Hrd _].
  apply now_before_next_day; [apply month_reminder_ok|].
  apply toordinal_lt_month_index; try assumption.
  cbn [month_reminder dt_date]. rewrite month_index_place_day. lia.
Qed.

Lemma now_before_later_cycle (n : Z) :
  1 <= n -> to_us now < to_us (dt_add today_reminder (td_days n)).
Proof.
  intros Hn. destruct (to_us_dt_add _ (td_days n) today_reminder_ok) as [E _].
  rewrite E, to_us_today_reminder. unfold to_us, td_days.
  apply datetime_ok_iff in reminder_time_ok, now_ok.
  pose proof (time_to_us_range _ (proj2 reminder_time_ok)).
  pose proof (time_to_us_range _ (proj2 now_ok)).
  nia.
Qed.

Lemma now_before_later_day (k : Z) :
  1 <= k ->
  to_us now <
  to_us (combine (date_add_days (dt_date now) k) (dt_time reminder_time)).
Proof.
  intros Hk. apply datetime_ok_iff in reminder_time_ok, now_ok.
  unfold to_us. cbn [dt_date dt_time].
  rewrite toordinal_add_days by tauto.
  pose proof (time_to_us_range _ (proj2 reminder_time_ok)).
  pose proof (time_to_us_range _ (proj2 now_ok)).
  nia.
Qed.

End Calculator.

(** The dispatcher, once [task.reminder_time] is known to be set. *)
Lemma calculate_reminder_datetime_set (task : Task) (now rt : datetime) :
  reminder_time task = Some rt ->
  ReminderCalculator.calculate_reminder_datetime task now =
  if String.eqb (recurrence_pattern task) "none"
  then Ok (ReminderCalculator._calculate_one_time rt now)
  else if String.eqb (recurrence_pattern task) "daily"
  then Ok (ReminderCalculator._calculate_daily rt now)
  else if String.eqb (recurrence_pattern task) "weekly"
  then Ok (ReminderCalculator._calculate_weekly rt now)
  else if String.eqb (recurrence_pattern task) "monthly"
  then ReminderCalculator._calculate_monthly rt now
  else Ok None.
Proof.
  intros E. unfold ReminderCalculator.calculate_reminder_datetime.
  rewrite E. reflexivity.
Qed.

(** The calculator returns well-formed datetimes. *)
Lemma calculate_result_ok (task : Task) (rt now r : datetime) :
  datetime_ok rt = true -> datetime_ok now = true ->
  reminder_time task = Some rt ->
  ReminderCalculator.calculate_reminder_datetime task now = Ok (Some r) ->
  datetime_ok r = true.
Proof.
  intros Hrt Hnow Ert.
  pose proof (proj1 (datetime_ok_iff _) Hnow) as [Hnd _].
  pose proof (proj1 (datetime_ok_iff _) Hrt) as [_ Hrtt].
  assert (forall k, datetime_ok (combine (date_add_days (dt_date now) k)
                                         (dt_time rt)) = true) as Later.
  { intros k. apply datetime_ok_iff. cbn [dt_date dt_time].
    split; [now apply date_ok_add_days | exact Hrtt]. }
  rewrite (calculate_reminder_datetime_set task now rt Ert).
  destruct (String.eqb (recurrence_pattern task) "none").
  { rewrite one_time_spec by assumption.
    destruct (to_us now - td_minutes 5 <=? to_us rt); [| discriminate].
    intros H. injection H as <-. exact Hrt. }
  destruct (String.eqb (recurrence_pattern task) "daily").
  { rewrite daily_spec by assumption.
    rewrite dt_add_whole_days by now apply today_reminder_ok.
    intros H. injection H as <-.
    destruct (to_us now <? to_us (today_reminder rt now));
      [now apply today_reminder_ok | apply Later]. }
  destruct (String.eqb (recurrence_pattern task) "weekly").
  { rewrite weekly_spec by assumption. unfold td_weeks.
    rewrite dt_add_whole_days by now apply today_reminder_ok.
    intros H. injection H as <-.
    destruct (weekday (dt_date rt) =? weekday (dt_date now));
      [destruct (to_us now <? to_us (today_reminder rt now));
       [now apply today_reminder_ok | apply Later]
      | apply Later]. }
  destruct (String.eqb (recurrence_pattern task) "monthly");
    [| discriminate].
  rewrite monthly_spec by assumption. intros H. injection H as <-.
  destruct (to_us now <? to_us (month_reminder rt now 0));
    now apply month_reminder_ok.
Qed.

(** The recurring rules move at most into the next year. *)
Lemma recurring_result_year (task : Task) (rt now r : datetime) :
  datetime_ok rt = true -> datetime_ok now = true ->
  reminder_time task = Some rt ->
  recurring (recurrence_pattern task) ->
  ReminderCalculator.calculate_reminder_datetime task now = Ok (Some r) ->
  year (dt_date now) <= year (dt_date r) <= year (dt_date now) + 1.
Proof.
  intros Hrt Hnow Ert Rec.
  pose proof (proj1 (datetime_ok_iff _) Hnow) as [Hnd _].
  rewrite (calculate_reminder_datetime_set task now rt Ert).
  assert (forall k, 0 <= k <= 7 ->
            year (dt_date now) <= year (date_add_days (dt_date now) k)
            <= year (dt_date now) + 1) as Near.
  { intros k Hk. apply year_of_nearby_day;
      [exact Hnd | now apply date_ok_add_days|].
    rewrite toordinal_add_days by exact Hnd. lia. }
  destruct Rec as [-> | [-> | ->]]; cbn [String.eqb Ascii.eqb Bool.eqb].
  - rewrite daily_spec by assumption.
    rewrite dt_add_whole_days by now apply today_reminder_ok.
    intros H. injection H as <-.
    destruct (to_us now <? to_us (today_reminder rt now));
      cbn [today_reminder dt_date]; [lia | apply Near; lia].
  - rewrite weekly_spec by assumption. unfold td_weeks.
    rewrite dt_add_whole_days by now apply today_reminder_ok.
    intros H. injection H as <-.
    destruct (weekday (dt_date rt) =? weekday (dt_date now)).
    + destruct (to_us now <? to_us (today_reminder rt now));
        cbn [today_reminder dt_date]; [lia | apply Near; lia].
    + cbn [dt_date]. apply Near.
      pose proof (Z.mod_pos_bound
                    (weekday (dt_date rt) - weekday (dt_date now)) 7).
      lia.
  - rewrite monthly_spec by assumption. intros H. injection H as <-.
    apply date_ok_iff in Hnd.
    destruct (to_us now <? to_us (month_reminder rt now 0));
      cbn [month_reminder dt_date place_day year]; unfold month_index;
      Z.div_mod_to_equations; lia.
Qed.

(** What the recurring rules return: an instant after [now], at the
    anchor's time of day, within the rule's period. *)
Lemma recurring_result_bounds (task : Task) (rt now r : datetime) :
  datetime_ok rt = true -> datetime_ok now = true ->
  reminder_time task = Some rt ->
  recurring (recurrence_pattern task) ->
  ReminderCalculator.calculate_reminder_datetime task now = Ok (Some r) ->
  to_us now < to_us r /\ dt_time r = dt_time rt /\
  (recurrence_pattern task = "daily"%string ->
   to_us r <= to_us now + td_days 1) /\
  (recurrence_pattern task = "weekly"%string ->
   to_us r <= to_us now + td_days 7 /\
   weekday (dt_date r) = weekday (dt_date rt)) /\
  (recurrence_pattern task = "monthly"%string ->
   month_index (dt_date now) <= month_index (dt_date r)
   <= month_index (dt_date now) + 1 /\
   day (dt_date r)
   = Z.min (day (dt_date rt))
           (days_in_month (year (dt_date r)) (month (dt_date r)))).
Proof.
  intros Hrt Hnow Ert Rec.
  pose proof (proj1 (datetime_ok_iff _) Hnow) as [Hnd Hnt].
  pose proof (proj1 (datetime_ok_iff _) Hrt) as [_ Hrtt].
  pose proof (time_to_us_range _ Hnt) as Rn.
  pose proof (time_to_us_range _ Hrtt) as Rr.
  pose proof (weekday_range (dt_date rt)) as Wrt.
  pose proof (weekday_range (dt_date now)) as Wnow.
  rewrite (calculate_reminder_datetime_set task now rt Ert).
  assert (forall k, 0 <= k <= 7 ->
            to_us (combine (date_add_days (dt_date now) k) (dt_time rt))
            = (toordinal (dt_date now) + k) * us_per_day
              + time_to_us (dt_time rt)) as Later.
  { intros k _. unfold to_us. cbn [dt_date dt_time].
    now rewrite toordinal_add_days by exact Hnd. }
  assert (0 < us_per_day) as Hpos by (vm_compute; reflexivity).
  destruct Rec as [E | [E | E]]; rewrite E;
    cbn [String.eqb Ascii.eqb Bool.eqb].
  - rewrite daily_spec by assumption.
    rewrite dt_add_whole_days by now apply today_reminder_ok.
    intros H. injection H as <-. cbn [today_reminder dt_date dt_time].
    split; [| split; [| split; [| split; discriminate]]].
    + destruct (Z.ltb_spec (to_us now) (to_us (today_reminder rt now)));
        [assumption | apply now_before_later_day; (assumption || lia)].
    + destruct (to_us now <? to_us (today_reminder rt now)); reflexivity.
    + intros _.
      destruct (Z.ltb_spec (to_us now) (to_us (today_reminder rt now)))
        as [L | G].
      * unfold to_us, today_reminder, td_days in *.
        cbn [dt_date dt_time] in *. nia.
      * rewrite Later by lia. unfold to_us, today_reminder, td_days in *.
        cbn [dt_date dt_time] in *. nia.
  - rewrite weekly_spec by assumption. unfold td_weeks.
    rewrite dt_add_whole_days by now apply today_reminder_ok.
    intros H. injection H as <-. cbn [today_reminder dt_date dt_time].
    change (7 * 1) with 7.
    split; [| split; [| split; [discriminate | split; [| discriminate]]]].
    + destruct (Z.eqb_spec (weekday (dt_date rt)) (weekday (dt_date now))).
      * destruct (Z.ltb_spec (to_us now) (to_us (today_reminder rt now)));
          [assumption | apply now_before_later_day; (assumption || lia)].
      * apply now_before_later_day; try assumption.
        Z.div_mod_to_equations. lia.
    + destruct (weekday (dt_date rt) =? weekday (dt_date now));
        [destruct (to_us now <? to_us (today_reminder rt now))|];
        reflexivity.
    + intros _.
      destruct (Z.eqb_spec (weekday (dt_date rt)) (weekday (dt_date now)))
        as [Ew | Nw].
      * destruct (Z.ltb_spec (to_us now) (to_us (today_reminder rt now)))
          as [L | G].
        { split; [| cbn [today_reminder dt_date]; now rewrite Ew].
          unfold to_us, today_reminder, td_days in *.
          cbn [dt_date dt_time] in *. nia. }
        { split.
          - rewrite Later by lia. unfold to_us, today_reminder, td_days in *.
            cbn [dt_date dt_time] in *. nia.
          - cbn [dt_date]. rewrite weekday_add_days by exact Hnd.
            rewrite Ew. Z.div_mod_to_equations. lia. }
      * pose proof (Z.mod_pos_bound
                      (weekday (dt_date rt) - weekday (dt_date now)) 7).
        split.
        { rewrite Later by lia. unfold to_us, td_days.
          cbn [dt_date dt_time]. nia. }
        { cbn [dt_date]. rewrite weekday_add_days by exact Hnd.
          Z.div_mod_to_equations. lia. }
  - rewrite monthly_spec by assumption. intros H. injection H as <-.
    split; [| split; [| split; [discriminate | split; [discriminate|]]]].
    + destruct (Z.ltb_spec (to_us now) (to_us (month_reminder rt now 0)));
        [assumption | now apply now_before_next_month].
    + destruct (to_us now <? to_us (month_reminder rt now 0)); reflexivity.
    + intros _.
      destruct (to_us now <? to_us (month_reminder rt now 0));
        cbn [month_reminder dt_date]; rewrite month_index_place_day;
        (split; [lia | reflexivity]).
Qed.

(** C6. One-time reminders ([recurrence_pattern = "none"]): the calculator
    returns the anchor [reminder_time] unchanged exactly when the anchor is
    not more than 5 minutes before [now], and returns [None] exactly when
    it is.  This holds for every [now] from which five minutes can be
    taken, that is, at least five minutes after [datetime.min]; before
    that [now - timedelta(minutes=5)] raises [OverflowError]. *)
Theorem one_time_anchor_iff_within_grace (task : Task) (rt now : datetime) :
  datetime_ok rt = true -> datetime_ok now = true ->
  representable (dt_sub now (td_minutes 5)) = true ->
  reminder_time task = Some rt ->
  recurrence_pattern task = "none"%string ->
  (ReminderCalculator.calculate_reminder_datetime task now = Ok (Some rt)
   <-> to_us now - td_minutes 5 <= to_us rt) /\
  (ReminderCalculator.calculate_reminder_datetime task now = Ok None
   <-> to_us rt < to_us now - td_minutes 5).
Proof.
  intros Hrt Hnow _ Ert Ep.
  rewrite (calculate_reminder_datetime_set task now rt Ert), Ep.
  cbn [String.eqb Ascii.eqb Bool.eqb].
  rewrite one_time_spec by assumption.
  destruct (Z.leb_spec (to_us now - td_minutes 5) (to_us rt)); split; split;
    intros; try reflexivity; try discriminate; lia.
Qed.

Lemma one_time_anchor_iff_within_grace_witness :
  ReminderCalculator.calculate_reminder_datetime
    (sample_task "none" (at_ 2025 1 15 14 0)) (at_ 2025 1 15 14 3)
  = Ok (Some (at_ 2025 1 15 14 0)).
Proof.
  apply (proj1 (one_time_anchor_iff_within_grace
                  (sample_task "none" (at_ 2025 1 15 14 0))
                  (at_ 2025 1 15 14 0) (at_ 2025 1 15 14 3)
                  eq_refl eq_refl eq_refl eq_refl eq_refl)).
  vm_compute. discriminate.
Defined.

(** C1. Whenever [calculate_reminder_datetime] returns a timestamp, that
    timestamp is not earlier than [now] minus the 5-minute grace window;
    for the recurring rules (every pattern other than ["none"]) it is
    strictly after [now]. *)
Theorem returned_reminder_not_past_grace (task : Task) (now r : datetime) :
  datetime_ok now = true ->
  (forall rt, reminder_time task = Some rt -> datetime_ok rt = true) ->
  ReminderCalculator.calculate_reminder_datetime task now = Ok (Some r) ->
  to_us now - td_minutes 5 <= to_us r /\
  (recurrence_pattern task <> "none"%string -> to_us now < to_us r).
Proof.
  intros Hnow Hrt H.
  destruct (reminder_time task) as [rt|] eqn:Ert;
    [| unfold ReminderCalculator.calculate_reminder_datetime in H;
       rewrite Ert in H; discriminate].
  specialize (Hrt rt eq_refl).
  rewrite (calculate_reminder_datetime_set task now rt Ert) in H.
  assert (0 <= td_minutes 5) as Hg by (vm_compute; discriminate).
  destruct (String.eqb_spec (recurrence_pattern task) "none") as [En | Nn].
  - rewrite one_time_spec in H by assumption.
    destruct (Z.leb_spec (to_us now - td_minutes 5) (to_us rt));
      inversion H; subst r. split; [lia | congruence].
  - cut (to_us now < to_us r); [lia|].
    destruct (String.eqb (recurrence_pattern task) "daily").
    { rewrite daily_spec in H by assumption. injection H as <-.
      destruct (Z.ltb_spec (to_us now) (to_us (today_reminder rt now)));
        [assumption | apply (now_before_later_cycle rt now Hrt Hnow 1); lia]. }
    destruct (String.eqb (recurrence_pattern task) "weekly").
    { rewrite weekly_spec in H by assumption. injection H as <-.
      pose proof (weekday_range (dt_date rt)).
      pose proof (weekday_range (dt_date now)).
      destruct (Z.eqb_spec (weekday (dt_date rt)) (weekday (dt_date now))).
      - destruct (Z.ltb_spec (to_us now) (to_us (today_reminder rt now)));
          [assumption|].
        apply (now_before_later_cycle rt now Hrt Hnow 7); lia.
      - apply now_before_later_day; try assumption.
        Z.div_mod_to_equations. lia. }
    destruct (String.eqb (recurrence_pattern task) "monthly");
      [| discriminate].
    rewrite monthly_spec in H by assumption. injection H as <-.
    destruct (Z.ltb_spec (to_us now) (to_us (month_reminder rt now 0)));
      [assumption | now apply now_before_next_month].
Qed.

Lemma returned_reminder_not_past_grace_witness :
  to_us (at_ 2025 1 31 10 0) - td_minutes 5 <= to_us (at_ 2025 2 28 9 0) /\
  (("monthly" <> "none")%string ->
   to_us (at_ 2025 1 31 10 0) < to_us (at_ 2025 2 28 9 0)).
Proof.
  apply (returned_reminder_not_past_grace
           (sample_task "monthly" (at_ 2024 12 31 9 0))
           (at_ 2025 1 31 10 0) (at_ 2025 2 28 9 0)).
  - reflexivity.
  - intros rt E. inversion E. reflexivity.
  - vm_compute. reflexivity.
Defined.

(** C8. Boundary semantics of the daily, weekly and monthly rules:
    "passed" means candidate [<=] [now].  A candidate occurrence that is
    not after [now] is replaced by the next cycle (one day later, one week
    later, the placement in the next month); in particular a candidate
    that is exactly [now] is not returned: the result is [now] plus one
    day, [now] plus one week, and the placement in the next month, which
    is after [now].  This holds for [now] before the last year of Python's
    range, where the next cycle is a representable datetime (in the year
    [MAXYEAR] the step to the next cycle can raise). *)
Theorem boundary_candidate_counts_as_passed (task : Task)
    (rt now : datetime) :
  datetime_ok rt = true -> datetime_ok now = true ->
  MINYEAR <= year (dt_date now) < MAXYEAR ->
  reminder_time task = Some rt ->
  (recurrence_pattern task = "daily"%string ->
   (to_us (today_reminder rt now) <= to_us now ->
    ReminderCalculator.calculate_reminder_datetime task now
    = Ok (Some (dt_add (today_reminder rt now) (td_days 1)))) /\
   (today_reminder rt now = now ->
    ReminderCalculator.calculate_reminder_datetime task now
    = Ok (Some (dt_add now (td_days 1))))) /\
  (recurrence_pattern task = "weekly"%string ->
   weekday (dt_date rt) = weekday (dt_date now) ->
   (to_us (today_reminder rt now) <= to_us now ->
    ReminderCalculator.calculate_reminder_datetime task now
    = Ok (Some (dt_add (today_reminder rt now) (td_weeks 1)))) /\
   (today_reminder rt now = now ->
    ReminderCalculator.calculate_reminder_datetime task now
    = Ok (Some (dt_add now (td_weeks 1))))) /\
  (recurrence_pattern task = "monthly"%string ->
   (to_us (month_reminder rt now 0) <= to_us now ->
    ReminderCalculator.calculate_reminder_datetime task now
    = Ok (Some (month_reminder rt now 1))) /\
   (month_reminder rt now 0 = now ->
    ReminderCalculator.calculate_reminder_datetime task now
    = Ok (Some (month_reminder rt now 1))) /\
   to_us now < to_us (month_reminder rt now 1)) /\
  (recurring (recurrence_pattern task) ->
   forall r, ReminderCalculator.calculate_reminder_datetime task now
             = Ok (Some r) ->
             representable r = true).
Proof.
  intros Hrt Hnow Hy Ert.
  split; [| split; [| split]];
    [rewrite (calculate_reminder_datetime_set task now rt Ert) ..|].
  - intros ->. cbn [String.eqb Ascii.eqb Bool.eqb].
    rewrite daily_spec by assumption.
    assert (to_us (today_reminder rt now) <= to_us now ->
            Ok (Some (if to_us now <? to_us (today_reminder rt now)
                      then today_reminder rt now
                      else dt_add (today_reminder rt now) (td_days 1)))
            = Ok (Some (dt_add (today_reminder rt now) (td_days 1)))) as P.
    { intros L. apply Z.ltb_ge in L. now rewrite L. }
    split; [exact P|]. intros E. rewrite P by (rewrite E; lia).
    now rewrite E.
  - intros -> Ew. cbn [String.eqb Ascii.eqb Bool.eqb].
    rewrite weekly_spec, Ew, Z.eqb_refl by assumption.
    assert (to_us (today_reminder rt now) <= to_us now ->
            Ok (Some (if to_us now <? to_us (today_reminder rt now)
                      then today_reminder rt now
                      else dt_add (today_reminder rt now) (td_weeks 1)))
            = Ok (Some (dt_add (today_reminder rt now) (td_weeks 1)))) as P.
    { intros L. apply Z.ltb_ge in L. now rewrite L. }
    split; [exact P|]. intros E. rewrite P by (rewrite E; lia).
    now rewrite E.
  - intros ->. cbn [String.eqb Ascii.eqb Bool.eqb].
    rewrite monthly_spec by assumption.
    assert (to_us (month_reminder rt now 0) <= to_us now ->
            Ok (Some (if to_us now <? to_us (month_reminder rt now 0)
                      then month_reminder rt now 0
                      else month_reminder rt now 1))
            = Ok (Some (month_reminder rt now 1))) as P.
    { intros L. apply Z.ltb_ge in L. now rewrite L. }
    split; [exact P | split; [| now apply now_before_next_month]].
    intros E. apply P. rewrite E. lia.
  - intros Rec r E.
    pose proof (recurring_result_year task rt now r Hrt Hnow Ert Rec E).
    apply representable_iff. lia.
Qed.

Lemma boundary_candidate_counts_as_passed_witness :
  ReminderCalculator.calculate_reminder_datetime
    (sample_task "daily" (at_ 2025 1 15 9 0)) (at_ 2025 3 10 9 0)
  = Ok (Some (at_ 2025 3 11 9 0)) /\
  ReminderCalculator.calculate_reminder_datetime
    (sample_task "weekly" (at_ 2025 1 13 9 0)) (at_ 2025 3 10 9 0)
  = Ok (Some (at_ 2025 3 17 9 0)) /\
  ReminderCalculator.calculate_reminder_datetime
    (sample_task "monthly" (at_ 2025 1 31 9 0)) (at_ 2025 2 28 9 0)
  = Ok (Some (at_ 2025 3 31 9 0)).
Proof.
  assert (MINYEAR <= year (dt_date (at_ 2025 3 10 9 0)) < MAXYEAR) as Y1
    by (cbn; unfold MINYEAR, MAXYEAR; lia).
  assert (MINYEAR <= year (dt_date (at_ 2025 2 28 9 0)) < MAXYEAR) as Y2
    by (cbn; unfold MINYEAR, MAXYEAR; lia).
  split; [| split].
  - exact (proj2 (proj1 (boundary_candidate_counts_as_passed
                    (sample_task "daily" (at_ 2025 1 15 9 0))
                    (at_ 2025 1 15 9 0) (at_ 2025 3 10 9 0)
                    eq_refl eq_refl Y1 eq_refl) eq_refl) eq_refl).
  - exact (proj2 (proj1 (proj2 (boundary_candidate_counts_as_passed
                    (sample_task "weekly" (at_ 2025 1 13 9 0))
                    (at_ 2025 1 13 9 0) (at_ 2025 3 10 9 0)
                    eq_refl eq_refl Y1 eq_refl)) eq_refl eq_refl) eq_refl).
  - exact (proj1 (proj2 (proj1 (proj2 (proj2
                    (boundary_candidate_counts_as_passed
                       (sample_task "monthly" (at_ 2025 1 31 9 0))
                       (at_ 2025 1 31 9 0) (at_ 2025 2 28 9 0)
                       eq_refl eq_refl Y2 eq_refl))) eq_refl)) eq_refl).
Defined.

(** C10. For a task with [reminder_time] set and a recurrence pattern of
    daily, weekly or monthly, [calculate_reminder_datetime] returns a
    timestamp for every [now] in the years 2 to 9998, where none of its
    steps leaves Python's range.  The timestamp is representable, lies
    strictly after [now], has the anchor's time of day and is at most one
    period away: within one day (daily), within seven days on the anchor's
    weekday (weekly), in the month of [now] or the next on the anchor's day
    cut down to the length of the month (monthly).  So the recurring
    reminder is never missed for good.  The result [None] arises only from
    a missing [reminder_time], a pattern outside the four known ones, or a
    one-time reminder more than 5 minutes past; and the function does not
    raise. *)
Theorem recurring_reminder_always_scheduled (task : Task) (now : datetime) :
  datetime_ok now = true ->
  MINYEAR < year (dt_date now) < MAXYEAR ->
  (forall rt, reminder_time task = Some rt -> datetime_ok rt = true) ->
  (forall rt, reminder_time task = Some rt ->
     recurring (recurrence_pattern task) ->
     exists r,
       ReminderCalculator.calculate_reminder_datetime task now
       = Ok (Some r) /\
       representable r = true /\
       to_us now < to_us r /\ dt_time r = dt_time rt /\
       (recurrence_pattern task = "daily"%string ->
        to_us r <= to_us now + td_days 1) /\
       (recurrence_pattern task = "weekly"%string ->
        to_us r <= to_us now + td_days 7 /\
        weekday (dt_date r) = weekday (dt_date rt)) /\
       (recurrence_pattern task = "monthly"%string ->
        month_index (dt_date now) <= month_index (dt_date r)
        <= month_index (dt_date now) + 1 /\
        day (dt_date r)
        = Z.min (day (dt_date rt))
                (days_in_month (year (dt_date r)) (month (dt_date r))))) /\
  (ReminderCalculator.calculate_reminder_datetime task now = Ok None ->
     reminder_time task = None \/
     (recurrence_pattern task <> "none"%string /\
      ~ recurring (recurrence_pattern task)) \/
     (recurrence_pattern task = "none"%string /\
      exists rt, reminder_time task = Some rt /\
                 to_us rt < to_us now - td_minutes 5)) /\
  (forall e, ReminderCalculator.calculate_reminder_datetime task now
             <> Raise e).
Proof.
  intros Hnow Hy Hrt.
  assert (forall rt, reminder_time task = Some rt ->
            recurring (recurrence_pattern task) ->
            exists r, ReminderCalculator.calculate_reminder_datetime task now
                      = Ok (Some r)) as Some_r.
  { intros rt Ert Rec. specialize (Hrt rt Ert).
    rewrite (calculate_reminder_datetime_set task now rt Ert).
    destruct Rec as [-> | [-> | ->]]; cbn [String.eqb Ascii.eqb Bool.eqb].
    - rewrite daily_spec by assumption. eauto.
    - rewrite weekly_spec by assumption. eauto.
    - rewrite monthly_spec by assumption. eauto. }
  split.
  { intros rt Ert Rec. destruct (Some_r rt Ert Rec) as [r E].
    exists r. split; [exact E|].
    pose proof (recurring_result_year task rt now r (Hrt rt Ert) Hnow Ert
                  Rec E).
    split; [apply representable_iff; lia|].
    exact (recurring_result_bounds task rt now r (Hrt rt Ert) Hnow Ert
             Rec E). }
  destruct (reminder_time task) as [rt|] eqn:Ert.
  2:{ unfold ReminderCalculator.calculate_reminder_datetime. rewrite Ert.
      split; [auto | discriminate]. }
  specialize (Hrt rt eq_refl).
  rewrite (calculate_reminder_datetime_set task now rt Ert).
  unfold recurring.
  destruct (String.eqb_spec (recurrence_pattern task) "none") as [En | Nn].
  { rewrite En, one_time_spec by assumption. split.
    - destruct (Z.leb_spec (to_us now - td_minutes 5) (to_us rt));
        [discriminate|]. intros _. right; right.
      split; [reflexivity | exists rt; auto].
    - destruct (to_us now - td_minutes 5 <=? to_us rt); discriminate. }
  destruct (String.eqb_spec (recurrence_pattern task) "daily") as [Ed | Nd].
  { rewrite daily_spec by assumption. split; discriminate. }
  destruct (String.eqb_spec (recurrence_pattern task) "weekly") as [Ew | Nw].
  { rewrite weekly_spec by assumption. split; discriminate. }
  destruct (String.eqb_spec (recurrence_pattern task) "monthly") as [Em | Nm].
  { rewrite monthly_spec by assumption. split; discriminate. }
  split; [| discriminate].
  intros _. right; left. tauto.
Qed.

Lemma recurring_reminder_always_scheduled_witness :
  exists r,
    ReminderCalculator.calculate_reminder_datetime
      (sample_task "weekly" (at_ 2025 1 13 9 0)) (at_ 2025 1 15 10 0)
    = Ok (Some r) /\
    representable r = true /\
    to_us (at_ 2025 1 15 10 0) < to_us r /\
    dt_time r = dt_time (at_ 2025 1 13 9 0) /\
    to_us r <= to_us (at_ 2025 1 15 10 0) + td_days 7 /\
    weekday (dt_date r) = weekday (dt_date (at_ 2025 1 13 9 0)).
Proof.
  assert (MINYEAR < year (dt_date (at_ 2025 1 15 10 0)) < MAXYEAR) as Y
    by (cbn; unfold MINYEAR, MAXYEAR; lia).
  assert (forall rt,
            reminder_time (sample_task "weekly" (at_ 2025 1 13 9 0)) = Some rt ->
            datetime_ok rt = true) as Hrt
    by (intros rt E; injection E as <-; reflexivity).
  destruct (proj1 (recurring_reminder_always_scheduled
                     (sample_task "weekly" (at_ 2025 1 13 9 0))
                     (at_ 2025 1 15 10 0) eq_refl Y Hrt)
                  (at_ 2025 1 13 9 0) eq_refl
                  (or_intror (or_introl eq_refl)))
    as (r & E & R & L & T & _ & W & _).
  exists r. destruct (W eq_refl) as [W1 W2].
  repeat (split; [assumption|]). exact W2.
Defined.

(* ================================================================= *)
(** * The grace gate *)

Lemma days_field_exceeds (delta n : Z) :
  (td_days_field delta >? n) = true <-> td_days (n + 1) <= delta.
Proof.
  unfold td_days_field, td_days. rewrite Z.gtb_ltb, Z.ltb_lt.
  assert (0 < us_per_day) by (vm_compute; reflexivity).
  split; intros L.
  - assert (n + 1 <= delta / us_per_day) as L' by lia.
    pose proof (Z.mul_div_le delta us_per_day). nia.
  - apply Z.lt_le_pred. cbn [Z.pred].
    replace (Z.pred (delta / us_per_day)) with (delta / us_per_day - 1) by lia.
    pose proof (Z.div_le_lower_bound delta us_per_day (n + 1)). lia.
Qed.

(** What the gate computes: [should_skip_reminder] is true exactly when
    the task is completed, or it has a due date and the whole days elapsed
    since then, [(now - due_date).days], exceed 7, that is, [now - due_date]
    is at least 8 days. *)
Lemma should_skip_whole_days (task : Task) (now : datetime) :
  ReminderCalculator.should_skip_reminder task now = true <->
  completed task = true \/
  exists due, due_date task = Some due /\
              td_days (GRACE_PERIOD_DAYS + 1) <= dt_diff now due.
Proof.
  unfold ReminderCalculator.should_skip_reminder.
  destruct (completed task); [split; auto|].
  destruct (due_date task) as [due|].
  - pose proof (days_field_exceeds (dt_diff now due) GRACE_PERIOD_DAYS) as D.
    destruct (td_days_field (dt_diff now due) >? GRACE_PERIOD_DAYS).
    + split; [|reflexivity]. intros _. right. exists due.
      split; [reflexivity | now apply D].
    + split; [discriminate|]. intros [C | [due' [E L]]]; [discriminate|].
      injection E as <-. now apply D.
  - split; [discriminate|]. intros [C | [due' [E _]]]; discriminate.
Qed.

(** C5. The grace gate on a task that is not completed and is 7 days and
    1 hour past its due date: [now - due_date] exceeds the 7-day grace
    period, and [should_skip_reminder] answers [False].  The comparison is
    on [timedelta.days], the whole days elapsed, so the task is skipped
    only from 8 days on; [constants.py] ("if task is >7 days overdue")
    and the docstring ("more than GRACE_PERIOD_DAYS past due date") say
    what the claim says. *)
Theorem grace_gate_misses_seven_days_one_hour :
  completed overdue_task = false /\
  due_date overdue_task = Some (at_ 2025 1 1 9 0) /\
  dt_diff overdue_now (at_ 2025 1 1 9 0)
  = td_days GRACE_PERIOD_DAYS + td_hours 1 /\
  ReminderCalculator.should_skip_reminder overdue_task overdue_now = false /\
  ReminderCalculator.should_skip_reminder overdue_task
    (dt_add overdue_now (td_hours 23)) = true.
Proof. repeat split. Qed.

(* ================================================================= *)
(** * The duplication guard *)

Lemma first_select_where_found {A : Type} (p : A -> bool) (table : list A)
    (x : A) :
  In x table -> p x = true ->
  is_not_None (first (select_where p table)) = true.
Proof.
  intros Hin Hp.
  assert (In x (select_where p table)) as Hf
    by (apply filter_In; split; assumption).
  destruct (select_where p table); [destruct Hf | reflexivity].
Qed.

Lemma first_select_where_none {A : Type} (p : A -> bool) (table : list A) :
  (forall x, In x table -> p x = false) ->
  is_not_None (first (select_where p table)) = false.
Proof.
  intros Hall. unfold select_where.
  induction table as [| a table IH]; [reflexivity|].
  cbn [filter]. rewrite (Hall a (or_introl eq_refl)).
  apply IH. intros x Hx. apply Hall. now right.
Qed.

(** The guard in closed form: it answers [False] when the session or the
    window arithmetic raises, and otherwise whether the query finds a
    row. *)
Lemma exists_spec (db : Database) (task_id : Z) (q : datetime) :
  DuplicateChecker.exists_ db task_id q =
  match fault db with
  | Some _ => false
  | None =>
      representable
        (dt_sub q (td_seconds DUPLICATE_CHECK_TOLERANCE_SECONDS))
      && representable
           (dt_add q (td_seconds DUPLICATE_CHECK_TOLERANCE_SECONDS))
      && is_not_None
           (first (select_where
                     (DuplicateChecker.in_window task_id
                        (dt_sub q
                           (td_seconds DUPLICATE_CHECK_TOLERANCE_SECONDS))
                        (dt_add q
                           (td_seconds DUPLICATE_CHECK_TOLERANCE_SECONDS)))
                     (reminder_log db)))
  end.
Proof.
  unfold DuplicateChecker.exists_, get_session, in_range.
  destruct (fault db); [reflexivity|]. cbn [bind].
  destruct (representable (dt_sub q _)); [| reflexivity]. cbn [bind].
  destruct (representable (dt_add q _)); reflexivity.
Qed.

(** The guard on a database within reach, for a representable window: the
    [where] clause on instants. *)
Lemma exists_available (db : Database) (task_id : Z) (q : datetime) :
  fault db = None ->
  representable (dt_sub q (td_seconds DUPLICATE_CHECK_TOLERANCE_SECONDS))
  = true ->
  representable (dt_add q (td_seconds DUPLICATE_CHECK_TOLERANCE_SECONDS))
  = true ->
  DuplicateChecker.exists_ db task_id q =
  is_not_None
    (first (select_where
              (DuplicateChecker.in_window task_id
                 (dt_sub q (td_seconds DUPLICATE_CHECK_TOLERANCE_SECONDS))
                 (dt_add q (td_seconds DUPLICATE_CHECK_TOLERANCE_SECONDS)))
              (reminder_log db))).
Proof.
  intros F Rs Ra. rewrite exists_spec, F, Rs, Ra. reflexivity.
Qed.

Lemma in_window_to_us (task_id : Z) (q : datetime) (row : ReminderLog) :
  datetime_ok q = true -> datetime_ok (reminder_datetime row) = true ->
  DuplicateChecker.in_window task_id
    (dt_sub q (td_seconds DUPLICATE_CHECK_TOLERANCE_SECONDS))
    (dt_add q (td_seconds DUPLICATE_CHECK_TOLERANCE_SECONDS)) row
  = (log_task_id row =? task_id)
    && (to_us q - td_seconds 60 <=? to_us (reminder_datetime row))
    && (to_us (reminder_datetime row) <=? to_us q + td_seconds 60).
Proof.
  intros Hq Hr. unfold DuplicateChecker.in_window.
  unfold DUPLICATE_CHECK_TOLERANCE_SECONDS.
  destruct (to_us_dt_sub q (td_seconds 60) Hq) as [Es Ks].
  destruct (to_us_dt_add q (td_seconds 60) Hq) as [Ea Ka].
  rewrite dt_geb_to_us, dt_leb_to_us, Es, Ea by assumption.
  reflexivity.
Qed.

(** C2. With a record for [task_id] at [T] in the log (and the database
    within reach), [DuplicateChecker.exists] is true for every queried time
    within 60 seconds of [T], both ends included, whose window, the
    query time minus and plus the tolerance, is representable; and it is
    false for the query at [T] plus 61 seconds when no other record of
    that task lies in the queried window.  (Within 60 seconds of
    [datetime.min] or [datetime.max] the window arithmetic raises
    [OverflowError] and the guard answers [False]: see
    [duplicate_check_at_the_last_minute].) *)
Theorem duplicate_within_sixty_seconds (db : Database) (task_id : Z)
    (T : datetime) (row : ReminderLog) :
  fault db = None ->
  Forall (fun r => datetime_ok (reminder_datetime r) = true)
         (reminder_log db) ->
  In row (reminder_log db) ->
  log_task_id row = task_id -> reminder_datetime row = T ->
  (forall q, datetime_ok q = true ->
     representable (dt_sub q (td_seconds DUPLICATE_CHECK_TOLERANCE_SECONDS))
     = true ->
     representable (dt_add q (td_seconds DUPLICATE_CHECK_TOLERANCE_SECONDS))
     = true ->
     to_us T - td_seconds 60 <= to_us q <= to_us T + td_seconds 60 ->
     DuplicateChecker.exists_ db task_id q = true) /\
  ((forall r, In r (reminder_log db) -> log_task_id r = task_id ->
      reminder_datetime r <> T ->
      ~ (to_us T + td_seconds 61 - td_seconds 60
           <= to_us (reminder_datetime r)
           <= to_us T + td_seconds 61 + td_seconds 60)) ->
   DuplicateChecker.exists_ db task_id (dt_add T (td_seconds 61)) = false).
Proof.
  intros F Hall Hin Etid ET.
  pose proof (proj1 (Forall_forall _ _) Hall) as Hok.
  assert (datetime_ok T = true) as HT by (rewrite <- ET; now apply Hok).
  split.
  - intros q Hq Rs Ra Hrange. rewrite exists_available by assumption.
    apply (first_select_where_found _ _ row Hin).
    rewrite in_window_to_us by (try apply Hok; assumption).
    rewrite Etid, ET, Z.eqb_refl. cbn [andb].
    apply andb_true_iff. split; apply Z.leb_le; lia.
  - intros Hothers. rewrite exists_spec, F.
    apply andb_false_iff. right.
    destruct (to_us_dt_add T (td_seconds 61) HT) as [Eq Kq].
    apply first_select_where_none. intros r Hr.
    rewrite in_window_to_us by (try apply Hok; assumption).
    rewrite Eq.
    destruct (Z.eqb_spec (log_task_id r) task_id) as [Er | Nr];
      [| reflexivity].
    cbn [andb]. apply andb_false_iff.
    assert (td_seconds 60 < td_seconds 61) by (vm_compute; reflexivity).
    destruct (Z.eq_dec (to_us (reminder_datetime r)) (to_us T))
      as [Same | Diff].
    + left. apply Z.leb_gt. lia.
    + assert (reminder_datetime r <> T) as N by congruence.
      specialize (Hothers r Hr Er N).
      destruct (Z.leb_spec (to_us T + td_seconds 61 - td_seconds 60)
                           (to_us (reminder_datetime r)));
        [right; apply Z.leb_gt; lia | now left].
Qed.

Lemma duplicate_within_sixty_seconds_witness :
  DuplicateChecker.exists_ (sample_db None) 1
    (dt_add (at_ 2025 1 15 14 0) (td_seconds 60)) = true /\
  DuplicateChecker.exists_ (sample_db None) 1
    (dt_add (at_ 2025 1 15 14 0) (td_seconds 61)) = false.
Proof.
  assert (Forall (fun r => datetime_ok (reminder_datetime r) = true)
                 (reminder_log (sample_db None))) as Hall
    by (repeat constructor).
  destruct (duplicate_within_sixty_seconds (sample_db None) 1
              (at_ 2025 1 15 14 0) (sample_row 1 (at_ 2025 1 15 14 0))
              eq_refl Hall
              (or_introl eq_refl) eq_refl eq_refl) as [Within Beyond].
  split.
  - apply Within; [reflexivity | reflexivity | reflexivity|].
    vm_compute. split; discriminate.
  - apply Beyond. intros r [<- | []] _ N. exfalso. apply N. reflexivity.
Defined.

(** In the last minute of [datetime.max] the end of the window is not
    representable: the guard answers [False] for an occurrence that is in
    the log. *)
Example duplicate_check_at_the_last_minute :
  DuplicateChecker.exists_
    (mkDatabase None [] []
       [sample_row 1 (combine (mkDate 9999 12 31) (mkTime 23 59 30 0))] [])
    1 (combine (mkDate 9999 12 31) (mkTime 23 59 30 0))
  = false.
Proof. reflexivity. Qed.

(** C7. The guard fails open: when the look-up in the occurrence log
    raises, whatever the exception, [DuplicateChecker.exists] returns
    [False] and nothing propagates, for every task and every time, even
    when the log holds a record of that very occurrence. *)
Theorem duplicate_check_fails_open (db : Database) (e : exn) (task_id : Z)
    (reminder_datetime : datetime) :
  fault db = Some e ->
  DuplicateChecker.exists_ db task_id reminder_datetime = false.
Proof.
  intros F. rewrite exists_spec, F. reflexivity.
Qed.

Lemma duplicate_check_fails_open_witness :
  DuplicateChecker.exists_ (sample_db (Some OperationalError)) 1
    (at_ 2025 1 15 14 0) = false /\
  DuplicateChecker.exists_ (sample_db None) 1 (at_ 2025 1 15 14 0) = true.
Proof.
  split.
  - exact (duplicate_check_fails_open (sample_db (Some OperationalError))
             OperationalError 1 (at_ 2025 1 15 14 0) eq_refl).
  - reflexivity.
Defined.

(* ================================================================= *)
(** * The scheduling loop and its heartbeat *)

Section Heartbeat.

Import ReminderProcessor.

Variable env : Env.

Lemma update_agent_state_row (db : Database) (st : AgentState)
    (rest : list AgentState) (s : AgentStatus) (p n e : Z) :
  fault db = None -> agent_state db = st :: rest ->
  _update_agent_state env db s p n e =
  set_agent_state db
    (touch st (clock env) (AgentStatus_value s) p n e :: rest).
Proof.
  intros F E. unfold _update_agent_state, get_session. rewrite F.
  cbn [bind]. rewrite E. reflexivity.
Qed.

Lemma log_success_tables (db : Database) (t : datetime) (i : Z)
    (u : string) (r : datetime) (a b c : string) :
  fault (DeliveryTracker.log_success db t i u r a b c) = fault db /\
  agent_state (DeliveryTracker.log_success db t i u r a b c)
  = agent_state db.
Proof.
  unfold DeliveryTracker.log_success, get_session.
  destruct (fault db) eqn:F; cbn; rewrite ?F; split; reflexivity.
Qed.

Lemma log_failure_tables (db : Database) (t : datetime) (i : Z)
    (u : string) (r : datetime) (a b c d : string) :
  fault (DeliveryTracker.log_failure db t i u r a b c d) = fault db /\
  agent_state (DeliveryTracker.log_failure db t i u r a b c d)
  = agent_state db.
Proof.
  unfold DeliveryTracker.log_failure, get_session.
  destruct (fault db) eqn:F; cbn; rewrite ?F; split; reflexivity.
Qed.

(** Processing a task writes to the reminder log only. *)
Lemma process_task_tables (db db' : Database) (task : Task) (n e : Z) :
  process_task env db task = Ok (db', n, e) ->
  fault db' = fault db /\ agent_state db' = agent_state db.
Proof.
  unfold process_task.
  destruct (ReminderCalculator.should_skip_reminder task (clock env));
    [intros H; injection H as <- _ _; auto|].
  destruct (ReminderCalculator.calculate_reminder_datetime task (clock env))
    as [[r|]|]; cbn [bind];
    [| intros H; injection H as <- _ _; auto | discriminate].
  destruct (DuplicateChecker.exists_ db (id task) r);
    [intros H; injection H as <- _ _; auto|].
  destruct (TaskReader.get_user_email db (user_id task)) as [m|];
    [| intros H; injection H as <- _ _; auto].
  destruct (generate env task) as [c|]; cbn [bind]; [| discriminate].
  destruct (send env m c task) as [[|]|]; cbn [bind]; [| | discriminate];
    intros H; injection H as <- _ _.
  - apply log_success_tables.
  - apply log_failure_tables.
Qed.

Lemma loop_step_tables (db : Database) (c : Counters) (task : Task) :
  fault (fst (loop_step env (db, c) task)) = fault db /\
  agent_state (fst (loop_step env (db, c) task)) = agent_state db /\
  n_processed (snd (loop_step env (db, c) task)) = n_processed c + 1.
Proof.
  unfold loop_step.
  destruct (process_task env db task) as [[[db' n] e]|] eqn:P;
    cbn [fst snd n_processed]; [| auto].
  destruct (process_task_tables _ _ _ _ _ P). auto.
Qed.

Lemma loop_tables (tasks : list Task) (db : Database) (c : Counters) :
  fault (fst (fold_left (loop_step env) tasks (db, c))) = fault db /\
  agent_state (fst (fold_left (loop_step env) tasks (db, c)))
  = agent_state db /\
  n_processed (snd (fold_left (loop_step env) tasks (db, c)))
  = n_processed c + Z.of_nat (List.length tasks).
Proof.
  revert db c. induction tasks as [| task tasks IH]; intros db c.
  - cbn. repeat split. lia.
  - cbn [fold_left List.length].
    destruct (loop_step_tables db c task) as (F & A & N).
    destruct (loop_step env (db, c) task) as [db1 c1].
    cbn [fst snd] in *.
    destruct (IH db1 c1) as (F' & A' & N').
    rewrite F', A', N', F, A, N. repeat split. lia.
Qed.

End Heartbeat.





(** The end-to-end scenario: a one-time reminder three minutes overdue
    fires in the cycle that finds it, and a second cycle run at once finds
    the occurrence recorded and does not fire again. *)
Example cycle_fires_once :
  List.length (reminder_log
     (ReminderProcessor.run (sample_env None) sample_db_with_state)) = 1%nat
  /\
  option_map reminders_sent
    (first (agent_state
       (ReminderProcessor.run (sample_env None) sample_db_with_state)))
  = Some 5 /\
  List.length (reminder_log
     (ReminderProcessor.run (sample_env None)
        (ReminderProcessor.run (sample_env None) sample_db_with_state)))
  = 1%nat /\
  option_map reminders_sent
    (first (agent_state
       (ReminderProcessor.run (sample_env None)
          (ReminderProcessor.run (sample_env None) sample_db_with_state))))
  = Some 5.
Proof. vm_compute. repeat split. Qed.

(* ================================================================= *)
(** * Monthly recurrence in both services *)

Lemma place_day_clamps (i k : Z) :
  day (place_day i k) =
  Z.min k (days_in_month (year (place_day i k)) (month (place_day i k))).
Proof. reflexivity. Qed.

Lemma place_day_min (i k : Z) :
  place_day i (Z.min k (days_in_month (i / 12) (i mod 12 + 1)))
  = place_day i k.
Proof. unfold place_day. f_equal. lia. Qed.

Lemma preserve_time_of_day_date (d : datetime) (odd : option datetime) :
  dt_date (Generator.preserve_time_of_day d odd) = dt_date d.
Proof. destruct odd; reflexivity. Qed.

Lemma preserve_time_of_day_ok (d : datetime) (odd : option datetime) :
  datetime_ok d = true ->
  (forall o, odd = Some o -> datetime_ok o = true) ->
  datetime_ok (Generator.preserve_time_of_day d odd) = true.
Proof.
  intros Hd Ho. destruct odd as [o|]; [| exact Hd].
  specialize (Ho o eq_refl). apply datetime_ok_iff in Hd, Ho.
  destruct Hd as [Hdd Hdt], Ho as [_ Hot].
  apply time_ok_iff in Hdt, Hot.
  apply datetime_ok_iff. split; [exact Hdd|].
  apply time_ok_iff. cbn. lia.
Qed.

(** The year of a month index is representable. *)
Lemma representable_place_day (i k : Z) (t : time) :
  representable (combine (place_day i k) t) = true <->
  12 * MINYEAR <= i <= 12 * MAXYEAR + 11.
Proof.
  rewrite representable_iff. cbn [dt_date place_day year].
  unfold MINYEAR, MAXYEAR. Z.div_mod_to_equations. lia.
Qed.

(** The generator's monthly rule in closed form, when the month it moves
    to is in Python's range; outside it [relativedelta] raises. *)
Lemma generator_monthly_spec (completed_at : datetime) (interval dom : Z)
    (odd : option datetime) :
  datetime_ok completed_at = true -> 1 <= dom <= 31 ->
  Generator._calculate_monthly completed_at interval (Some dom) odd =
  if (12 * MINYEAR <=? month_index (dt_date completed_at) + interval)
     && (month_index (dt_date completed_at) + interval
         <=? 12 * MAXYEAR + 11)
  then Ok (Some (Generator.preserve_time_of_day
                   (combine (place_day (month_index (dt_date completed_at)
                                        + interval) dom)
                            (dt_time completed_at))
                   odd))
  else Raise ValueError.
Proof.
  intros Hc Hdom.
  pose proof (proj1 (datetime_ok_iff _) Hc) as [Hcd Hct].
  pose proof (proj1 (date_ok_iff _) Hcd) as [_ Hday].
  unfold Generator._calculate_monthly.
  replace (dom =? 0) with false by (symmetry; apply Z.eqb_neq; lia).
  replace (dom <? 1) with false by (symmetry; apply Z.ltb_ge; lia).
  replace (dom >? 31) with false
    by (symmetry; rewrite Z.gtb_ltb; apply Z.ltb_ge; lia).
  cbn [orb].
  unfold dt_add_months. cbn [dt_date dt_time].
  rewrite date_add_months_place_day.
  set (i := month_index (dt_date completed_at) + interval).
  pose proof (representable_place_day i (day (dt_date completed_at))
                (dt_time completed_at)) as Rep.
  unfold in_range at 1.
  destruct (representable
              (combine (place_day i (day (dt_date completed_at)))
                       (dt_time completed_at))).
  2:{ destruct (Z.leb_spec (12 * MINYEAR) i);
        destruct (Z.leb_spec i (12 * MAXYEAR + 11)); try reflexivity.
      assert (false = true) by (apply Rep; lia). discriminate. }
  pose proof (proj1 Rep eq_refl) as Hi.
  replace (12 * MINYEAR <=? i) with true by (symmetry; apply Z.leb_le; lia).
  replace (i <=? 12 * MAXYEAR + 11) with true
    by (symmetry; apply Z.leb_le; lia).
  cbn [andb bind]. unfold dt_replace_day. cbn [dt_date dt_time].
  assert (date_ok (place_day i (day (dt_date completed_at))) = true) as Hp
    by (apply date_ok_place_day; lia).
  rewrite !date_replace_day_spec by (assumption || lia).
  rewrite month_index_place_day.
  change (year (place_day i (day (dt_date completed_at)))) with (i / 12).
  change (month (place_day i (day (dt_date completed_at))))
    with (i mod 12 + 1).
  pose proof (days_in_month_range (i / 12) (i mod 12 + 1)) as R.
  destruct (Z.leb_spec dom (days_in_month (i / 12) (i mod 12 + 1)))
    as [L | G]; [reflexivity|].
  cbn [bind try_except_ValueError].
  replace (1 <=? days_in_month (i / 12) (i mod 12 + 1)) with true
    by (symmetry; apply Z.leb_le; lia).
  cbn [bind dt_date dt_time].
  rewrite date_add_months_place_day, month_index_place_day, place_day_day_1.
  (* the month is shorter than [dom]: it is not December *)
  assert (i mod 12 + 1 <> 12) as Nd.
  { intros E. rewrite E in G. unfold days_in_month in G.
    cbn [Z.eqb Pos.eqb orb] in G. lia. }
  rewrite in_range_Ok
    by (apply representable_place_day; unfold MINYEAR, MAXYEAR in *;
        Z.div_mod_to_equations; lia).
  cbn [bind].
  rewrite dt_add_whole_days
    by (apply datetime_ok_iff; split;
        [apply date_ok_place_day; lia | exact Hct]).
  cbn [dt_date dt_time]. rewrite last_day_of_month.
  rewrite in_range_Ok by (apply representable_place_day; exact Hi).
  cbn [bind dt_date place_day day]. rewrite Z.min_id.
  rewrite date_replace_day_spec by (assumption || lia).
  rewrite month_index_place_day.
  change (year (place_day i (day (dt_date completed_at)))) with (i / 12).
  change (month (place_day i (day (dt_date completed_at))))
    with (i mod 12 + 1).
  replace (Z.min dom (days_in_month (i / 12) (i mod 12 + 1))
           <=? days_in_month (i / 12) (i mod 12 + 1)) with true
    by (symmetry; apply Z.leb_le; lia).
  cbn [bind]. rewrite place_day_min. reflexivity.
Qed.

Lemma placed_place_day (i k : Z) : placed_in_month (place_day i k) i k.
Proof.
  unfold placed_in_month. rewrite month_index_place_day.
  split; [reflexivity | split; [| reflexivity]].
  cbn [place_day month]. pose proof (Z.mod_pos_bound i 12). lia.
Qed.

Lemma placed_in_february (d : date) (i k : Z) :
  placed_in_month d i k -> month d = 2 -> 29 <= k ->
  day d = if is_leap (year d) then 29 else 28.
Proof.
  intros (_ & _ & E) M K. rewrite E, M.
  unfold days_in_month, leap_day. cbn [Z.eqb Pos.eqb].
  destruct (is_leap (year d)); lia.
Qed.

(** C3. Monthly recurrence in both services.  When the target day does
    not exist in the month being placed, the last day of that month is
    taken and nothing fails: the polling calculator returns, strictly
    after [now], the anchor's day clamped to the length of the month of
    [now] while that placement is still ahead, and of the month after
    otherwise; the generator returns the requested day clamped to the
    length of the month [interval] months after [completed_at].  In
    February a target day of 29 or more gives day 28, or 29 in a leap year.
    Applying the rule again from the returned datetime (as new anchor and
    reference time in the calculator, as new [completed_at] with the same
    interval and day in the generator) advances by exactly one further
    cycle, one month or [interval] months, under the same clamping.  All
    this holds while the months placed lie in Python's range of years:
    for the calculator, [now] at least two years before its end; for the
    generator, the two months moved to within it, and outside it the
    generator's rule raises. *)
Theorem monthly_clamps_and_advances (rt now completed_at : datetime)
    (interval dom : Z) (odd : option datetime) :
  datetime_ok rt = true -> datetime_ok now = true ->
  datetime_ok completed_at = true ->
  (forall o, odd = Some o -> datetime_ok o = true) ->
  1 <= dom <= 31 ->
  (MINYEAR <= year (dt_date now) -> year (dt_date now) + 1 < MAXYEAR ->
   exists r r2,
     ReminderCalculator._calculate_monthly rt now = Ok (Some r) /\
     representable r = true /\
     to_us now < to_us r /\ dt_time r = dt_time rt /\
     (to_us now < to_us (month_reminder rt now 0) ->
      placed_in_month (dt_date r) (month_index (dt_date now))
                      (day (dt_date rt))) /\
     (to_us (month_reminder rt now 0) <= to_us now ->
      placed_in_month (dt_date r) (month_index (dt_date now) + 1)
                      (day (dt_date rt))) /\
     ReminderCalculator._calculate_monthly r r = Ok (Some r2) /\
     representable r2 = true /\
     dt_time r2 = dt_time r /\
     placed_in_month (dt_date r2) (month_index (dt_date r) + 1)
                     (day (dt_date r))) /\
  (12 * MINYEAR <= month_index (dt_date completed_at) + interval
   <= 12 * MAXYEAR + 11 ->
   12 * MINYEAR <= month_index (dt_date completed_at) + interval + interval
   <= 12 * MAXYEAR + 11 ->
   exists r r2,
     Generator._calculate_monthly completed_at interval (Some dom) odd
     = Ok (Some r) /\
     dt_time r = due_time completed_at odd /\
     placed_in_month (dt_date r)
                     (month_index (dt_date completed_at) + interval) dom /\
     Generator._calculate_monthly r interval (Some dom) odd
     = Ok (Some r2) /\
     dt_time r2 = dt_time r /\
     placed_in_month (dt_date r2)
                     (month_index (dt_date r) + interval) dom) /\
  (~ 12 * MINYEAR <= month_index (dt_date completed_at) + interval
     <= 12 * MAXYEAR + 11 ->
   exists e,
     Generator._calculate_monthly completed_at interval (Some dom) odd
     = Raise e) /\
  (forall d i k, placed_in_month d i k -> month d = 2 -> 29 <= k ->
                 day d = if is_leap (year d) then 29 else 28).
Proof.
  intros Hrt Hnow Hc Hodd Hdom. split; [| split; [| split]].
  - intros Ylo Yhi.
    pose proof (proj1 (datetime_ok_iff _) Hnow) as [Hnd _].
    pose proof (proj1 (date_ok_iff _) Hnd) as [Hnm _].
    assert (forall j, 0 <= j <= 1 ->
              representable (month_reminder rt now j) = true) as Rep.
    { intros j Hj. apply representable_place_day.
      unfold month_index, MINYEAR, MAXYEAR in *. lia. }
    assert (exists r,
              ReminderCalculator._calculate_monthly rt now = Ok (Some r) /\
              datetime_ok r = true /\ representable r = true /\
              to_us now < to_us r /\ dt_time r = dt_time rt /\
              (to_us now < to_us (month_reminder rt now 0) ->
               placed_in_month (dt_date r) (month_index (dt_date now))
                               (day (dt_date rt))) /\
              (to_us (month_reminder rt now 0) <= to_us now ->
               placed_in_month (dt_date r) (month_index (dt_date now) + 1)
                               (day (dt_date rt))) /\
              month_index (dt_date r) <= month_index (dt_date now) + 1 /\
              month_index (dt_date now) <= month_index (dt_date r))
      as (r & E & Hr & Rr & L & T & P0 & P1 & Mhi & Mlo).
    { rewrite monthly_spec by assumption.
      destruct (Z.ltb_spec (to_us now) (to_us (month_reminder rt now 0))).
      - exists (month_reminder rt now 0).
        split; [reflexivity | split; [now apply month_reminder_ok|]].
        split; [apply Rep; lia|].
        split; [assumption | split; [reflexivity|]].
        cbn [month_reminder dt_date]. rewrite Z.add_0_r.
        rewrite month_index_place_day.
        split; [intros _; apply placed_place_day|].
        split; [lia | lia].
      - exists (month_reminder rt now 1).
        split; [reflexivity | split; [now apply month_reminder_ok|]].
        split; [apply Rep; lia|].
        split; [now apply now_before_next_month | split; [reflexivity|]].
        cbn [month_reminder dt_date]. rewrite month_index_place_day.
        split; [lia|].
        split; [intros _; apply placed_place_day | lia]. }
    exists r, (month_reminder r r 1).
    repeat (split; [assumption|]).
    split; [| split; [| split; [reflexivity | apply placed_place_day]]].
    + rewrite monthly_spec by assumption.
      assert (month_reminder r r 0 = r) as ->.
      { unfold month_reminder. rewrite Z.add_0_r, place_day_self.
        - now destruct r.
        - now apply datetime_ok_iff in Hr. }
      rewrite Z.ltb_irrefl. reflexivity.
    + apply representable_place_day.
      unfold month_index, MINYEAR, MAXYEAR in *. lia.
  - intros R1 R2.
    pose proof (proj1 (datetime_ok_iff _) Hc) as [Hcd Hct].
    set (r := Generator.preserve_time_of_day
                (combine (place_day (month_index (dt_date completed_at)
                                     + interval) dom)
                         (dt_time completed_at)) odd).
    assert (datetime_ok r = true) as Hr.
    { apply preserve_time_of_day_ok; [| exact Hodd].
      apply datetime_ok_iff. split;
        [apply date_ok_place_day; lia | exact Hct]. }
    assert (dt_date r
            = place_day (month_index (dt_date completed_at) + interval) dom)
      as Dr by (subst r; apply preserve_time_of_day_date).
    assert (dt_time r = due_time completed_at odd)
      as Tr by (subst r; destruct odd; reflexivity).
    assert (month_index (dt_date r)
            = month_index (dt_date completed_at) + interval) as Mr
      by (rewrite Dr; apply month_index_place_day).
    exists r.
    eexists. split.
    { rewrite generator_monthly_spec by assumption.
      replace (12 * MINYEAR <=? month_index (dt_date completed_at) + interval)
        with true by (symmetry; apply Z.leb_le; lia).
      replace (month_index (dt_date completed_at) + interval
               <=? 12 * MAXYEAR + 11)
        with true by (symmetry; apply Z.leb_le; lia).
      reflexivity. }
    split; [exact Tr|].
    split; [rewrite Dr; apply placed_place_day|].
    split.
    { rewrite generator_monthly_spec by assumption. rewrite Mr.
      replace (12 * MINYEAR
               <=? month_index (dt_date completed_at) + interval + interval)
        with true by (symmetry; apply Z.leb_le; lia).
      replace (month_index (dt_date completed_at) + interval + interval
               <=? 12 * MAXYEAR + 11)
        with true by (symmetry; apply Z.leb_le; lia).
      reflexivity. }
    split; [destruct odd; reflexivity|].
    rewrite preserve_time_of_day_date, <- Mr. apply placed_place_day.
  - intros N. exists ValueError.
    rewrite generator_monthly_spec by assumption.
    destruct (Z.leb_spec (12 * MINYEAR)
                (month_index (dt_date completed_at) + interval));
      destruct (Z.leb_spec (month_index (dt_date completed_at) + interval)
                  (12 * MAXYEAR + 11)); try reflexivity.
    exfalso. apply N. lia.
  - exact placed_in_february.
Qed.

Lemma monthly_clamps_and_advances_witness :
  exists r r2,
    Generator._calculate_monthly (at_ 2025 1 31 10 0) 1 (Some 31) None
    = Ok (Some r) /\
    dt_time r = due_time (at_ 2025 1 31 10 0) None /\
    placed_in_month (dt_date r)
                    (month_index (dt_date (at_ 2025 1 31 10 0)) + 1) 31 /\
    Generator._calculate_monthly r 1 (Some 31) None = Ok (Some r2) /\
    dt_time r2 = dt_time r /\
    placed_in_month (dt_date r2) (month_index (dt_date r) + 1) 31.
Proof.
  assert (forall o : datetime, @None datetime = Some o ->
                               datetime_ok o = true) as Hodd
    by discriminate.
  assert (1 <= 31 <= 31) as Hdom by lia.
  refine (proj1 (proj2 (monthly_clamps_and_advances
                          (at_ 2025 1 31 10 0) (at_ 2025 2 15 9 0)
                          (at_ 2025 1 31 10 0) 1 31 None
                          eq_refl eq_refl eq_refl Hodd Hdom)) _ _);
    vm_compute; split; discriminate.
Defined.

(** The docstring's case and its leap-year twin: the 31st, placed in
    February. *)
Example monthly_february_2025 :
  ReminderCalculator._calculate_monthly (at_ 2025 1 31 10 0)
                                        (at_ 2025 2 15 9 0)
  = Ok (Some (at_ 2025 2 28 10 0)).
Proof. reflexivity. Qed.

Example monthly_february_2024 :
  ReminderCalculator._calculate_monthly (at_ 2023 12 31 10 0)
                                        (at_ 2024 2 15 9 0)
  = Ok (Some (at_ 2024 2 29 10 0)).
Proof. reflexivity. Qed.

Example generator_monthly_chain :
  Generator._calculate_monthly (at_ 2025 1 31 10 0) 1 (Some 31) None
  = Ok (Some (at_ 2025 2 28 10 0)) /\
  Generator._calculate_monthly (at_ 2025 2 28 10 0) 1 (Some 31) None
  = Ok (Some (at_ 2025 3 31 10 0)).
Proof. split; reflexivity. Qed.

(* ================================================================= *)
(** * Weekly recurrence in both services *)

Lemma insert_sorted_In (x y : Z) (l : list Z) :
  In y (Generator.insert_sorted x l) <-> y = x \/ In y l.
Proof.
  induction l as [| a l IH]; cbn [Generator.insert_sorted In].
  - intuition.
  - destruct (x <=? a); cbn [In]; rewrite ?IH; intuition.
Qed.

Lemma sorted_In (y : Z) (l : list Z) : In y (Generator.sorted l) <-> In y l.
Proof.
  unfold Generator.sorted. induction l as [| a l IH]; cbn [fold_right In].
  - reflexivity.
  - rewrite insert_sorted_In, IH. intuition.
Qed.

Lemma insert_sorted_sorted (x : Z) (l : list Z) :
  StronglySorted Z.le l -> StronglySorted Z.le (Generator.insert_sorted x l).
Proof.
  induction 1 as [| a l S IH F]; cbn [Generator.insert_sorted].
  - repeat constructor.
  - destruct (Z.leb_spec x a).
    + constructor; [constructor; assumption|].
      constructor; [assumption|].
      eapply Forall_impl; [| exact F]. intros; cbn in *; lia.
    + constructor; [exact IH|].
      apply Forall_forall. intros y Hy.
      apply insert_sorted_In in Hy. destruct Hy as [-> | Hy]; [lia|].
      exact (proj1 (Forall_forall _ _) F y Hy).
Qed.

Lemma sorted_sorted (l : list Z) : StronglySorted Z.le (Generator.sorted l).
Proof.
  unfold Generator.sorted. induction l; cbn [fold_right].
  - constructor.
  - now apply insert_sorted_sorted.
Qed.

(** The loop over the sorted days finds the least day after the current
    weekday, or there is none. *)
Lemma first_day_after_spec (w : Z) (l : list Z) :
  StronglySorted Z.le l ->
  match Generator.first_day_after w l with
  | Some d => In d l /\ w < d /\ forall d', In d' l -> w < d' -> d <= d'
  | None => forall d', In d' l -> d' <= w
  end.
Proof.
  induction 1 as [| a l S IH F]; cbn [Generator.first_day_after].
  - intros d' [].
  - rewrite Z.gtb_ltb. destruct (Z.ltb_spec w a).
    + split; [now left | split; [assumption|]].
      intros d' [<- | Hd'] _; [lia|].
      exact (proj1 (Forall_forall _ _) F d' Hd').
    + destruct (Generator.first_day_after w l) as [d|].
      * destruct IH as (Hin & Hlt & Hmin).
        split; [now right | split; [assumption|]].
        intros d' [<- | Hd'] Hw; [lia | now apply Hmin].
      * intros d' [<- | Hd']; [lia | now apply IH].
Qed.

(** The head of the sorted days is the least day. *)
Lemma hd_sorted_least (l : list Z) :
  l <> [] ->
  In (hd 0 (Generator.sorted l)) l /\
  forall d', In d' l -> hd 0 (Generator.sorted l) <= d'.
Proof.
  intros N. pose proof (sorted_sorted l) as S.
  pose proof (fun y => sorted_In y l) as I.
  destruct (Generator.sorted l) as [| a s].
  - destruct l as [| b l]; [congruence|].
    destruct (proj2 (I b) (or_introl eq_refl)).
  - cbn [hd]. split; [apply I; now left|].
    intros d' Hd'. apply I in Hd'. destruct Hd' as [<- | Hd']; [lia|].
    inversion S as [| ? ? _ F]; subst.
    exact (proj1 (Forall_forall _ _) F d' Hd').
Qed.

(** One step of the generator's weekly rule: [k] whole days after
    [completed_at], when that day is representable. *)
Lemma weekly_step (completed_at : datetime) (k : Z) (odd : option datetime) :
  datetime_ok completed_at = true ->
  (next_date <- in_range OverflowError
                  (dt_add completed_at (td_days k)) ;;
   Ok (Some (Generator.preserve_time_of_day next_date odd)))
  = if representable (combine (date_add_days (dt_date completed_at) k)
                              (dt_time completed_at))
    then Ok (Some (combine (date_add_days (dt_date completed_at) k)
                           (due_time completed_at odd)))
    else Raise OverflowError.
Proof.
  intros Hc. rewrite dt_add_whole_days by exact Hc. unfold in_range.
  destruct (representable _); [| reflexivity].
  cbn [bind]. destruct odd; reflexivity.
Qed.

Lemma representable_later_day (completed_at : datetime) (k : Z) :
  datetime_ok completed_at = true ->
  MINYEAR <= year (dt_date completed_at) -> 0 <= k ->
  representable (combine (date_add_days (dt_date completed_at) k)
                         (dt_time completed_at))
  = (year (date_add_days (dt_date completed_at) k) <=? MAXYEAR).
Proof.
  intros Hc Hy Hk. apply datetime_ok_iff in Hc. destruct Hc as [Hcd _].
  pose proof (year_le_of_toordinal (dt_date completed_at)
                (date_add_days (dt_date completed_at) k) Hcd
                (date_ok_add_days _ k Hcd)) as M.
  rewrite toordinal_add_days in M by exact Hcd.
  unfold representable. cbn [dt_date].
  replace (MINYEAR <=? year (date_add_days (dt_date completed_at) k))
    with true by (symmetry; apply Z.leb_le; lia).
  reflexivity.
Qed.

(** C4, as it reads, in the generator: the reference day is one of the
    target weekdays and the anchor's time of day is still ahead, so the
    result would be that same day.  The generator returns the following
    Monday. *)
Lemma weekly_same_day_generator_counterexample :
  ~ (In (weekday (dt_date wednesday_morning)) [0; 2] ->
     to_us wednesday_morning
     < to_us (combine (dt_date wednesday_morning) (dt_time due_at_nine)) ->
     Generator._calculate_weekly wednesday_morning 1 [0; 2]
                                 (Some due_at_nine)
     = Ok (Some (combine (dt_date wednesday_morning)
                         (dt_time due_at_nine)))).
Proof.
  intros H.
  assert (Generator._calculate_weekly wednesday_morning 1 [0; 2]
                                      (Some due_at_nine)
          = Ok (Some (at_ 2025 1 20 9 0))) as E by reflexivity.
  rewrite E in H.
  assert (Ok (Some (at_ 2025 1 20 9 0))
          = Ok (Some (combine (dt_date wednesday_morning)
                              (dt_time due_at_nine)))) as Bad.
  { apply H.
    - right; left. reflexivity.
    - vm_compute. reflexivity. }
  discriminate Bad.
Qed.

(** C4, amended.  Polling calculator (the target is the anchor's weekday,
    the period is one week; [now] before the last year of Python's range):
    on a day with the anchor's weekday the result is that day at the
    anchor's time of day while that time is still ahead, and seven days
    later once it has passed; on any other day it is the next day with the
    anchor's weekday, 1 to 6 days ahead.  Generator (a non-empty list of
    target weekdays 0..6): the result is never the reference day; it is
    the nearest target weekday later in the same week, with no extra
    weeks, or, when there is none, the least target weekday of the
    following week plus [interval - 1] extra weeks when [interval > 1]; its
    hour, minute and second are those of the original due date, or the
    time of day of [completed_at] when there is no due date.  When that
    day lies beyond Python's range of years the rule raises
    [OverflowError] instead.  With targets Monday and Wednesday, interval 1
    and a Wednesday reference, the generator returns the following
    Monday. *)
Theorem weekly_next_occurrence (rt now completed_at : datetime)
    (interval : Z) (days_of_week : list Z) (odd : option datetime) :
  datetime_ok rt = true -> datetime_ok now = true ->
  datetime_ok completed_at = true ->
  MINYEAR <= year (dt_date completed_at) ->
  days_of_week <> [] -> (forall d, In d days_of_week -> 0 <= d <= 6) ->
  (MINYEAR <= year (dt_date now) < MAXYEAR ->
   (weekday (dt_date rt) = weekday (dt_date now) ->
    to_us now < to_us (today_reminder rt now) ->
    ReminderCalculator._calculate_weekly rt now
    = Some (today_reminder rt now)) /\
   (weekday (dt_date rt) = weekday (dt_date now) ->
    to_us (today_reminder rt now) <= to_us now ->
    ReminderCalculator._calculate_weekly rt now
    = Some (combine (date_add_days (dt_date now) 7) (dt_time rt))) /\
   (weekday (dt_date rt) <> weekday (dt_date now) ->
    exists k, 1 <= k <= 6 /\
      weekday (date_add_days (dt_date now) k) = weekday (dt_date rt) /\
      ReminderCalculator._calculate_weekly rt now
      = Some (combine (date_add_days (dt_date now) k) (dt_time rt)))) /\
  (exists k d,
     1 <= k /\ In d days_of_week /\
     weekday (date_add_days (dt_date completed_at) k) = d /\
     ((weekday (dt_date completed_at) < d /\
       (forall d', In d' days_of_week ->
                   weekday (dt_date completed_at) < d' -> d <= d') /\
       k = d - weekday (dt_date completed_at)) \/
      ((forall d', In d' days_of_week ->
                   d' <= weekday (dt_date completed_at)) /\
       (forall d', In d' days_of_week -> d <= d') /\
       k = 7 - weekday (dt_date completed_at) + d
           + (if interval >? 1 then (interval - 1) * 7 else 0))) /\
     (year (date_add_days (dt_date completed_at) k) <= MAXYEAR ->
      Generator._calculate_weekly completed_at interval days_of_week odd
      = Ok (Some (combine (date_add_days (dt_date completed_at) k)
                          (due_time completed_at odd)))) /\
     (MAXYEAR < year (date_add_days (dt_date completed_at) k) ->
      Generator._calculate_weekly completed_at interval days_of_week odd
      = Raise OverflowError)) /\
  (weekday (dt_date completed_at) = 2 ->
   year (date_add_days (dt_date completed_at) 5) <= MAXYEAR ->
   Generator._calculate_weekly completed_at 1 [0; 2] odd
   = Ok (Some (combine (date_add_days (dt_date completed_at) 5)
                       (due_time completed_at odd))) /\
   weekday (date_add_days (dt_date completed_at) 5) = 0).
Proof.
  intros Hrt Hnow Hc Hcy Hne Hdays.
  pose proof (proj1 (datetime_ok_iff _) Hnow) as [Hnd _].
  pose proof (proj1 (datetime_ok_iff _) Hc) as [Hcd _].
  pose proof (weekday_range (dt_date rt)) as Wrt.
  pose proof (weekday_range (dt_date now)) as Wnow.
  pose proof (weekday_range (dt_date completed_at)) as Wc.
  assert (forall k, 0 <= k ->
            (year (date_add_days (dt_date completed_at) k) <= MAXYEAR ->
             (next_date <- in_range OverflowError
                             (dt_add completed_at (td_days k)) ;;
              Ok (Some (Generator.preserve_time_of_day next_date odd)))
             = Ok (Some (combine (date_add_days (dt_date completed_at) k)
                                 (due_time completed_at odd)))) /\
            (MAXYEAR < year (date_add_days (dt_date completed_at) k) ->
             (next_date <- in_range OverflowError
                             (dt_add completed_at (td_days k)) ;;
              Ok (Some (Generator.preserve_time_of_day next_date odd)))
             = Raise OverflowError)) as Step.
  { intros k Hk. rewrite weekly_step by exact Hc.
    rewrite representable_later_day by assumption.
    split; intros Y.
    - replace (year (date_add_days (dt_date completed_at) k) <=? MAXYEAR)
        with true by (symmetry; apply Z.leb_le; lia).
      reflexivity.
    - replace (year (date_add_days (dt_date completed_at) k) <=? MAXYEAR)
        with false by (symmetry; apply Z.leb_gt; lia).
      reflexivity. }
  split; [| split].
  - intros _. rewrite weekly_spec by assumption. split; [| split].
    + intros Ew L. rewrite Ew, Z.eqb_refl.
      replace (to_us now <? to_us (today_reminder rt now)) with true
        by (symmetry; now apply Z.ltb_lt).
      reflexivity.
    + intros Ew L. rewrite Ew, Z.eqb_refl.
      replace (to_us now <? to_us (today_reminder rt now)) with false
        by (symmetry; now apply Z.ltb_ge).
      unfold td_weeks. change (7 * 1) with 7.
      rewrite dt_add_whole_days by now apply today_reminder_ok.
      reflexivity.
    + intros Nw.
      replace (weekday (dt_date rt) =? weekday (dt_date now)) with false
        by (symmetry; now apply Z.eqb_neq).
      exists ((weekday (dt_date rt) - weekday (dt_date now)) mod 7).
      split; [Z.div_mod_to_equations; lia | split; [| reflexivity]].
      rewrite weekday_add_days by exact Hnd.
      Z.div_mod_to_equations; lia.
  - unfold Generator._calculate_weekly.
    destruct days_of_week as [| d0 ds] eqn:El; [congruence|].
    rewrite <- El in *. clear El d0 ds.
    pose proof (first_day_after_spec (weekday (dt_date completed_at))
                  (Generator.sorted days_of_week)
                  (sorted_sorted days_of_week)) as S.
    destruct (Generator.first_day_after (weekday (dt_date completed_at))
                (Generator.sorted days_of_week)) as [d|].
    + destruct S as (Hin & Hlt & Hmin).
      apply (proj1 (sorted_In _ _)) in Hin.
      pose proof (Hdays d Hin).
      exists (d - weekday (dt_date completed_at)), d.
      split; [lia | split; [exact Hin|]].
      split; [| split; [| apply Step; lia]].
      * rewrite weekday_add_days by exact Hcd.
        replace (weekday (dt_date completed_at)
                 + (d - weekday (dt_date completed_at))) with d by lia.
        apply Z.mod_small. lia.
      * left. split; [exact Hlt | split; [| reflexivity]].
        intros d' Hd'. apply Hmin. now apply (proj2 (sorted_In _ _)).
    + destruct (hd_sorted_least days_of_week Hne) as [Hin Hmin].
      set (d := hd 0 (Generator.sorted days_of_week)) in *.
      pose proof (Hdays d Hin).
      set (extra := if interval >? 1 then (interval - 1) * 7 else 0).
      assert (0 <= extra /\ extra mod 7 = 0) as [Hex Hmod].
      { subst extra. rewrite Z.gtb_ltb. destruct (Z.ltb_spec 1 interval).
        - split; [lia | apply Z.mod_mul; lia].
        - split; [lia | reflexivity]. }
      exists (7 - weekday (dt_date completed_at) + d + extra), d.
      assert ((if interval >? 1
               then 7 - weekday (dt_date completed_at) + d
                    + (interval - 1) * 7
               else 7 - weekday (dt_date completed_at) + d)
              = 7 - weekday (dt_date completed_at) + d + extra) as ->.
      { subst extra. destruct (interval >? 1); lia. }
      split; [lia | split; [exact Hin|]].
      split; [| split; [| apply Step; lia]].
      * rewrite weekday_add_days by exact Hcd.
        replace (weekday (dt_date completed_at)
                 + (7 - weekday (dt_date completed_at) + d + extra))
          with (d + extra + 1 * 7) by lia.
        rewrite Z.mod_add by lia.
        rewrite Zplus_mod, Hmod, Z.add_0_r, Z.mod_mod by lia.
        apply Z.mod_small. lia.
      * right. split; [| split; [exact Hmin | reflexivity]].
        intros d' Hd'. apply S. now apply (proj2 (sorted_In _ _)).
  - intros W Y. unfold Generator._calculate_weekly.
    change (Generator.sorted [0; 2]) with [0; 2].
    rewrite W. cbn [Generator.first_day_after Z.gtb Z.compare Pos.compare
                    Pos.compare_cont hd].
    change (if 1 >? 1 then 7 - 2 + 0 + (1 - 1) * 7 else 7 - 2 + 0) with 5.
    split; [apply Step; [lia | exact Y]|].
    rewrite weekday_add_days, W by exact Hcd. reflexivity.
Qed.

Lemma weekly_next_occurrence_witness :
  Generator._calculate_weekly (at_ 2025 1 15 10 0) 1 [0; 2]
                              (Some (at_ 2025 1 13 9 0))
  = Ok (Some (at_ 2025 1 20 9 0)).
Proof.
  assert (MINYEAR <= year (dt_date (at_ 2025 1 15 10 0))) as Y
    by (vm_compute; discriminate).
  assert ([0; 2] <> []) as Hne by discriminate.
  assert (forall d, In d [0; 2] -> 0 <= d <= 6) as Hdays
    by (intros d [<- | [<- | []]]; lia).
  refine (proj1 (proj2 (proj2 (weekly_next_occurrence
            (at_ 2025 1 13 9 0) (at_ 2025 1 15 10 0) (at_ 2025 1 15 10 0)
            1 [0; 2] (Some (at_ 2025 1 13 9 0))
            eq_refl eq_refl eq_refl Y Hne Hdays)) eq_refl _)).
  vm_compute. discriminate.
Defined.

(** The docstring's cases of the polling calculator. *)
Example weekly_wednesday_to_monday :
  ReminderCalculator._calculate_weekly (at_ 2025 1 13 9 0)
                                       (at_ 2025 1 15 10 0)
  = Some (at_ 2025 1 20 9 0).
Proof. reflexivity. Qed.

Example weekly_monday_before_nine :
  ReminderCalculator._calculate_weekly (at_ 2025 1 13 9 0)
                                       (at_ 2025 1 13 8 0)
  = Some (at_ 2025 1 13 9 0).
Proof. reflexivity. Qed.

(* ================================================================= *)
(** * Further properties of the reminder calculator *)

Lemma same_time_close_instants (a b : datetime) (period : Z) :
  datetime_ok a = true -> datetime_ok b = true ->
  dt_time a = dt_time b ->
  0 < period ->
  (toordinal (dt_date a) - toordinal (dt_date b)) mod period = 0 ->
  Z.abs (to_us a - to_us b) < period * us_per_day ->
  a = b.
Proof.
  intros Ha Hb Et Hp Hmod Hclose.
  apply to_us_inj; try assumption.
  unfold to_us in *. rewrite Et in *.
  change us_per_day with 86400000000 in *.
  apply Z.abs_lt in Hclose.
  apply Z.mod_divide in Hmod; [| lia]. destruct Hmod as [q Hq].
  assert (q = 0) as Q
    by (destruct (Z.lt_trichotomy q 0) as [L | [L | L]]; [nia | exact L | nia]).
  subst q. lia.
Qed.

(** X1. The daily rule returns the one instant that has the anchor's time
    of day and lies after [now] and at most one day after it. *)
Theorem daily_is_next_instant_at_anchor_time (rt now r : datetime) :
  datetime_ok rt = true -> datetime_ok now = true ->
  ReminderCalculator._calculate_daily rt now = Some r ->
  datetime_ok r = true /\ dt_time r = dt_time rt /\
  to_us now < to_us r <= to_us now + td_days 1 /\
  (forall r', datetime_ok r' = true -> dt_time r' = dt_time rt ->
     to_us now < to_us r' <= to_us now + td_days 1 -> r' = r).
Proof.
  intros Hrt Hnow E.
  rewrite daily_spec in E by assumption.
  pose proof (today_reminder_ok rt now Hrt Hnow) as Ht.
  rewrite dt_add_whole_days in E by exact Ht.
  pose proof (proj1 (datetime_ok_iff _) Hnow) as [Hnd Hnt].
  pose proof (proj1 (datetime_ok_iff _) Hrt) as [_ Hrtt].
  pose proof (time_to_us_range _ Hnt) as Rn.
  pose proof (time_to_us_range _ Hrtt) as Rr.
  assert (datetime_ok r = true /\ dt_time r = dt_time rt /\
          to_us now < to_us r <= to_us now + td_days 1) as (Hr & Tr & Range).
  { injection E as <-.
    destruct (Z.ltb_spec (to_us now) (to_us (today_reminder rt now)))
      as [L | G].
    - split; [exact Ht | split; [reflexivity|]].
      unfold to_us, today_reminder, td_days in *.
      cbn [dt_date dt_time] in *. lia.
    - split; [| split; [reflexivity|]].
      + apply datetime_ok_iff. cbn [dt_date dt_time today_reminder].
        split; [now apply date_ok_add_days | exact Hrtt].
      + unfold to_us, today_reminder, td_days in *.
        cbn [dt_date dt_time] in *.
        rewrite toordinal_add_days by exact Hnd. lia. }
  repeat (split; [assumption|]).
  intros r' Hr' Tr' Range'.
  apply (same_time_close_instants r' r 1);
    [exact Hr' | exact Hr | congruence | lia | apply Z.mod_1_r |].
  unfold td_days in *. lia.
Qed.

Lemma daily_is_next_instant_at_anchor_time_witness :
  to_us (at_ 2025 1 15 10 0) < to_us (at_ 2025 1 16 9 0)
  <= to_us (at_ 2025 1 15 10 0) + td_days 1.
Proof.
  exact (proj1 (proj2 (proj2 (daily_is_next_instant_at_anchor_time
           (at_ 2025 1 15 9 0) (at_ 2025 1 15 10 0) (at_ 2025 1 16 9 0)
           eq_refl eq_refl eq_refl)))).
Defined.

(** X2. The weekly rule returns the one instant that has the anchor's
    weekday and time of day and lies after [now] and at most seven days
    after it. *)
Theorem weekly_is_next_instant_on_anchor_weekday (rt now r : datetime) :
  datetime_ok rt = true -> datetime_ok now = true ->
  ReminderCalculator._calculate_weekly rt now = Some r ->
  datetime_ok r = true /\ dt_time r = dt_time rt /\
  weekday (dt_date r) = weekday (dt_date rt) /\
  to_us now < to_us r <= to_us now + td_days 7 /\
  (forall r', datetime_ok r' = true -> dt_time r' = dt_time rt ->
     weekday (dt_date r') = weekday (dt_date rt) ->
     to_us now < to_us r' <= to_us now + td_days 7 -> r' = r).
Proof.
  intros Hrt Hnow E.
  pose proof (proj1 (datetime_ok_iff _) Hnow) as [Hnd Hnt].
  pose proof (proj1 (datetime_ok_iff _) Hrt) as [_ Hrtt].
  pose proof (time_to_us_range _ Hnt) as Rn.
  pose proof (time_to_us_range _ Hrtt) as Rr.
  pose proof (weekday_range (dt_date rt)) as Wrt.
  pose proof (weekday_range (dt_date now)) as Wnow.
  assert (exists k, 0 <= k <= 7 /\
            r = combine (date_add_days (dt_date now) k) (dt_time rt) /\
            (weekday (dt_date now) + k) mod 7 = weekday (dt_date rt) /\
            to_us now < to_us r /\
            (k = 7 -> to_us (today_reminder rt now) <= to_us now))
    as (k & Hk & -> & Wk & Lk & Seven).
  { rewrite weekly_spec in E by assumption. unfold td_weeks in E.
    rewrite dt_add_whole_days in E by now apply today_reminder_ok.
    injection E as <-.
    destruct (Z.eqb_spec (weekday (dt_date rt)) (weekday (dt_date now)))
      as [Ew | Nw].
    - destruct (Z.ltb_spec (to_us now) (to_us (today_reminder rt now))).
      + exists 0. split; [lia|]. rewrite date_add_days_0.
        split; [reflexivity | split; [| split; [assumption | lia]]].
        rewrite Z.add_0_r, Ew. apply Z.mod_small. lia.
      + exists 7. split; [lia | split; [reflexivity | split]].
        * rewrite Ew. Z.div_mod_to_equations. lia.
        * split; [| intros _; assumption].
          apply now_before_later_day; (assumption || lia).
    - exists ((weekday (dt_date rt) - weekday (dt_date now)) mod 7).
      split; [Z.div_mod_to_equations; lia |].
      split; [reflexivity | split; [| split]].
      + Z.div_mod_to_equations. lia.
      + apply now_before_later_day; try assumption.
        Z.div_mod_to_equations. lia.
      + intros K. exfalso. Z.div_mod_to_equations. lia. }
  assert (datetime_ok (combine (date_add_days (dt_date now) k) (dt_time rt))
          = true) as Hr.
  { apply datetime_ok_iff. cbn [dt_date dt_time].
    split; [now apply date_ok_add_days | exact Hrtt]. }
  assert (weekday (date_add_days (dt_date now) k) = weekday (dt_date rt))
    as Wr by (rewrite weekday_add_days by exact Hnd; exact Wk).
  assert (to_us (combine (date_add_days (dt_date now) k) (dt_time rt))
          <= to_us now + td_days 7) as Upper.
  { unfold to_us, td_days, today_reminder in *.
    cbn [dt_date dt_time] in *.
    rewrite toordinal_add_days in * by exact Hnd.
    change us_per_day with 86400000000 in *.
    destruct (Z.eq_dec k 7) as [K | Nk]; [specialize (Seven K) |]; lia. }
  split; [exact Hr | split; [reflexivity | split; [exact Wr|]]].
  split; [split; assumption|].
  intros r' Hr' Tr' Wr' Range'.
  apply (same_time_close_instants r' _ 7);
    [exact Hr' | exact Hr | exact Tr' | lia | | ].
  - cbn [dt_date]. unfold weekday in Wr, Wr'.
    rewrite <- Wr in Wr'. Z.div_mod_to_equations. lia.
  - unfold td_days in *. lia.
Qed.

Lemma weekly_is_next_instant_on_anchor_weekday_witness :
  weekday (dt_date (at_ 2025 1 20 9 0))
  = weekday (dt_date (at_ 2025 1 13 9 0)).
Proof.
  exact (proj1 (proj2 (proj2 (weekly_is_next_instant_on_anchor_weekday
           (at_ 2025 1 13 9 0) (at_ 2025 1 15 10 0) (at_ 2025 1 20 9 0)
           eq_refl eq_refl eq_refl)))).
Defined.

(** X3. The grace gate never reopens: a task that is skipped at some time
    is skipped at every later time. *)
Theorem skipped_stays_skipped (task : Task) (now later : datetime) :
  to_us now <= to_us later ->
  ReminderCalculator.should_skip_reminder task now = true ->
  ReminderCalculator.should_skip_reminder task later = true.
Proof.
  intros L. unfold ReminderCalculator.should_skip_reminder.
  destruct (completed task); [reflexivity|].
  destruct (due_date task) as [due|]; [| discriminate].
  pose proof (days_field_exceeds (dt_diff now due) GRACE_PERIOD_DAYS) as A.
  pose proof (days_field_exceeds (dt_diff later due) GRACE_PERIOD_DAYS) as B.
  destruct (td_days_field (dt_diff now due) >? GRACE_PERIOD_DAYS);
    [| discriminate].
  intros _.
  assert (td_days (GRACE_PERIOD_DAYS + 1) <= dt_diff later due) as C
    by (pose proof (proj1 A eq_refl); unfold dt_diff in *; lia).
  apply B in C. now rewrite C.
Qed.

Lemma skipped_stays_skipped_witness :
  ReminderCalculator.should_skip_reminder overdue_task (at_ 2025 2 1 0 0)
  = true.
Proof.
  apply (skipped_stays_skipped overdue_task (at_ 2025 1 9 9 0)
                               (at_ 2025 2 1 0 0)).
  - vm_compute. discriminate.
  - reflexivity.
Defined.

(** X4. A missed one-time reminder stays missed: once the calculator
    answers [None] for a task with pattern ["none"], it answers [None] at
    every later time. *)
Theorem missed_one_time_stays_missed (task : Task) (rt now later : datetime) :
  datetime_ok rt = true -> datetime_ok now = true ->
  datetime_ok later = true ->
  reminder_time task = Some rt ->
  recurrence_pattern task = "none"%string ->
  to_us now <= to_us later ->
  ReminderCalculator.calculate_reminder_datetime task now = Ok None ->
  ReminderCalculator.calculate_reminder_datetime task later = Ok None.
Proof.
  intros Hrt Hnow Hlater Ert Ep L.
  rewrite !(calculate_reminder_datetime_set task _ rt Ert), Ep.
  cbn [String.eqb Ascii.eqb Bool.eqb].
  rewrite !one_time_spec by assumption.
  destruct (Z.leb_spec (to_us now - td_minutes 5) (to_us rt));
    [discriminate|].
  intros _.
  destruct (Z.leb_spec (to_us later - td_minutes 5) (to_us rt));
    [lia | reflexivity].
Qed.

Lemma missed_one_time_stays_missed_witness :
  ReminderCalculator.calculate_reminder_datetime
    (sample_task "none" (at_ 2025 1 15 14 0)) (at_ 2025 1 16 8 0)
  = Ok None.
Proof.
  apply (missed_one_time_stays_missed
           (sample_task "none" (at_ 2025 1 15 14 0))
           (at_ 2025 1 15 14 0) (at_ 2025 1 15 15 0) (at_ 2025 1 16 8 0));
    try reflexivity.
  vm_compute. discriminate.
Defined.

(* ================================================================= *)
(** * The task reader and the calculator *)

Lemma comprehension_Ok {A : Type} (p : A -> res bool) (q : A -> bool)
    (xs : list A) :
  (forall x, In x xs -> p x = Ok (q x)) ->
  TaskReader.comprehension p xs = Ok (filter q xs).
Proof.
  induction xs as [| x xs IH]; intros H; [reflexivity|].
  cbn [TaskReader.comprehension filter].
  rewrite (H x (or_introl eq_refl)). cbn [bind].
  rewrite IH by (intros y Hy; apply H; now right).
  reflexivity.
Qed.

Lemma comprehension_In {A : Type} (p : A -> res bool) (xs kept : list A)
    (x : A) :
  TaskReader.comprehension p xs = Ok kept -> In x kept ->
  In x xs /\ p x = Ok true.
Proof.
  revert kept. induction xs as [| y xs IH]; intros kept.
  - intros H. injection H as <-. intros [].
  - cbn [TaskReader.comprehension].
    destruct (p y) as [keep|] eqn:Py; [| discriminate]. cbn [bind].
    destruct (TaskReader.comprehension p xs) as [kept'|]; [| discriminate].
    cbn [bind]. intros H. injection H as <-.
    destruct keep.
    + intros [<- | Hin]; [split; [now left | exact Py]|].
      destruct (IH kept' eq_refl Hin). split; [now right | assumption].
    + intros Hin. destruct (IH kept' eq_refl Hin).
      split; [now right | assumption].
Qed.

(** The reader's test for a one-time task, on instants. *)
Lemma should_process_one_time (task : Task) (rt now : datetime) (la : Z) :
  datetime_ok rt = true -> datetime_ok now = true ->
  reminder_time task = Some rt ->
  recurrence_pattern task = "none"%string ->
  TaskReader._should_process_now task now (dt_add now (td_minutes la)) =
  if representable (dt_sub now (td_minutes 5))
  then Ok ((to_us now - td_minutes 5 <=? to_us rt)
           && (to_us rt <? to_us now + td_minutes la))
  else Raise OverflowError.
Proof.
  intros Hrt Hnow Ert Ep. unfold TaskReader._should_process_now.
  rewrite Ert, Ep. cbn [String.eqb Ascii.eqb Bool.eqb].
  unfold in_range.
  destruct (representable (dt_sub now (td_minutes 5))); [| reflexivity].
  cbn [bind].
  destruct (to_us_dt_sub now (td_minutes 5) Hnow) as [Es Ks].
  destruct (to_us_dt_add now (td_minutes la) Hnow) as [Ea Ka].
  rewrite dt_leb_to_us, dt_ltb_to_us, Es, Ea by assumption.
  reflexivity.
Qed.

(** The test never raises when five minutes can be taken from [now]. *)
Lemma should_process_total (task : Task) (now lookahead : datetime) :
  representable (dt_sub now (td_minutes 5)) = true ->
  exists keep, TaskReader._should_process_now task now lookahead = Ok keep.
Proof.
  intros R. unfold TaskReader._should_process_now.
  destruct (reminder_time task); [| eauto].
  destruct (String.eqb (recurrence_pattern task) "none"); [| eauto].
  rewrite in_range_Ok by exact R. cbn [bind]. eauto.
Qed.

(** What the reader's answer contains. *)
Lemma get_tasks_In (db : Database) (now : datetime) (la : Z) (task : Task) :
  In task (TaskReader.get_tasks_needing_reminders db now la) ->
  fault db = None /\
  representable (dt_add now (td_minutes la)) = true /\
  In task (tasks db) /\ completed task = false /\
  is_not_None (reminder_time task) = true /\
  TaskReader._should_process_now task now (dt_add now (td_minutes la))
  = Ok true.
Proof.
  unfold TaskReader.get_tasks_needing_reminders, get_session, in_range.
  destruct (fault db); [intros []|]. cbn [bind].
  destruct (representable (dt_add now (td_minutes la))); [| intros []].
  cbn [bind].
  destruct (TaskReader.comprehension _ _) as [kept|] eqn:C; [| intros []].
  cbn [bind try_except]. intros Hin.
  destruct (comprehension_In _ _ _ _ C Hin) as [Hf P].
  apply filter_In in Hf. destruct Hf as [Ht Q].
  apply andb_true_iff in Q. destruct Q as [Q1 Q2].
  repeat split; try assumption. now destruct (completed task).
Qed.

(** The reader on a database within reach, when neither the end of the
    lookahead nor the start of the grace window overflows. *)
Lemma get_tasks_available (db : Database) (now : datetime) (la : Z)
    (task : Task) :
  fault db = None ->
  representable (dt_sub now (td_minutes 5)) = true ->
  representable (dt_add now (td_minutes la)) = true ->
  In task (tasks db) -> completed task = false ->
  is_not_None (reminder_time task) = true ->
  TaskReader._should_process_now task now (dt_add now (td_minutes la))
  = Ok true ->
  In task (TaskReader.get_tasks_needing_reminders db now la).
Proof.
  intros F Rs Ra Hin C Q P.
  unfold TaskReader.get_tasks_needing_reminders, get_session.
  rewrite F. cbn [bind]. rewrite in_range_Ok by exact Ra. cbn [bind].
  set (q := fun t =>
              match TaskReader._should_process_now
                      t now (dt_add now (td_minutes la)) with
              | Ok keep => keep
              | Raise _ => false
              end).
  rewrite (comprehension_Ok _ q).
  - cbn [bind try_except]. apply filter_In. split.
    + apply filter_In. split; [exact Hin | now rewrite C, Q].
    + subst q. cbn beta. now rewrite P.
  - intros x _. subst q. cbn beta.
    destruct (should_process_total x now (dt_add now (td_minutes la)) Rs)
      as [keep ->].
    reflexivity.
Qed.

(** X5. The reader and the calculator use the same window for one-time
    reminders.  The reader answers with the empty list when the database
    is out of reach, and when the end of the lookahead is not
    representable.  Otherwise a task it returns is a row of the table
    that is not completed and has a reminder time; if its pattern is
    ["none"], the calculator returns that reminder time at the same [now]
    and the reminder time is before the end of the lookahead.  Conversely,
    when [now] minus five minutes and [now] plus the lookahead are
    representable, a one-time row that is not completed, for which the
    calculator returns its reminder time and whose reminder time is before
    the end of the lookahead, is returned by the reader. *)
Theorem reader_agrees_with_calculator (db : Database) (now : datetime)
    (la : Z) (task : Task) :
  datetime_ok now = true ->
  (forall rt, reminder_time task = Some rt -> datetime_ok rt = true) ->
  (forall e, fault db = Some e ->
     TaskReader.get_tasks_needing_reminders db now la = []) /\
  (representable (dt_add now (td_minutes la)) = false ->
   TaskReader.get_tasks_needing_reminders db now la = []) /\
  (In task (TaskReader.get_tasks_needing_reminders db now la) ->
   In task (tasks db) /\ completed task = false /\
   exists rt, reminder_time task = Some rt /\
     (recurrence_pattern task = "none"%string ->
      ReminderCalculator.calculate_reminder_datetime task now
      = Ok (Some rt) /\
      to_us rt < to_us now + td_minutes la)) /\
  (forall rt,
     fault db = None ->
     representable (dt_sub now (td_minutes 5)) = true ->
     representable (dt_add now (td_minutes la)) = true ->
     In task (tasks db) -> completed task = false ->
     recurrence_pattern task = "none"%string ->
     ReminderCalculator.calculate_reminder_datetime task now
     = Ok (Some rt) ->
     to_us rt < to_us now + td_minutes la ->
     In task (TaskReader.get_tasks_needing_reminders db now la)).
Proof.
  intros Hnow Hok. split; [| split; [| split]].
  - intros e F. unfold TaskReader.get_tasks_needing_reminders, get_session.
    rewrite F. reflexivity.
  - intros R. unfold TaskReader.get_tasks_needing_reminders, get_session,
      in_range.
    destruct (fault db); [reflexivity|]. cbn [bind]. rewrite R. reflexivity.
  - intros Hin.
    destruct (get_tasks_In db now la task Hin) as (F & Ra & Ht & C & Q & P).
    split; [exact Ht | split; [exact C|]].
    destruct (reminder_time task) as [rt|] eqn:Ert; [| discriminate].
    exists rt. split; [reflexivity|]. intros Ep.
    specialize (Hok rt eq_refl).
    rewrite (should_process_one_time task rt now la) in P by assumption.
    destruct (representable (dt_sub now (td_minutes 5))); [| discriminate].
    assert ((to_us now - td_minutes 5 <=? to_us rt)
            && (to_us rt <? to_us now + td_minutes la) = true) as P'
      by congruence.
    apply andb_true_iff in P'. destruct P' as [P1 P2].
    rewrite (calculate_reminder_datetime_set task now rt Ert), Ep.
    cbn [String.eqb Ascii.eqb Bool.eqb].
    rewrite one_time_spec, P1 by assumption.
    split; [reflexivity | now apply Z.ltb_lt].
  - intros rt F Rs Ra Hin C Ep E L.
    destruct (reminder_time task) as [rt'|] eqn:Ert.
    2:{ unfold ReminderCalculator.calculate_reminder_datetime in E.
        rewrite Ert in E. discriminate. }
    specialize (Hok rt' eq_refl).
    rewrite (calculate_reminder_datetime_set task now rt' Ert), Ep in E.
    cbn [String.eqb Ascii.eqb Bool.eqb] in E.
    rewrite one_time_spec in E by assumption.
    destruct (Z.leb_spec (to_us now - td_minutes 5) (to_us rt')) as [G | G];
      [| discriminate].
    injection E as <-.
    apply get_tasks_available; try assumption.
    + now rewrite Ert.
    + rewrite (should_process_one_time task rt' now la), Rs by assumption.
      f_equal.
      apply andb_true_iff. split; [now apply Z.leb_le | now apply Z.ltb_lt].
Qed.

Lemma reader_agrees_with_calculator_witness :
  In (sample_task "none" (at_ 2025 1 15 14 0))
     (TaskReader.get_tasks_needing_reminders sample_db_with_state
        (at_ 2025 1 15 14 3) 5).
Proof.
  assert (forall rt,
            reminder_time (sample_task "none" (at_ 2025 1 15 14 0)) = Some rt ->
            datetime_ok rt = true) as Hrt
    by (intros rt E; injection E as <-; reflexivity).
  refine (proj2 (proj2 (proj2 (reader_agrees_with_calculator
            sample_db_with_state (at_ 2025 1 15 14 3) 5
            (sample_task "none" (at_ 2025 1 15 14 0)) eq_refl Hrt)))
            (at_ 2025 1 15 14 0) eq_refl eq_refl eq_refl _ eq_refl eq_refl
            eq_refl _).
  - left. reflexivity.
  - vm_compute. reflexivity.
Defined.

(** At 23:58 on the last day of [datetime]'s range the end of a five-minute
    lookahead is not representable: the reader finds nothing. *)
Example reader_at_the_last_minutes :
  TaskReader.get_tasks_needing_reminders
    (mkDatabase None
       [sample_task "none" (combine (mkDate 9999 12 31) (mkTime 23 57 0 0))]
       [sample_user] [] [])
    (combine (mkDate 9999 12 31) (mkTime 23 58 0 0)) 5
  = [].
Proof. reflexivity. Qed.

(* ================================================================= *)
(** * The delivery log and the duplication guard *)

Lemma first_select_where_app {A : Type} (p : A -> bool) (l : list A)
    (x : A) :
  is_not_None (first (select_where p (l ++ [x])))
  = is_not_None (first (select_where p l)) || p x.
Proof.
  unfold select_where. rewrite filter_app. cbn [filter].
  destruct (filter p l); [| reflexivity].
  cbn [app]. destruct (p x); reflexivity.
Qed.

Lemma exists_add_log (db : Database) (row : ReminderLog) (task_id : Z)
    (q : datetime) :
  fault db = None ->
  DuplicateChecker.exists_ (DeliveryTracker.add_log db row) task_id q =
  DuplicateChecker.exists_ db task_id q
  || representable (dt_sub q (td_seconds DUPLICATE_CHECK_TOLERANCE_SECONDS))
     && representable
          (dt_add q (td_seconds DUPLICATE_CHECK_TOLERANCE_SECONDS))
     && DuplicateChecker.in_window task_id
          (dt_sub q (td_seconds DUPLICATE_CHECK_TOLERANCE_SECONDS))
          (dt_add q (td_seconds DUPLICATE_CHECK_TOLERANCE_SECONDS)) row.
Proof.
  intros F. rewrite !exists_spec.
  cbn [DeliveryTracker.add_log reminder_log fault]. rewrite F.
  rewrite first_select_where_app.
  destruct (representable (dt_sub q _)), (representable (dt_add q _));
    reflexivity.
Qed.

Lemma in_window_self (task_id : Z) (q : datetime) (row : ReminderLog) :
  datetime_ok q = true ->
  log_task_id row = task_id -> reminder_datetime row = q ->
  DuplicateChecker.in_window task_id
    (dt_sub q (td_seconds DUPLICATE_CHECK_TOLERANCE_SECONDS))
    (dt_add q (td_seconds DUPLICATE_CHECK_TOLERANCE_SECONDS)) row = true.
Proof.
  intros Hq Et Eq.
  rewrite in_window_to_us by (rewrite ?Eq; assumption).
  rewrite Et, Eq, Z.eqb_refl. cbn [andb].
  assert (0 <= td_seconds 60) by (vm_compute; discriminate).
  apply andb_true_iff. split; apply Z.leb_le; lia.
Qed.

Lemma log_success_available (db : Database) (t : datetime) (i : Z)
    (u : string) (r : datetime) (a b c : string) :
  fault db = None ->
  DeliveryTracker.log_success db t i u r a b c =
  DeliveryTracker.add_log db (mkReminderLog i u r a b c SENT None t).
Proof.
  intros F. unfold DeliveryTracker.log_success, get_session. now rewrite F.
Qed.

Lemma log_failure_available (db : Database) (t : datetime) (i : Z)
    (u : string) (r : datetime) (a b c d : string) :
  fault db = None ->
  DeliveryTracker.log_failure db t i u r a b c d =
  DeliveryTracker.add_log db (mkReminderLog i u r a b c FAILED (Some d) t).
Proof.
  intros F. unfold DeliveryTracker.log_failure, get_session. now rewrite F.
Qed.

(** X6. What the tracker logs, the guard finds: with the database within
    reach, after [log_success] or [log_failure] for a task and an
    occurrence time whose window (the time minus and plus the tolerance)
    is representable, [DuplicateChecker.exists] answers true for that task
    and time.  A failed delivery counts as handled just as a sent one. *)
Theorem logged_occurrence_is_found (db : Database) (pakistan_now : datetime)
    (task_id : Z) (user_id : string) (occurrence : datetime)
    (to subject body error : string) :
  fault db = None -> datetime_ok occurrence = true ->
  representable
    (dt_sub occurrence (td_seconds DUPLICATE_CHECK_TOLERANCE_SECONDS))
  = true ->
  representable
    (dt_add occurrence (td_seconds DUPLICATE_CHECK_TOLERANCE_SECONDS))
  = true ->
  DuplicateChecker.exists_
    (DeliveryTracker.log_success db pakistan_now task_id user_id occurrence
                                 to subject body)
    task_id occurrence = true /\
  DuplicateChecker.exists_
    (DeliveryTracker.log_failure db pakistan_now task_id user_id occurrence
                                 to subject body error)
    task_id occurrence = true.
Proof.
  intros F Hq Rs Ra.
  rewrite log_success_available, log_failure_available by exact F.
  rewrite !exists_add_log by exact F.
  rewrite !in_window_self by (assumption || reflexivity).
  rewrite Rs, Ra. split; apply orb_true_r.
Qed.

Lemma logged_occurrence_is_found_witness :
  DuplicateChecker.exists_
    (DeliveryTracker.log_failure sample_db_with_state (at_ 2025 1 15 14 3)
       1 "user_abc123" (at_ 2025 1 15 14 0) "user@example.com"
       "Reminder: Pay rent" "Pay rent is due."
       "Email send failed after retries")
    1 (at_ 2025 1 15 14 0) = true.
Proof.
  exact (proj2 (logged_occurrence_is_found sample_db_with_state
                  (at_ 2025 1 15 14 3) 1 "user_abc123" (at_ 2025 1 15 14 0)
                  "user@example.com" "Reminder: Pay rent" "Pay rent is due."
                  "Email send failed after retries" eq_refl eq_refl
                  eq_refl eq_refl)).
Defined.

Lemma exists_after_log (db db' : Database) (row : ReminderLog) :
  db' = db \/ (fault db = None /\ db' = DeliveryTracker.add_log db row) ->
  (forall other q, other <> log_task_id row ->
     DuplicateChecker.exists_ db' other q
     = DuplicateChecker.exists_ db other q) /\
  (forall i q, DuplicateChecker.exists_ db i q = true ->
               DuplicateChecker.exists_ db' i q = true).
Proof.
  intros [-> | [F ->]]; [split; auto|].
  split.
  - intros other q N. rewrite exists_add_log by exact F.
    unfold DuplicateChecker.in_window.
    replace (log_task_id row =? other) with false
      by (symmetry; apply Z.eqb_neq; congruence).
    cbn [andb]. rewrite andb_false_r. apply orb_false_r.
  - intros i q E. rewrite exists_add_log, E by exact F. reflexivity.
Qed.

(** X7. Logging a delivery, sent or failed, for one task leaves the
    guard's answer for every other task as it was, and never turns an
    answer true into false for the task itself. *)
Theorem logging_is_local_and_monotone (db : Database)
    (pakistan_now : datetime) (task_id : Z) (user_id : string)
    (occurrence : datetime) (to subject body error : string)
    (other : Z) (q : datetime) :
  other <> task_id ->
  DuplicateChecker.exists_
    (DeliveryTracker.log_success db pakistan_now task_id user_id occurrence
                                 to subject body) other q
  = DuplicateChecker.exists_ db other q /\
  DuplicateChecker.exists_
    (DeliveryTracker.log_failure db pakistan_now task_id user_id occurrence
                                 to subject body error) other q
  = DuplicateChecker.exists_ db other q /\
  (DuplicateChecker.exists_ db task_id q = true ->
   DuplicateChecker.exists_
     (DeliveryTracker.log_success db pakistan_now task_id user_id occurrence
                                  to subject body) task_id q = true /\
   DuplicateChecker.exists_
     (DeliveryTracker.log_failure db pakistan_now task_id user_id occurrence
                                  to subject body error) task_id q = true).
Proof.
  intros N.
  destruct (exists_after_log db
              (DeliveryTracker.log_success db pakistan_now task_id user_id
                 occurrence to subject body)
              (mkReminderLog task_id user_id occurrence to subject body
                 SENT None pakistan_now)) as [Ls Ms].
  { destruct (fault db) as [e|] eqn:F.
    - left. unfold DeliveryTracker.log_success, get_session. now rewrite F.
    - right. split; [reflexivity | now apply log_success_available]. }
  destruct (exists_after_log db
              (DeliveryTracker.log_failure db pakistan_now task_id user_id
                 occurrence to subject body error)
              (mkReminderLog task_id user_id occurrence to subject body
                 FAILED (Some error) pakistan_now)) as [Lf Mf].
  { destruct (fault db) as [e|] eqn:F.
    - left. unfold DeliveryTracker.log_failure, get_session. now rewrite F.
    - right. split; [reflexivity | now apply log_failure_available]. }
  cbn [log_task_id] in Ls, Lf.
  split; [now apply Ls | split; [now apply Lf | auto]].
Qed.

Lemma logging_is_local_and_monotone_witness :
  DuplicateChecker.exists_
    (DeliveryTracker.log_success (sample_db None) (at_ 2025 1 15 14 3) 1
       "user_abc123" (at_ 2025 1 15 14 5) "user@example.com"
       "Reminder: Pay rent" "Pay rent is due.") 2 (at_ 2025 1 15 14 5)
  = DuplicateChecker.exists_ (sample_db None) 2 (at_ 2025 1 15 14 5).
Proof.
  refine (proj1 (logging_is_local_and_monotone (sample_db None) (at_ 2025 1 15 14 3)
                   1 "user_abc123" (at_ 2025 1 15 14 5) "user@example.com"
                   "Reminder: Pay rent" "Pay rent is due." "timeout"
                   2 (at_ 2025 1 15 14 5) _)).
  lia.
Defined.

(* ================================================================= *)
(** * Further properties of the scheduling loop *)

Section Processing.

Import ReminderProcessor.

Variable env : Env.

(** The ways [process_task] ends without an exception: nothing done, or
    one delivery attempted and logged. *)
Lemma process_task_inv (db db' : Database) (task : Task) (n e : Z) :
  process_task env db task = Ok (db', n, e) ->
  (db' = db /\ n = 0 /\ e = 0) \/
  (exists r m c,
     ReminderCalculator.should_skip_reminder task (clock env) = false /\
     ReminderCalculator.calculate_reminder_datetime task (clock env)
     = Ok (Some r) /\
     DuplicateChecker.exists_ db (id task) r = false /\
     TaskReader.get_user_email db (user_id task) = Some m /\
     generate env task = Ok c /\
     ((send env m c task = Ok true /\ n = 1 /\ e = 0 /\
       db' = DeliveryTracker.log_success db (clock env) (id task)
               (user_id task) r m (subject c) (body c)) \/
      (send env m c task = Ok false /\ n = 0 /\ e = 1 /\
       db' = DeliveryTracker.log_failure db (clock env) (id task)
               (user_id task) r m (subject c) (body c)
               "Email send failed after retries"))).
Proof.
  unfold process_task.
  destruct (ReminderCalculator.should_skip_reminder task (clock env)) eqn:S;
    [intros H; injection H as <- <- <-; auto|].
  destruct (ReminderCalculator.calculate_reminder_datetime task (clock env))
    as [[r|]|] eqn:C; cbn [bind];
    [| intros H; injection H as <- <- <-; auto | discriminate].
  destruct (DuplicateChecker.exists_ db (id task) r) eqn:D;
    [intros H; injection H as <- <- <-; auto|].
  destruct (TaskReader.get_user_email db (user_id task)) as [m|] eqn:M;
    [| intros H; injection H as <- <- <-; auto].
  destruct (generate env task) as [c|] eqn:G; cbn [bind]; [| discriminate].
  destruct (send env m c task) as [[|]|] eqn:Snd; cbn [bind];
    [| | discriminate]; intros H; injection H as <- <- <-;
    right; exists r, m, c; repeat (split; [reflexivity || assumption|]).
  - left. auto.
  - right. auto.
Qed.

Lemma user_email_needs_database (db : Database) (u m : string) :
  TaskReader.get_user_email db u = Some m -> fault db = None.
Proof.
  unfold TaskReader.get_user_email, get_session.
  destruct (fault db); [discriminate | reflexivity].
Qed.

End Processing.

(** The query window of an occurrence that the calculator returns is
    representable, for clock readings and reminder times away from the
    ends of Python's range. *)
Lemma result_window_representable (task : Task) (rt now r : datetime) :
  datetime_ok rt = true -> datetime_ok now = true ->
  reminder_time task = Some rt ->
  MINYEAR < year (dt_date now) -> year (dt_date now) + 1 < MAXYEAR ->
  MINYEAR < year (dt_date rt) < MAXYEAR ->
  ReminderCalculator.calculate_reminder_datetime task now = Ok (Some r) ->
  representable (dt_sub r (td_seconds DUPLICATE_CHECK_TOLERANCE_SECONDS))
  = true /\
  representable (dt_add r (td_seconds DUPLICATE_CHECK_TOLERANCE_SECONDS))
  = true.
Proof.
  intros Hrt Hnow Ert Ylo Yhi Yrt C.
  pose proof (calculate_result_ok task rt now r Hrt Hnow Ert C) as Hr.
  assert (MINYEAR + 1 <= year (dt_date r) <= MAXYEAR - 1) as Yr.
  { destruct (String.eqb_spec (recurrence_pattern task) "none") as [En | Nn].
    - rewrite (calculate_reminder_datetime_set task now rt Ert), En in C.
      cbn [String.eqb Ascii.eqb Bool.eqb] in C.
      unfold ReminderCalculator._calculate_one_time in C.
      destruct (dt_geb rt _); [| discriminate].
      assert (r = rt) as -> by congruence. lia.
    - assert (recurring (recurrence_pattern task)) as Rec.
      { rewrite (calculate_reminder_datetime_set task now rt Ert) in C.
        unfold recurring.
        destruct (String.eqb_spec (recurrence_pattern task) "none");
          [contradiction|].
        destruct (String.eqb_spec (recurrence_pattern task) "daily");
          [tauto|].
        destruct (String.eqb_spec (recurrence_pattern task) "weekly");
          [tauto|].
        destruct (String.eqb_spec (recurrence_pattern task) "monthly");
          [tauto | discriminate]. }
      pose proof (recurring_result_year task rt now r Hrt Hnow Ert Rec C).
      lia. }
  assert (- td_days (365 * 1) <= td_seconds 60 <= td_days (365 * 1))
    by (vm_compute; split; discriminate).
  unfold dt_sub, DUPLICATE_CHECK_TOLERANCE_SECONDS.
  split; apply (representable_near r _ 1); (assumption || lia).
Qed.

(** X8. An attempted occurrence is not attempted again.  If processing a
    task attempts a delivery (it counts one reminder sent, or one error
    for a send that returned false) and the attempt has been written to
    the log, then, with the database within reach, processing the same
    task again at the same clock reading, on the database as the first
    call left it, does nothing: the guard finds the attempt, whether the
    send had succeeded or failed.  A failed send is not retried.  The
    clock reading and the reminder time lie in the years 2 to 9997, where
    the guard's window is representable.  (In the code each step opens a
    session of its own: when the log write fails after the look-ups went
    through, nothing is recorded and the next cycle sends again; hence the
    two hypotheses on the log and the database.) *)
Theorem attempted_occurrence_is_not_retried (env : ReminderProcessor.Env)
    (db db' : Database) (task : Task) (sent errors : Z) :
  datetime_ok (ReminderProcessor.clock env) = true ->
  (forall rt, reminder_time task = Some rt ->
     datetime_ok rt = true /\
     MINYEAR < year (dt_date rt) /\ year (dt_date rt) + 1 < MAXYEAR) ->
  MINYEAR < year (dt_date (ReminderProcessor.clock env)) ->
  year (dt_date (ReminderProcessor.clock env)) + 1 < MAXYEAR ->
  ReminderProcessor.process_task env db task = Ok (db', sent, errors) ->
  sent + errors <> 0 ->
  List.length (reminder_log db') = S (List.length (reminder_log db)) ->
  fault db' = None ->
  ReminderProcessor.process_task env db' task = Ok (db', 0, 0).
Proof.
  intros Hnow Hrt Ylo Yhi P N Logged F'.
  destruct (process_task_inv env db db' task sent errors P)
    as [(_ & -> & ->) | (r & m & c & Sk & C & D & M & G & Out)];
    [lia|].
  destruct (reminder_time task) as [rt|] eqn:Ert.
  2:{ unfold ReminderCalculator.calculate_reminder_datetime in C.
      rewrite Ert in C. discriminate. }
  destruct (Hrt rt eq_refl) as (Hrt' & Yrt1 & Yrt2).
  pose proof (calculate_result_ok task rt _ r Hrt' Hnow Ert C) as Hr.
  destruct (result_window_representable task rt _ r Hrt' Hnow Ert Ylo Yhi
              ltac:(lia) C) as [Rs Ra].
  assert (exists row, log_task_id row = id task /\ reminder_datetime row = r
                      /\ (db' = db \/ db' = DeliveryTracker.add_log db row))
    as (row & Et & Er & Hdb).
  { destruct Out as [(_ & _ & _ & ->) | (_ & _ & _ & ->)];
      eexists; (split; [| split; [|
        unfold DeliveryTracker.log_success, DeliveryTracker.log_failure,
          get_session;
        destruct (fault db); cbn [bind try_except];
        [left; reflexivity | right; reflexivity]]]); reflexivity. }
  destruct Hdb as [-> | ->]; [lia|].
  cbn [DeliveryTracker.add_log fault] in F'.
  assert (DuplicateChecker.exists_ (DeliveryTracker.add_log db row)
            (id task) r = true) as D'.
  { rewrite exists_add_log, in_window_self, Rs, Ra by assumption.
    apply orb_true_r. }
  unfold ReminderProcessor.process_task. rewrite Sk, C. cbn [bind].
  rewrite D'. reflexivity.
Qed.

Lemma attempted_occurrence_is_not_retried_witness :
  ReminderProcessor.process_task (sample_env None)
    (DeliveryTracker.log_success sample_db_with_state (at_ 2025 1 15 14 3)
       1 "user_abc123" (at_ 2025 1 15 14 0) "user@example.com"
       "Reminder: Pay rent" "Pay rent is due.")
    (sample_task "none" (at_ 2025 1 15 14 0))
  = Ok (DeliveryTracker.log_success sample_db_with_state
          (at_ 2025 1 15 14 3) 1 "user_abc123" (at_ 2025 1 15 14 0)
          "user@example.com" "Reminder: Pay rent" "Pay rent is due.",
        0, 0).
Proof.
  assert (forall rt,
            reminder_time (sample_task "none" (at_ 2025 1 15 14 0)) = Some rt ->
            datetime_ok rt = true /\
            MINYEAR < year (dt_date rt) /\ year (dt_date rt) + 1 < MAXYEAR)
    as Hrt
    by (intros rt E; injection E as <-; vm_compute; repeat split).
  refine (attempted_occurrence_is_not_retried (sample_env None)
            sample_db_with_state _
            (sample_task "none" (at_ 2025 1 15 14 0)) 1 0
            eq_refl Hrt _ _ eq_refl _ eq_refl eq_refl).
  - vm_compute. reflexivity.
  - vm_compute. reflexivity.
  - discriminate.
Defined.

Section Accounting.

Import ReminderProcessor.

Variable env : Env.

Lemma process_task_log (db db' : Database) (task : Task) (n e : Z) :
  process_task env db task = Ok (db', n, e) ->
  tasks db' = tasks db /\ users db' = users db /\
  0 <= n /\ 0 <= e /\ n + e <= 1 /\
  exists new, reminder_log db' = reminder_log db ++ new /\
              Z.of_nat (List.length new) = n + e.
Proof.
  intros P.
  destruct (process_task_inv env db db' task n e P)
    as [(-> & -> & ->) | (r & m & c & _ & _ & _ & M & _ & Out)].
  - repeat (split; [reflexivity || lia|]).
    exists []. rewrite app_nil_r. split; reflexivity.
  - pose proof (user_email_needs_database db _ _ M) as F.
    destruct Out as [(_ & -> & -> & ->) | (_ & -> & -> & ->)];
      rewrite ?log_success_available, ?log_failure_available by exact F;
      cbn [DeliveryTracker.add_log tasks users reminder_log];
      repeat (split; [reflexivity || lia|]);
      eexists; split; reflexivity.
Qed.

Lemma loop_accounting (ts : list Task) (db : Database) (c : Counters) :
  let st := fold_left (loop_step env) ts (db, c) in
  tasks (fst st) = tasks db /\ users (fst st) = users db /\
  n_sent c <= n_sent (snd st) /\ n_errors c <= n_errors (snd st) /\
  (n_sent (snd st) - n_sent c) + (n_errors (snd st) - n_errors c)
  <= Z.of_nat (List.length ts) /\
  exists new, reminder_log (fst st) = reminder_log db ++ new /\
              Z.of_nat (List.length new)
              <= (n_sent (snd st) - n_sent c)
                 + (n_errors (snd st) - n_errors c).
Proof.
  revert db c. induction ts as [| t ts IH]; intros db c; cbn zeta.
  - cbn [fold_left fst snd List.length].
    repeat (split; [reflexivity || lia|]).
    exists []. rewrite app_nil_r. split; [reflexivity | cbn; lia].
  - cbn [fold_left List.length].
    assert (exists db1 c1,
              loop_step env (db, c) t = (db1, c1) /\
              tasks db1 = tasks db /\ users db1 = users db /\
              n_sent c <= n_sent c1 /\ n_errors c <= n_errors c1 /\
              (n_sent c1 - n_sent c) + (n_errors c1 - n_errors c) <= 1 /\
              exists new, reminder_log db1 = reminder_log db ++ new /\
                          Z.of_nat (List.length new)
                          <= (n_sent c1 - n_sent c)
                             + (n_errors c1 - n_errors c))
      as (db1 & c1 & -> & T1 & U1 & S1 & E1 & B1 & new1 & L1 & N1).
    { unfold loop_step.
      destruct (process_task env db t) as [[[db1 n] e]|] eqn:P.
      - destruct (process_task_log _ _ _ _ _ P)
          as (T & U & Hn & He & B & new & L & N).
        eexists. eexists. split; [reflexivity|].
        cbn [n_sent n_errors].
        repeat (split; [assumption || lia|]).
        exists new. split; [exact L | lia].
      - eexists. eexists. split; [reflexivity|].
        cbn [n_sent n_errors].
        repeat (split; [reflexivity || lia|]).
        exists []. rewrite app_nil_r. split; [reflexivity | cbn; lia]. }
    specialize (IH db1 c1). cbn zeta in IH.
    destruct IH as (T & U & S2 & E2 & B2 & new2 & L2 & N2).
    rewrite T, U, T1, U1.
    repeat (split; [reflexivity || lia|]).
    exists (new1 ++ new2). rewrite L2, L1, <- app_assoc.
    split; [reflexivity|]. rewrite length_app. lia.
Qed.

Lemma update_agent_state_tables (db : Database) (s : AgentStatus)
    (p n e : Z) :
  fault (_update_agent_state env db s p n e) = fault db /\
  tasks (_update_agent_state env db s p n e) = tasks db /\
  users (_update_agent_state env db s p n e) = users db /\
  reminder_log (_update_agent_state env db s p n e) = reminder_log db /\
  List.length (agent_state (_update_agent_state env db s p n e))
  = List.length (agent_state db).
Proof.
  unfold _update_agent_state, get_session.
  destruct (fault db) as [x|] eqn:F; cbn [bind try_except].
  - rewrite F. repeat split.
  - destruct (agent_state db) as [| st rest] eqn:A;
      cbn [first hd_error bind try_except tl set_agent_state fault tasks
           users reminder_log agent_state List.length];
      rewrite ?F, ?A; cbn [List.length]; repeat split; try assumption.
Qed.

Lemma comprehension_length {A : Type} (p : A -> res bool)
    (xs kept : list A) :
  TaskReader.comprehension p xs = Ok kept ->
  (List.length kept <= List.length xs)%nat.
Proof.
  revert kept. induction xs as [| x xs IH]; intros kept.
  - intros H. injection H as <-. reflexivity.
  - cbn [TaskReader.comprehension].
    destruct (p x) as [keep|]; [| discriminate]. cbn [bind].
    destruct (TaskReader.comprehension p xs) as [kept'|]; [| discriminate].
    cbn [bind]. intros H. injection H as <-.
    specialize (IH kept' eq_refl). destruct keep; cbn [List.length]; lia.
Qed.

Lemma get_tasks_length (db : Database) (now : datetime) (la : Z) :
  (List.length (TaskReader.get_tasks_needing_reminders db now la)
   <= List.length (tasks db))%nat.
Proof.
  unfold TaskReader.get_tasks_needing_reminders, get_session.
  destruct (fault db); cbn [bind try_except List.length]; [lia|].
  destruct (in_range _ _); cbn [bind try_except List.length]; [| lia].
  destruct (TaskReader.comprehension _ _) as [kept|] eqn:C;
    cbn [bind try_except List.length]; [| lia].
  apply comprehension_length in C. unfold select_where in C.
  etransitivity; [exact C | apply filter_length_le].
Qed.

End Accounting.

(** X9. A cycle writes to the reminder log and to the heartbeat row only:
    the tasks and users tables are as before, the log keeps its entries
    and gains at most one per task in the table, and the heartbeat table
    keeps its number of rows.  A cycle never creates the heartbeat row: on
    an empty heartbeat table the insert is refused (the new row has no
    primary key) and the table stays empty. *)
Theorem cycle_writes_log_and_heartbeat_only (env : ReminderProcessor.Env)
    (db : Database) :
  tasks (ReminderProcessor.run env db) = tasks db /\
  users (ReminderProcessor.run env db) = users db /\
  fault (ReminderProcessor.run env db) = fault db /\
  (exists new,
     reminder_log (ReminderProcessor.run env db) = reminder_log db ++ new /\
     (List.length new <= List.length (tasks db))%nat) /\
  List.length (agent_state (ReminderProcessor.run env db))
  = List.length (agent_state db) /\
  (agent_state db = [] -> agent_state (ReminderProcessor.run env db) = []).
Proof.
  assert (tasks (ReminderProcessor.run env db) = tasks db /\
          users (ReminderProcessor.run env db) = users db /\
          fault (ReminderProcessor.run env db) = fault db /\
          (exists new,
             reminder_log (ReminderProcessor.run env db)
             = reminder_log db ++ new /\
             (List.length new <= List.length (tasks db))%nat) /\
          List.length (agent_state (ReminderProcessor.run env db))
          = List.length (agent_state db)) as (T & U & F & L & A).
  { unfold ReminderProcessor.run.
    set (db1 := ReminderProcessor._update_agent_state env db RUNNING 0 0 0).
    destruct (update_agent_state_tables env db RUNNING 0 0 0)
      as (F1 & T1 & U1 & L1 & A1). fold db1 in F1, T1, U1, L1, A1.
    set (ts := TaskReader.get_tasks_needing_reminders db1 _ _).
    assert (List.length ts <= List.length (tasks db))%nat as Hts
      by (subst ts; rewrite <- T1; apply get_tasks_length).
    destruct (ReminderProcessor.body_fault env).
    - destruct (update_agent_state_tables env db1 ERROR 0 0 1)
        as (F2 & T2 & U2 & L2 & A2).
      rewrite F2, T2, U2, L2, A2, F1, T1, U1, L1, A1.
      repeat (split; [reflexivity|]). split; [| reflexivity].
      exists []. rewrite app_nil_r. split; [reflexivity | cbn; lia].
    - pose proof (loop_accounting env ts db1
                    (ReminderProcessor.mkCounters 0 0 0)) as Acc.
      pose proof (loop_tables env ts db1
                    (ReminderProcessor.mkCounters 0 0 0)) as Tab.
      cbn zeta in Acc.
      destruct (fold_left (ReminderProcessor.loop_step env) ts
                  (db1, ReminderProcessor.mkCounters 0 0 0)) as [db2 c].
      cbn [fst snd ReminderProcessor.n_sent ReminderProcessor.n_errors] in *.
      destruct Acc as (T & U & _ & _ & B & new & L & N).
      destruct Tab as (F & A & _).
      destruct (update_agent_state_tables env db2 RUNNING
                  (ReminderProcessor.n_processed c)
                  (ReminderProcessor.n_sent c)
                  (ReminderProcessor.n_errors c))
        as (F2 & T2 & U2 & L2 & A2).
      rewrite F2, T2, U2, L2, A2, F, T, U, L, A, F1, T1, U1, L1, A1.
      repeat (split; [reflexivity|]). split; [| reflexivity].
      exists new. split; [reflexivity | lia]. }
  repeat (split; [assumption|]).
  intros E. rewrite E in A.
  destruct (agent_state (ReminderProcessor.run env db));
    [reflexivity | discriminate].
Qed.

Lemma cycle_writes_log_and_heartbeat_only_witness :
  agent_state (ReminderProcessor.run (sample_env None) (sample_db None))
  = [].
Proof.
  exact (proj2 (proj2 (proj2 (proj2 (proj2
           (cycle_writes_log_and_heartbeat_only
              (sample_env None) (sample_db None)))))) eq_refl).
Defined.

(** X10. With the database out of reach during a cycle, the cycle changes
    nothing: no task is fetched, nothing is logged and the heartbeat is
    not written, whether or not the cycle meets a critical failure. *)
Theorem cycle_without_database_changes_nothing
    (env : ReminderProcessor.Env) (db : Database) (e : exn) :
  fault db = Some e -> ReminderProcessor.run env db = db.
Proof.
  intros F.
  assert (forall s p n k,
            ReminderProcessor._update_agent_state env db s p n k = db) as U
    by (intros; unfold ReminderProcessor._update_agent_state, get_session;
        now rewrite F).
  unfold ReminderProcessor.run. rewrite !U.
  unfold TaskReader.get_tasks_needing_reminders, get_session.
  rewrite F. cbn [bind try_except fold_left].
  destruct (ReminderProcessor.body_fault env); rewrite ?U; reflexivity.
Qed.

Lemma cycle_without_database_changes_nothing_witness :
  ReminderProcessor.run (sample_env None) (sample_db (Some OperationalError))
  = sample_db (Some OperationalError).
Proof.
  exact (cycle_without_database_changes_nothing (sample_env None)
           (sample_db (Some OperationalError)) OperationalError eq_refl).
Defined.

(** X11. The heartbeat counters of a completed cycle: no counter goes
    down, the creation time of the row stays, every task counted as
    processed accounts for at most one reminder sent or one error, and
    every entry added to the reminder log is counted as sent or as an
    error. *)
Theorem heartbeat_counters_account_for_tasks (env : ReminderProcessor.Env)
    (db : Database) (st : AgentState) (rest : list AgentState) :
  fault db = None -> agent_state db = st :: rest ->
  ReminderProcessor.body_fault env = None ->
  exists st',
    agent_state (ReminderProcessor.run env db) = st' :: rest /\
    created_at st' = created_at st /\
    reminders_sent st <= reminders_sent st' /\
    errors_count st <= errors_count st' /\
    (reminders_sent st' - reminders_sent st)
    + (errors_count st' - errors_count st)
    <= tasks_processed st' - tasks_processed st /\
    Z.of_nat (List.length (reminder_log (ReminderProcessor.run env db)))
    - Z.of_nat (List.length (reminder_log db))
    <= (reminders_sent st' - reminders_sent st)
       + (errors_count st' - errors_count st).
Proof.
  intros F A B. unfold ReminderProcessor.run. rewrite B.
  rewrite (update_agent_state_row env db st rest RUNNING 0 0 0 F A).
  set (db1 := ReminderProcessor.set_agent_state db _).
  set (ts := TaskReader.get_tasks_needing_reminders db1 _ _).
  pose proof (loop_accounting env ts db1
                (ReminderProcessor.mkCounters 0 0 0)) as Acc.
  pose proof (loop_tables env ts db1
                (ReminderProcessor.mkCounters 0 0 0)) as Tab.
  cbn zeta in Acc.
  destruct (fold_left (ReminderProcessor.loop_step env) ts
              (db1, ReminderProcessor.mkCounters 0 0 0)) as [db2 c].
  cbn [fst snd ReminderProcessor.n_sent ReminderProcessor.n_errors
       ReminderProcessor.n_processed] in *.
  destruct Acc as (_ & _ & S & E & Bd & new & L & N).
  destruct Tab as (F' & A' & P).
  rewrite (update_agent_state_row env db2 _ rest RUNNING _ _ _
             (eq_trans F' F) A').
  eexists. split; [reflexivity|].
  cbn [ReminderProcessor.set_agent_state reminder_log
       ReminderProcessor.touch created_at tasks_processed reminders_sent
       errors_count].
  rewrite L. subst db1. cbn [ReminderProcessor.set_agent_state reminder_log].
  rewrite length_app.
  repeat split; lia.
Qed.

Lemma heartbeat_counters_account_for_tasks_witness :
  exists st',
    agent_state (ReminderProcessor.run (sample_env None)
                                       sample_db_with_state) = [st'] /\
    created_at st' = created_at sample_state.
Proof.
  destruct (heartbeat_counters_account_for_tasks (sample_env None)
              sample_db_with_state sample_state [] eq_refl eq_refl eq_refl)
    as (st' & A & C & _).
  exists st'. split; assumption.
Defined.

(** X12. Recurring reminders go out ahead of their time.  For a task with
    a daily, weekly or monthly pattern that passes the grace gate, whose
    user has an e-mail address and whose mail is generated and sent, with
    the database within reach throughout and a clock reading before the
    last year of Python's range: the calculator returns an occurrence
    strictly after the clock reading, and in any cycle in which the guard
    finds no record of that occurrence the processor sends at once and
    the log gains one row, for this task and that future occurrence, with
    status sent; the other tables stay as they are. *)
Theorem recurring_reminder_is_sent_ahead (env : ReminderProcessor.Env)
    (db : Database) (task : Task) (rt : datetime) (m : string)
    (c : ReminderProcessor.EmailContent) :
  datetime_ok (ReminderProcessor.clock env) = true ->
  MINYEAR <= year (dt_date (ReminderProcessor.clock env)) < MAXYEAR ->
  datetime_ok rt = true -> reminder_time task = Some rt ->
  recurring (recurrence_pattern task) ->
  fault db = None ->
  ReminderCalculator.should_skip_reminder task (ReminderProcessor.clock env)
  = false ->
  TaskReader.get_user_email db (user_id task) = Some m ->
  ReminderProcessor.generate env task = Ok c ->
  ReminderProcessor.send env m c task = Ok true ->
  exists r,
    ReminderCalculator.calculate_reminder_datetime
      task (ReminderProcessor.clock env) = Ok (Some r) /\
    representable r = true /\
    to_us (ReminderProcessor.clock env) < to_us r /\
    (DuplicateChecker.exists_ db (id task) r = false ->
     exists db',
       ReminderProcessor.process_task env db task = Ok (db', 1, 0) /\
       reminder_log db'
       = reminder_log db
         ++ [mkReminderLog (id task) (user_id task) r m
               (ReminderProcessor.subject c) (ReminderProcessor.body c)
               SENT None (ReminderProcessor.clock env)] /\
       tasks db' = tasks db /\ users db' = users db /\
       agent_state db' = agent_state db).
Proof.
  intros Hnow Hy Hrt Ert Rec F Sk M G Snd.
  set (now := ReminderProcessor.clock env) in *.
  assert (exists r,
            ReminderCalculator.calculate_reminder_datetime task now
            = Ok (Some r)) as (r & C).
  { rewrite (calculate_reminder_datetime_set task now rt Ert).
    destruct Rec as [-> | [-> | ->]]; cbn [String.eqb Ascii.eqb Bool.eqb].
    - rewrite daily_spec by assumption. eauto.
    - rewrite weekly_spec by assumption. eauto.
    - rewrite monthly_spec by assumption. eauto. }
  pose proof (recurring_result_year task rt now r Hrt Hnow Ert Rec C) as Yr.
  destruct (recurring_result_bounds task rt now r Hrt Hnow Ert Rec C)
    as (L & _).
  exists r. split; [exact C|].
  split; [apply representable_iff; lia | split; [exact L|]].
  intros D. eexists. split.
  { unfold ReminderProcessor.process_task. fold now.
    rewrite Sk, C. cbn [bind]. rewrite D, M, G. cbn [bind].
    rewrite Snd. reflexivity. }
  rewrite log_success_available by exact F.
  cbn [DeliveryTracker.add_log reminder_log tasks users agent_state].
  repeat split.
Qed.

Lemma recurring_reminder_is_sent_ahead_witness :
  exists r,
    ReminderCalculator.calculate_reminder_datetime
      (sample_task "daily" (at_ 2025 1 10 9 0)) (at_ 2025 1 15 14 3)
    = Ok (Some r) /\
    to_us (at_ 2025 1 15 14 3) < to_us r.
Proof.
  assert (MINYEAR <= year (dt_date (ReminderProcessor.clock (sample_env None)))
          < MAXYEAR) as Y by (vm_compute; split; [discriminate | reflexivity]).
  destruct (recurring_reminder_is_sent_ahead (sample_env None)
              sample_db_with_state (sample_task "daily" (at_ 2025 1 10 9 0))
              (at_ 2025 1 10 9 0) "user@example.com"
              (ReminderProcessor.mkEmailContent
                 "Reminder: Pay rent" "Pay rent is due.")
              eq_refl Y eq_refl eq_refl (or_introl eq_refl) eq_refl eq_refl
              eq_refl eq_refl eq_refl)
    as (r & C & _ & L & _).
  exists r. split; assumption.
Defined.

(* ================================================================= *)
(** * Further properties of the generator *)

Lemma lower_ascii_idempotent (c : ascii) :
  Generator.lower_ascii (Generator.lower_ascii c) = Generator.lower_ascii c.
Proof.
  destruct c as [[] [] [] [] [] [] [] []]; reflexivity.
Qed.

Lemma lower_idempotent (s : string) :
  Generator.lower (Generator.lower s) = Generator.lower s.
Proof.
  induction s as [| c s IH]; cbn [Generator.lower]; [reflexivity|].
  now rewrite lower_ascii_idempotent, IH.
Qed.

(** The generator's weekly rule for any non-empty list of day numbers:
    it moves [k] whole days ahead, to a listed day [d], and raises when
    that day is outside Python's range. *)
Lemma generator_weekly_general (completed_at : datetime) (interval : Z)
    (days_of_week : list Z) (odd : option datetime) :
  datetime_ok completed_at = true -> days_of_week <> [] ->
  exists k d,
    Generator._calculate_weekly completed_at interval days_of_week odd
    = (if representable
            (combine (date_add_days (dt_date completed_at) k)
                     (dt_time completed_at))
       then Ok (Some (combine (date_add_days (dt_date completed_at) k)
                              (due_time completed_at odd)))
       else Raise OverflowError) /\
    In d days_of_week /\
    (k - d + weekday (dt_date completed_at)) mod 7 = 0 /\
    (weekday (dt_date completed_at) < d ->
     k = d - weekday (dt_date completed_at)) /\
    (d <= weekday (dt_date completed_at) ->
     7 - weekday (dt_date completed_at) + d <= k) /\
    (k = d - weekday (dt_date completed_at) \/
     k = 7 - weekday (dt_date completed_at) + d
         + (if interval >? 1 then (interval - 1) * 7 else 0)).
Proof.
  intros Hc Hne.
  unfold Generator._calculate_weekly.
  destruct days_of_week as [| d0 ds] eqn:El; [congruence|].
  rewrite <- El in *. clear El d0 ds.
  pose proof (first_day_after_spec (weekday (dt_date completed_at))
                (Generator.sorted days_of_week)
                (sorted_sorted days_of_week)) as S.
  destruct (Generator.first_day_after (weekday (dt_date completed_at))
              (Generator.sorted days_of_week)) as [d|].
  - destruct S as (Hin & Hlt & _).
    apply (proj1 (sorted_In _ _)) in Hin.
    exists (d - weekday (dt_date completed_at)), d.
    rewrite weekly_step by exact Hc.
    split; [reflexivity | split; [exact Hin | split; [| repeat split; lia]]].
    replace (d - weekday (dt_date completed_at) - d
             + weekday (dt_date completed_at)) with 0 by lia.
    reflexivity.
  - destruct (hd_sorted_least days_of_week Hne) as [Hin _].
    set (d := hd 0 (Generator.sorted days_of_week)) in *.
    set (extra := if interval >? 1 then (interval - 1) * 7 else 0).
    assert (0 <= extra /\ extra mod 7 = 0) as [Hex Hmod].
    { subst extra. rewrite Z.gtb_ltb. destruct (Z.ltb_spec 1 interval).
      - split; [lia | apply Z.mod_mul; lia].
      - split; [lia | reflexivity]. }
    exists (7 - weekday (dt_date completed_at) + d + extra), d.
    assert ((if interval >? 1
             then 7 - weekday (dt_date completed_at) + d
                  + (interval - 1) * 7
             else 7 - weekday (dt_date completed_at) + d)
            = 7 - weekday (dt_date completed_at) + d + extra) as ->.
    { subst extra. destruct (interval >? 1); lia. }
    rewrite weekly_step by exact Hc.
    split; [reflexivity | split; [exact Hin | split; [| split; [| split]]]].
    + replace (7 - weekday (dt_date completed_at) + d + extra - d
               + weekday (dt_date completed_at)) with (extra + 1 * 7) by lia.
      rewrite Z.mod_add by lia. exact Hmod.
    + intros L. exfalso.
      specialize (S d (proj2 (sorted_In _ _) Hin)). lia.
    + lia.
    + right. reflexivity.
Qed.

Lemma preserve_time_of_day_combine (d : date) (completed_at : datetime)
    (odd : option datetime) :
  Generator.preserve_time_of_day (combine d (dt_time completed_at)) odd
  = combine d (due_time completed_at odd).
Proof. destruct odd; reflexivity. Qed.

(** [calculate_next_occurrence] in closed form, branch by branch.  An
    exception of the date arithmetic is caught and turned into [None]. *)
Section NextOccurrence.

Variables (completed_at : datetime) (rule : Generator.RecurrenceRule)
          (odd : option datetime).
Hypothesis completed_at_ok : datetime_ok completed_at = true.

Let frequency : string :=
  Generator.lower (Generator.get (Generator.frequency rule) EmptyString).
Let interval : Z := Generator.get (Generator.interval rule) 1.

Lemma next_occurrence_daily :
  frequency = "daily"%string ->
  Generator.calculate_next_occurrence completed_at rule odd =
  if representable (combine (date_add_days (dt_date completed_at) interval)
                            (dt_time completed_at))
  then Some (combine (date_add_days (dt_date completed_at) interval)
                     (due_time completed_at odd))
  else None.
Proof.
  intros E. unfold Generator.calculate_next_occurrence.
  fold frequency. rewrite E. cbn [String.eqb Ascii.eqb Bool.eqb].
  unfold Generator._calculate_daily. fold interval.
  rewrite dt_add_whole_days by exact completed_at_ok. unfold in_range.
  destruct (representable _); [| reflexivity].
  cbn [bind try_except]. now rewrite preserve_time_of_day_combine.
Qed.

Lemma next_occurrence_weekly :
  frequency = "weekly"%string ->
  Generator.get (Generator.days_of_week rule) [] <> [] ->
  exists k d,
    Generator.calculate_next_occurrence completed_at rule odd
    = (if representable
            (combine (date_add_days (dt_date completed_at) k)
                     (dt_time completed_at))
       then Some (combine (date_add_days (dt_date completed_at) k)
                          (due_time completed_at odd))
       else None) /\
    In d (Generator.get (Generator.days_of_week rule) []) /\
    (k - d + weekday (dt_date completed_at)) mod 7 = 0 /\
    (weekday (dt_date completed_at) < d ->
     k = d - weekday (dt_date completed_at)) /\
    (d <= weekday (dt_date completed_at) ->
     7 - weekday (dt_date completed_at) + d <= k) /\
    (k = d - weekday (dt_date completed_at) \/
     k = 7 - weekday (dt_date completed_at) + d
         + (if interval >? 1 then (interval - 1) * 7 else 0)).
Proof.
  intros E Hne.
  destruct (generator_weekly_general completed_at interval
              (Generator.get (Generator.days_of_week rule) []) odd
              completed_at_ok Hne) as (k & d & W & Facts).
  exists k, d. split; [| exact Facts].
  unfold Generator.calculate_next_occurrence.
  fold frequency. rewrite E. cbn [String.eqb Ascii.eqb Bool.eqb].
  fold interval. rewrite W.
  destruct (representable _); reflexivity.
Qed.

Lemma next_occurrence_weekly_no_days :
  frequency = "weekly"%string ->
  Generator.get (Generator.days_of_week rule) [] = [] ->
  Generator.calculate_next_occurrence completed_at rule odd = None.
Proof.
  intros E D. unfold Generator.calculate_next_occurrence.
  fold frequency. rewrite E, D. reflexivity.
Qed.

Lemma next_occurrence_monthly (dom : Z) :
  frequency = "monthly"%string ->
  Generator.day_of_month rule = Some dom -> 1 <= dom <= 31 ->
  Generator.calculate_next_occurrence completed_at rule odd =
  if (12 * MINYEAR <=? month_index (dt_date completed_at) + interval)
     && (month_index (dt_date completed_at) + interval
         <=? 12 * MAXYEAR + 11)
  then Some (combine (place_day (month_index (dt_date completed_at)
                                 + interval) dom)
                     (due_time completed_at odd))
  else None.
Proof.
  intros E D R. unfold Generator.calculate_next_occurrence.
  fold frequency. rewrite E, D.
  cbn [String.eqb Ascii.eqb Bool.eqb]. fold interval.
  rewrite generator_monthly_spec by assumption.
  destruct (_ && _); [| reflexivity].
  cbn [try_except]. now rewrite preserve_time_of_day_combine.
Qed.

Lemma next_occurrence_monthly_invalid :
  frequency = "monthly"%string ->
  match Generator.day_of_month rule with
  | None => True
  | Some d => d < 1 \/ 31 < d
  end ->
  Generator.calculate_next_occurrence completed_at rule odd = None.
Proof.
  intros E D. unfold Generator.calculate_next_occurrence.
  fold frequency. rewrite E. cbn [String.eqb Ascii.eqb Bool.eqb].
  destruct (Generator.day_of_month rule) as [d|]; [| reflexivity].
  unfold Generator._calculate_monthly.
  destruct (d =? 0); [reflexivity|].
  destruct D as [L | L].
  - replace (d <? 1) with true by (symmetry; now apply Z.ltb_lt).
    reflexivity.
  - replace (d >? 31) with true
      by (symmetry; rewrite Z.gtb_ltb; now apply Z.ltb_lt).
    rewrite orb_true_r. reflexivity.
Qed.

Lemma next_occurrence_unknown :
  frequency <> "daily"%string -> frequency <> "weekly"%string ->
  frequency <> "monthly"%string ->
  Generator.calculate_next_occurrence completed_at rule odd = None.
Proof.
  intros Nd Nw Nm. unfold Generator.calculate_next_occurrence.
  fold frequency.
  destruct (String.eqb_spec frequency "daily"); [contradiction|].
  destruct (String.eqb_spec frequency "weekly"); [contradiction|].
  destruct (String.eqb_spec frequency "monthly"); [contradiction|].
  reflexivity.
Qed.

End NextOccurrence.

(** A day [k] days after a well-formed day in the years [MINYEAR] to
    [MAXYEAR - m], with [0 <= k <= 365 * m], is representable. *)
Lemma representable_days_later (completed_at : datetime) (k m : Z) :
  datetime_ok completed_at = true -> 0 <= k <= 365 * m ->
  MINYEAR <= year (dt_date completed_at) ->
  year (dt_date completed_at) + m <= MAXYEAR ->
  representable (combine (date_add_days (dt_date completed_at) k)
                         (dt_time completed_at)) = true.
Proof.
  intros Hc Hk Lo Hi.
  pose proof (proj1 (datetime_ok_iff _) Hc) as [Hcd _].
  apply representable_iff. cbn [dt_date].
  pose proof (year_of_later_day (dt_date completed_at)
                (date_add_days (dt_date completed_at) k) m Hcd
                (date_ok_add_days _ k Hcd)) as Y.
  rewrite toordinal_add_days in Y by exact Hcd. lia.
Qed.

(** X13. When the generator has no answer.  A rule with the frequency
    daily, weekly or monthly (compared without regard to case), with a
    non-empty list of days when it is weekly and a day of the month in
    1..31 when it is monthly, is otherwise unanswered only when the date
    arithmetic leaves Python's range of years.  So let [span] bound the
    interval and the day numbers in absolute value, let the completion
    time be well formed and more than [span] years from either end of the
    years 1..9999, and let the frequency be ASCII text.  Then
    [calculate_next_occurrence] returns [None] exactly when the frequency
    is not daily, weekly or monthly, or it is weekly and [days_of_week] is
    missing or empty, or it is monthly and [day_of_month] is missing or
    outside 1..31. *)
Theorem next_occurrence_none_iff_invalid_rule (completed_at : datetime)
    (rule : Generator.RecurrenceRule) (odd : option datetime) (span : Z) :
  datetime_ok completed_at = true ->
  is_ascii (Generator.get (Generator.frequency rule) EmptyString) = true ->
  Z.abs (Generator.get (Generator.interval rule) 1) <= span ->
  (forall d, In d (Generator.get (Generator.days_of_week rule) []) ->
             Z.abs d <= span) ->
  MINYEAR + span < year (dt_date completed_at) < MAXYEAR - span ->
  let frequency :=
    Generator.lower (Generator.get (Generator.frequency rule) EmptyString) in
  Generator.calculate_next_occurrence completed_at rule odd = None <->
  (frequency <> "daily"%string /\ frequency <> "weekly"%string /\
   frequency <> "monthly"%string) \/
  (frequency = "weekly"%string /\
   Generator.get (Generator.days_of_week rule) [] = []) \/
  (frequency = "monthly"%string /\
   match Generator.day_of_month rule with
   | None => True
   | Some d => d < 1 \/ 31 < d
   end).
Proof.
  intros Hc _ Hi Hdays Hy frequency.
  pose proof (proj1 (datetime_ok_iff _) Hc) as [Hcd _].
  pose proof (proj1 (date_ok_iff _) Hcd) as [Hmonth _].
  pose proof (weekday_range (dt_date completed_at)) as W.
  assert (0 <= span) as Hs by lia.
  destruct (String.eqb_spec frequency "daily") as [Ed | Nd].
  { subst frequency.
    rewrite (next_occurrence_daily completed_at rule odd Hc Ed).
    rewrite (representable_days_away completed_at _ _ span Hc
               (date_ok_add_days _ _ Hcd) Hs)
      by (try rewrite toordinal_add_days by exact Hcd; lia).
    split; [discriminate|].
    intros [(N & _) | [(E & _) | (E & _)]]; congruence. }
  destruct (String.eqb_spec frequency "weekly") as [Ew | Nw].
  { subst frequency.
    destruct (Generator.get (Generator.days_of_week rule) []) as [| d0 ds]
      eqn:El.
    - rewrite (next_occurrence_weekly_no_days completed_at rule odd Ew El).
      split; [intros _; right; left; auto | reflexivity].
    - destruct (next_occurrence_weekly completed_at rule odd Hc Ew)
        as (k & d & E & Hin & _ & _ & _ & K);
        [rewrite El; discriminate|].
      rewrite El in Hin. specialize (Hdays d Hin).
      rewrite E.
      rewrite (representable_days_away completed_at _ _ (span + 1) Hc
                 (date_ok_add_days _ _ Hcd)).
      + split; [discriminate|].
        intros [(_ & N & _) | [(_ & B) | (B & _)]]; congruence.
      + lia.
      + rewrite toordinal_add_days by exact Hcd.
        destruct (Generator.get (Generator.interval rule) 1 >? 1); lia.
      + lia. }
  destruct (String.eqb_spec frequency "monthly") as [Em | Nm].
  { subst frequency.
    destruct (Generator.day_of_month rule) as [dom|] eqn:Edom.
    2:{ rewrite next_occurrence_monthly_invalid;
          [| exact Em | now rewrite Edom].
        split; [intros _; right; right; auto | reflexivity]. }
    destruct (Z.lt_ge_cases dom 1) as [L | G].
    { rewrite next_occurrence_monthly_invalid;
        [| exact Em | rewrite Edom; now left].
      split; [intros _; right; right; auto | reflexivity]. }
    destruct (Z.lt_ge_cases 31 dom) as [L | G'].
    { rewrite next_occurrence_monthly_invalid;
        [| exact Em | rewrite Edom; now right].
      split; [intros _; right; right; auto | reflexivity]. }
    rewrite (next_occurrence_monthly completed_at rule odd Hc dom Em Edom)
      by lia.
    replace (12 * MINYEAR
             <=? month_index (dt_date completed_at)
                 + Generator.get (Generator.interval rule) 1) with true
      by (symmetry; apply Z.leb_le; unfold month_index; lia).
    replace (month_index (dt_date completed_at)
             + Generator.get (Generator.interval rule) 1
             <=? 12 * MAXYEAR + 11) with true
      by (symmetry; apply Z.leb_le; unfold month_index; lia).
    cbn [andb]. split; [discriminate|].
    intros [(_ & _ & N) | [(B & _) | (_ & B)]];
      [congruence | congruence | lia]. }
  subst frequency. rewrite next_occurrence_unknown by assumption.
  split; [intros _; left; auto | reflexivity].
Qed.

Lemma next_occurrence_none_iff_invalid_rule_witness :
  Generator.calculate_next_occurrence (at_ 2025 1 15 10 0)
    (Generator.mkRecurrenceRule (Some "Weekly"%string) (Some 1) None None)
    None = None.
Proof.
  assert (MINYEAR + 1 < year (dt_date (at_ 2025 1 15 10 0)) < MAXYEAR - 1)
    as Y by (vm_compute; split; reflexivity).
  assert (forall d : Z, In d [] -> Z.abs d <= 1) as D by (intros d []).
  assert (Z.abs 1 <= 1) as I by (vm_compute; discriminate).
  apply (proj2 (next_occurrence_none_iff_invalid_rule (at_ 2025 1 15 10 0)
                  (Generator.mkRecurrenceRule (Some "Weekly"%string) (Some 1)
                                              None None)
                  None 1 eq_refl eq_refl I D Y)).
  right; left. split; reflexivity.
Defined.

(** At the end of Python's range a sound daily rule is unanswered: the
    addition raises and the generator returns [None]. *)
Example sound_rule_at_the_last_day_is_unanswered :
  Generator.calculate_next_occurrence (at_ 9999 12 31 10 0)
    (Generator.mkRecurrenceRule (Some "daily"%string) (Some 1) None None)
    None = None.
Proof. reflexivity. Qed.

(** X14. The generator never schedules the next occurrence on the day of
    completion or before it.  For a well-formed completion time, an
    interval of at least 1 (or none given) and day numbers that are not
    negative, the date of any result is strictly after the date of
    [completed_at]: exactly [interval] days after it for a daily rule, a
    date whose weekday number is a listed day number modulo 7 for a weekly
    rule, and the requested day clamped to the month [interval] months
    after for a monthly rule. *)
Theorem next_occurrence_after_completion_day (completed_at r : datetime)
    (rule : Generator.RecurrenceRule) (odd : option datetime) :
  datetime_ok completed_at = true ->
  1 <= Generator.get (Generator.interval rule) 1 ->
  (forall d, In d (Generator.get (Generator.days_of_week rule) []) ->
             0 <= d) ->
  Generator.calculate_next_occurrence completed_at rule odd = Some r ->
  let frequency :=
    Generator.lower (Generator.get (Generator.frequency rule) EmptyString) in
  toordinal (dt_date completed_at) < toordinal (dt_date r) /\
  (frequency = "daily"%string ->
   toordinal (dt_date r)
   = toordinal (dt_date completed_at)
     + Generator.get (Generator.interval rule) 1) /\
  (frequency = "weekly"%string ->
   exists d, In d (Generator.get (Generator.days_of_week rule) []) /\
             weekday (dt_date r) = d mod 7) /\
  (frequency = "monthly"%string ->
   exists dom, Generator.day_of_month rule = Some dom /\
     placed_in_month (dt_date r)
       (month_index (dt_date completed_at)
        + Generator.get (Generator.interval rule) 1) dom).
Proof.
  intros Hc Hi Hdays E frequency.
  pose proof (proj1 (datetime_ok_iff _) Hc) as [Hcd _].
  pose proof (weekday_range (dt_date completed_at)) as W.
  destruct (String.eqb_spec frequency "daily") as [Ed | Nd].
  { subst frequency.
    rewrite (next_occurrence_daily completed_at rule odd Hc Ed) in E.
    destruct (representable _); [| discriminate].
    injection E as <-. cbn [dt_date].
    rewrite toordinal_add_days by exact Hcd.
    split; [lia | split; [reflexivity | split; intros B; congruence]]. }
  destruct (String.eqb_spec frequency "weekly") as [Ew | Nw].
  { subst frequency.
    destruct (Generator.get (Generator.days_of_week rule) []) as [| d0 ds]
      eqn:El.
    { rewrite (next_occurrence_weekly_no_days completed_at rule odd Ew El)
        in E. discriminate. }
    destruct (next_occurrence_weekly completed_at rule odd Hc Ew)
      as (k & d & E' & Hin & Hmod & Hlt & Hge & _);
      [rewrite El; discriminate|].
    rewrite El in Hin. rewrite E' in E.
    destruct (representable _); [| discriminate].
    injection E as <-. cbn [dt_date].
    pose proof (Hdays d Hin) as Hd.
    rewrite toordinal_add_days by exact Hcd.
    split; [destruct (Z.lt_ge_cases (weekday (dt_date completed_at)) d);
            [specialize (Hlt H) | specialize (Hge H)]; lia|].
    split; [intros B; congruence | split; [| intros B; congruence]].
    intros _. exists d. split; [exact Hin|].
    rewrite weekday_add_days by exact Hcd.
    Z.div_mod_to_equations. lia. }
  destruct (String.eqb_spec frequency "monthly") as [Em | Nm].
  { subst frequency.
    destruct (Generator.day_of_month rule) as [dom|] eqn:Ed.
    2:{ rewrite next_occurrence_monthly_invalid in E;
          [discriminate | exact Em | now rewrite Ed]. }
    destruct (Z.lt_ge_cases dom 1) as [L | G].
    { rewrite next_occurrence_monthly_invalid in E;
        [discriminate | exact Em | rewrite Ed; now left]. }
    destruct (Z.lt_ge_cases 31 dom) as [L | G'].
    { rewrite next_occurrence_monthly_invalid in E;
        [discriminate | exact Em | rewrite Ed; now right]. }
    rewrite (next_occurrence_monthly completed_at rule odd Hc dom Em Ed) in E
      by lia.
    destruct (_ && _); [| discriminate].
    injection E as <-. cbn [dt_date].
    split.
    - apply toordinal_lt_month_index;
        [exact Hcd | apply date_ok_place_day; lia|].
      rewrite month_index_place_day. lia.
    - split; [intros B; congruence | split; [intros B; congruence|]].
      intros _. exists dom. split; [reflexivity | apply placed_place_day]. }
  subst frequency.
  rewrite next_occurrence_unknown in E by assumption. discriminate.
Qed.

Lemma next_occurrence_after_completion_day_witness :
  toordinal (dt_date (at_ 2025 1 15 10 0))
  < toordinal (dt_date (at_ 2025 1 20 10 0)).
Proof.
  refine (proj1 (next_occurrence_after_completion_day
                   (at_ 2025 1 15 10 0) (at_ 2025 1 20 10 0)
                   (Generator.mkRecurrenceRule (Some "weekly"%string)
                      (Some 1) (Some [0; 2]) None)
                   None eq_refl _ _ eq_refl)).
  - cbn. lia.
  - intros d [<- | [<- | []]]; lia.
Defined.

(* ================================================================= *)
(** * The API's rules and the generator *)

Lemma valid_day_iff (d : Z) : ApiService.valid_day d = true <-> 1 <= d <= 7.
Proof.
  unfold ApiService.valid_day. rewrite negb_true_iff, orb_false_iff.
  rewrite Z.gtb_ltb, !Z.ltb_ge. lia.
Qed.

(** X15. A rule with at least one entry that [validate_recurrence_rule]
    accepts gets a next occurrence from the generator, on a date strictly
    after the day of completion, whenever the completion time is well
    formed, its year is at least [MINYEAR] and the year [interval] years
    later is at most [MAXYEAR] (so that the date arithmetic stays inside
    Python's range), the frequency being ASCII text.  For a weekly rule
    the accepted day numbers are 1..7, and the weekday of the result, in
    the generator's numbering (Monday is 0), is a listed number modulo
    7. *)
Theorem accepted_rule_has_next_occurrence (completed_at : datetime)
    (rule : Generator.RecurrenceRule) (odd : option datetime) :
  datetime_ok completed_at = true ->
  MINYEAR <= year (dt_date completed_at) ->
  year (dt_date completed_at) + Generator.get (Generator.interval rule) 1
  <= MAXYEAR ->
  is_ascii (Generator.get (Generator.frequency rule) EmptyString) = true ->
  Generator.is_empty rule = false ->
  ApiService.validate_recurrence_rule (Some rule) = ApiService.Passed ->
  exists r,
    Generator.calculate_next_occurrence completed_at rule odd = Some r /\
    toordinal (dt_date completed_at) < toordinal (dt_date r) /\
    (Generator.lower (Generator.get (Generator.frequency rule) EmptyString)
     = "weekly"%string ->
     exists d, In d (Generator.get (Generator.days_of_week rule) []) /\
               1 <= d <= 7 /\ weekday (dt_date r) = d mod 7).
Proof.
  intros Hc Lo Hi _ Ne V.
  pose proof (proj1 (datetime_ok_iff _) Hc) as [Hcd _].
  pose proof (proj1 (date_ok_iff _) Hcd) as [Hmonth _].
  pose proof (weekday_range (dt_date completed_at)) as W.
  unfold ApiService.validate_recurrence_rule in V. rewrite Ne in V.
  set (frequency := Generator.lower
                      (Generator.get (Generator.frequency rule) EmptyString))
    in *.
  set (interval := Generator.get (Generator.interval rule) 1) in *.
  destruct (String.eqb_spec frequency "daily") as [Ed | Nd].
  { cbn [orb negb] in V. rewrite Ed in V.
    cbn [String.eqb Ascii.eqb Bool.eqb andb] in V.
    destruct (Z.ltb_spec interval 1) as [L | G]; [discriminate|].
    subst frequency.
    rewrite (next_occurrence_daily completed_at rule odd Hc Ed).
    fold interval.
    rewrite (representable_days_later completed_at interval interval Hc)
      by lia.
    eexists. split; [reflexivity|]. cbn [dt_date].
    rewrite toordinal_add_days by exact Hcd.
    split; [lia | intros B; congruence]. }
  destruct (String.eqb_spec frequency "weekly") as [Ew | Nw].
  { cbn [orb negb andb] in V. rewrite Ew in V.
    cbn [String.eqb Ascii.eqb Bool.eqb andb] in V.
    destruct (Generator.days_of_week rule) as [[| d0 ds]|] eqn:Edays;
      try discriminate.
    destruct (forallb ApiService.valid_day (d0 :: ds)) eqn:All;
      [| discriminate].
    cbn [negb] in V.
    destruct (Z.ltb_spec interval 1) as [L | G]; [discriminate|].
    subst frequency.
    destruct (next_occurrence_weekly completed_at rule odd Hc Ew)
      as (k & d & E' & Hin & Hmod & Hlt & Hge & K);
      [rewrite Edays; discriminate|].
    rewrite Edays in Hin. cbn [Generator.get] in Hin |- *.
    assert (1 <= d <= 7) as Hd
      by (apply valid_day_iff;
          exact (proj1 (forallb_forall _ _) All d Hin)).
    fold interval in K.
    assert (1 <= k <= 365 * interval) as Hk.
    { destruct (Z.lt_ge_cases (weekday (dt_date completed_at)) d) as [A | A];
        [specialize (Hlt A); lia | specialize (Hge A)].
      destruct (interval >? 1) eqn:I1; [| lia].
      rewrite Z.gtb_ltb in I1. apply Z.ltb_lt in I1. lia. }
    rewrite E'.
    rewrite (representable_days_later completed_at k interval Hc) by lia.
    eexists. split; [reflexivity|]. cbn [dt_date].
    rewrite toordinal_add_days by exact Hcd.
    split; [lia|].
    intros _. exists d. split; [exact Hin | split; [exact Hd|]].
    rewrite weekday_add_days by exact Hcd.
    Z.div_mod_to_equations. lia. }
  destruct (String.eqb_spec frequency "monthly") as [Em | Nm];
    [| discriminate].
  cbn [orb negb andb] in V.
  destruct (Generator.day_of_month rule) as [dom|] eqn:Edom;
    [| discriminate].
  rewrite Z.gtb_ltb in V.
  destruct (Z.ltb_spec dom 1); [discriminate|].
  destruct (Z.ltb_spec 31 dom); [discriminate|].
  cbn [orb] in V.
  destruct (Z.ltb_spec interval 1) as [L | G]; [discriminate|].
  subst frequency.
  rewrite (next_occurrence_monthly completed_at rule odd Hc dom Em Edom)
    by lia.
  fold interval.
  replace (12 * MINYEAR <=? month_index (dt_date completed_at) + interval)
    with true by (symmetry; apply Z.leb_le; unfold month_index; lia).
  replace (month_index (dt_date completed_at) + interval
           <=? 12 * MAXYEAR + 11) with true
    by (symmetry; apply Z.leb_le; unfold month_index; lia).
  cbn [andb].
  eexists. split; [reflexivity|]. cbn [dt_date].
  split; [| intros B; congruence].
  apply toordinal_lt_month_index;
    [exact Hcd | apply date_ok_place_day; lia|].
  rewrite month_index_place_day. lia.
Qed.

Lemma accepted_rule_has_next_occurrence_witness :
  exists r,
    Generator.calculate_next_occurrence (at_ 2025 1 15 10 0)
      (Generator.mkRecurrenceRule (Some "weekly"%string) None (Some [7])
                                  None) None = Some r /\
    toordinal (dt_date (at_ 2025 1 15 10 0)) < toordinal (dt_date r) /\
    (Generator.lower "weekly" = "weekly"%string ->
     exists d, In d [7] /\ 1 <= d <= 7 /\ weekday (dt_date r) = d mod 7).
Proof.
  assert (MINYEAR <= year (dt_date (at_ 2025 1 15 10 0))) as Lo
    by (vm_compute; discriminate).
  assert (year (dt_date (at_ 2025 1 15 10 0)) + 1 <= MAXYEAR) as Hi
    by (vm_compute; discriminate).
  exact (accepted_rule_has_next_occurrence (at_ 2025 1 15 10 0)
           (Generator.mkRecurrenceRule (Some "weekly"%string) None (Some [7])
                                       None) None eq_refl Lo Hi eq_refl
           eq_refl eq_refl).
Defined.

(** The validator's Sunday is the generator's Monday. *)
Example accepted_sunday_lands_on_monday :
  ApiService.validate_recurrence_rule
    (Some (Generator.mkRecurrenceRule (Some "weekly"%string) None
                                      (Some [7]) None))
  = ApiService.Passed /\
  Generator.calculate_next_occurrence (at_ 2025 1 15 10 0)
    (Generator.mkRecurrenceRule (Some "weekly"%string) None (Some [7]) None)
    None = Some (at_ 2025 1 20 10 0) /\
  weekday (dt_date (at_ 2025 1 20 10 0)) = 0.
Proof. repeat split. Qed.

(** The rule without entries passes the validator, and the generator has
    no next occurrence for it. *)
Example empty_rule_is_accepted_and_unanswered :
  ApiService.validate_recurrence_rule
    (Some (Generator.mkRecurrenceRule None None None None))
  = ApiService.Passed /\
  Generator.calculate_next_occurrence (at_ 2025 1 15 10 0)
    (Generator.mkRecurrenceRule None None None None) None = None.
Proof. split; reflexivity. Qed.

(** X16. The rule that [task_to_event_data] puts in an event has the
    task's pattern in lower case, interval 1 and nothing else.  For a
    pattern of ASCII text and a well-formed completion time in a year
    from [MINYEAR] to [MAXYEAR - 1], the generator answers such a rule
    exactly when the pattern is daily: it has no answer for weekly and
    monthly tasks, whose day entries are missing, nor for pattern
    ["none"], for which the event carries a rule all the same. *)
Theorem event_rule_is_answered_for_daily_only (task : ApiService.Task)
    (rule : Generator.RecurrenceRule) (completed_at : datetime)
    (odd : option datetime) :
  datetime_ok completed_at = true ->
  MINYEAR <= year (dt_date completed_at) < MAXYEAR ->
  is_ascii (ApiService.recurrence_pattern task) = true ->
  ApiService.ev_recurrence_rule (ApiService.task_to_event_data task)
  = Some rule ->
  rule = Generator.mkRecurrenceRule
           (Some (Generator.lower (ApiService.recurrence_pattern task)))
           (Some 1) None None /\
  (Generator.calculate_next_occurrence completed_at rule odd <> None <->
   Generator.lower (ApiService.recurrence_pattern task) = "daily"%string).
Proof.
  intros Hc Hy _ E. unfold ApiService.task_to_event_data in E.
  cbn [ApiService.ev_recurrence_rule] in E.
  destruct (negb (String.eqb (ApiService.recurrence_pattern task) EmptyString)
            && negb (String.eqb (ApiService.recurrence_pattern task) "NONE"));
    [| discriminate].
  injection E as <-. split; [reflexivity|].
  set (p := ApiService.recurrence_pattern task).
  set (rule := Generator.mkRecurrenceRule (Some (Generator.lower p)) (Some 1)
                                          None None).
  assert (Generator.lower
            (Generator.get (Generator.frequency rule) EmptyString)
          = Generator.lower p) as F
    by (cbn [rule Generator.frequency Generator.get];
        apply lower_idempotent).
  destruct (String.eqb_spec (Generator.lower p) "daily") as [Ed | Nd].
  { rewrite (next_occurrence_daily completed_at rule odd Hc)
      by (rewrite F; exact Ed).
    cbn [rule Generator.interval Generator.get].
    rewrite (representable_days_later completed_at 1 1 Hc) by lia.
    split; [auto | discriminate]. }
  destruct (String.eqb_spec (Generator.lower p) "weekly") as [Ew | Nw].
  { rewrite (next_occurrence_weekly_no_days completed_at rule odd)
      by (rewrite ?F; (exact Ew || reflexivity)).
    split; congruence. }
  destruct (String.eqb_spec (Generator.lower p) "monthly") as [Em | Nm].
  { rewrite (next_occurrence_monthly_invalid completed_at rule odd)
      by (rewrite ?F; (exact Em || exact I)).
    split; congruence. }
  rewrite (next_occurrence_unknown completed_at rule odd)
    by (rewrite F; assumption).
  split; congruence.
Qed.

Lemma event_rule_is_answered_for_daily_only_witness :
  Generator.calculate_next_occurrence (at_ 2025 1 15 10 0)
    (Generator.mkRecurrenceRule (Some (Generator.lower "weekly")) (Some 1)
                                None None) None = None.
Proof.
  assert (MINYEAR <= year (dt_date (at_ 2025 1 15 10 0)) < MAXYEAR) as Y
    by (vm_compute; split; [discriminate | reflexivity]).
  destruct (event_rule_is_answered_for_daily_only
              (ApiService.mkTask (Some 1) "user_abc123" "Pay rent" None true
                 None [] (Some (at_ 2025 1 15 9 0)) None "weekly" None
                 (at_ 2025 1 1 0 0) (at_ 2025 1 1 0 0))
              _ (at_ 2025 1 15 10 0) None eq_refl Y eq_refl eq_refl)
    as [_ Iff].
  destruct (Generator.calculate_next_occurrence (at_ 2025 1 15 10 0)
              (Generator.mkRecurrenceRule (Some (Generator.lower "weekly"))
                                          (Some 1) None None) None)
    as [r|] eqn:E; [| reflexivity].
  exfalso. assert (Generator.lower "weekly" = "daily"%string) as Bad
    by (apply Iff; discriminate).
  discriminate Bad.
Defined.

(* ================================================================= *)
(** * The next instance of a completed task (api-service) *)

Lemma dt_add_months_ok (dt : datetime) (k : Z) :
  datetime_ok dt = true -> datetime_ok (dt_add_months dt k) = true.
Proof.
  intros H. apply datetime_ok_iff in H. destruct H as [Hd Ht].
  apply date_ok_iff in Hd.
  apply datetime_ok_iff. cbn [dt_add_months dt_date dt_time].
  split; [| exact Ht]. rewrite date_add_months_place_day.
  apply date_ok_place_day. lia.
Qed.

(** X17. The next instance of a completed recurring task.  When
    [create_recurring_instance] creates a task, the new due date is
    strictly after the old one: one day later for daily, seven days later
    for weekly, and for monthly the same time of day on the old day of the
    month, clamped to the length of the next month.  The reminder keeps
    its distance to the due date; without a reminder the new task has
    none.  The new task is not completed and keeps user, title and
    pattern, and the completed task gets its completion time. *)
Theorem recurring_instance_keeps_reminder_offset
    (completed_task new_task completed_task' : ApiService.Task)
    (pakistan_now due : datetime) (new_id : Z) :
  ApiService.due_date completed_task = Some due ->
  datetime_ok due = true ->
  ApiService.create_recurring_instance completed_task pakistan_now new_id
  = (Some new_task, completed_task') ->
  exists next_due,
    ApiService.due_date new_task = Some next_due /\
    datetime_ok next_due = true /\
    to_us due < to_us next_due /\
    (ApiService.recurrence_pattern completed_task = "daily"%string ->
     to_us next_due = to_us due + td_days 1) /\
    (ApiService.recurrence_pattern completed_task = "weekly"%string ->
     to_us next_due = to_us due + td_days 7) /\
    (ApiService.recurrence_pattern completed_task = "monthly"%string ->
     dt_time next_due = dt_time due /\
     placed_in_month (dt_date next_due) (month_index (dt_date due) + 1)
                     (day (dt_date due))) /\
    match ApiService.reminder_time completed_task with
    | Some reminder =>
        exists next_reminder,
          ApiService.reminder_time new_task = Some next_reminder /\
          to_us next_due - to_us next_reminder
          = to_us due - to_us reminder
    | None => ApiService.reminder_time new_task = None
    end /\
    ApiService.completed new_task = false /\
    ApiService.id new_task = Some new_id /\
    ApiService.user_id new_task = ApiService.user_id completed_task /\
    ApiService.title new_task = ApiService.title completed_task /\
    ApiService.recurrence_pattern new_task
    = ApiService.recurrence_pattern completed_task /\
    ApiService.last_completed_at completed_task' = Some pakistan_now.
Proof.
  intros Edue Hdue. unfold ApiService.create_recurring_instance.
  rewrite Edue.
  set (p := ApiService.recurrence_pattern completed_task).
  set (next := if String.eqb p "daily" then Some (dt_add due (td_days 1))
               else if String.eqb p "weekly"
                    then Some (dt_add due (td_weeks 1))
                    else if String.eqb p "monthly"
                         then Some (dt_add_months due 1) else None).
  assert (forall next_due, next = Some next_due ->
            datetime_ok next_due = true /\ to_us due < to_us next_due /\
            (p = "daily"%string -> to_us next_due = to_us due + td_days 1) /\
            (p = "weekly"%string -> to_us next_due = to_us due + td_days 7)
            /\
            (p = "monthly"%string ->
             dt_time next_due = dt_time due /\
             placed_in_month (dt_date next_due)
                             (month_index (dt_date due) + 1)
                             (day (dt_date due)))) as Next.
  { intros next_due. subst next.
    assert (0 < td_days 1 /\ td_weeks 1 = td_days 7) as [Pos Wk]
      by (split; vm_compute; reflexivity).
    assert (0 < td_weeks 1) as Pos7 by (vm_compute; reflexivity).
    destruct (String.eqb_spec p "daily") as [Ed | Nd].
    { intros E.
      assert (next_due = dt_add due (td_days 1)) as -> by congruence.
      clear E. destruct (to_us_dt_add due (td_days 1) Hdue) as [E K].
      split; [exact K | split; [lia|]].
      split; [auto | split; intros B; congruence]. }
    destruct (String.eqb_spec p "weekly") as [Ew | Nw].
    { intros E.
      assert (next_due = dt_add due (td_weeks 1)) as -> by congruence.
      clear E. destruct (to_us_dt_add due (td_weeks 1) Hdue) as [E K].
      split; [exact K | split; [lia|]].
      split; [intros B; congruence | split; [| intros B; congruence]].
      intros _. rewrite E, Wk. reflexivity. }
    destruct (String.eqb_spec p "monthly") as [Em | Nm]; [| discriminate].
    intros E.
    assert (next_due = dt_add_months due 1) as -> by congruence.
    clear E. pose proof (dt_add_months_ok due 1 Hdue) as K.
    assert (placed_in_month (dt_date (dt_add_months due 1))
                            (month_index (dt_date due) + 1)
                            (day (dt_date due))) as Pl
      by (cbn [dt_add_months dt_date]; rewrite date_add_months_place_day;
          apply placed_place_day).
    split; [exact K | split].
    - apply later_day_is_later; try assumption.
      apply toordinal_lt_month_index;
        [now apply datetime_ok_iff in Hdue | now apply datetime_ok_iff in K|].
      destruct Pl as [-> _]. lia.
    - split; [intros B; congruence | split; [intros B; congruence|]].
      intros _. split; [reflexivity | exact Pl]. }
  destruct next as [next_due|]; [| discriminate].
  destruct (Next next_due eq_refl) as (Hn & L & Dd & Dw & Dm).
  intros E. injection E as <- <-.
  exists next_due. cbn.
  repeat (split; [reflexivity || assumption|]).
  split; [| repeat split].
  destruct (ApiService.reminder_time completed_task) as [reminder|];
    [| reflexivity].
  eexists. split; [reflexivity|].
  destruct (to_us_dt_sub next_due (dt_diff due reminder) Hn) as [-> _].
  unfold dt_diff. lia.
Qed.

Lemma recurring_instance_keeps_reminder_offset_witness :
  exists next_due,
    ApiService.due_date
      (ApiService.mkTask (Some 2) "user_abc123" "Pay rent" None false None []
         (Some (at_ 2025 2 28 10 0)) (Some (at_ 2025 2 27 10 0)) "monthly"
         None (at_ 2025 1 31 12 0) (at_ 2025 1 31 12 0))
    = Some next_due /\
    to_us (at_ 2025 1 31 10 0) < to_us next_due.
Proof.
  destruct (recurring_instance_keeps_reminder_offset
              (ApiService.mkTask (Some 1) "user_abc123" "Pay rent" None true
                 None [] (Some (at_ 2025 1 31 10 0))
                 (Some (at_ 2025 1 30 10 0)) "monthly" None
                 (at_ 2025 1 1 0 0) (at_ 2025 1 1 0 0))
              _ _ (at_ 2025 1 31 12 0) (at_ 2025 1 31 10 0) 2
              eq_refl eq_refl eq_refl) as (next_due & E & _ & L & _).
  exists next_due. split; assumption.
Defined.

(** X18. No next instance is created for a task without a due date, nor
    for a pattern other than daily, weekly or monthly; in those cases, and
    only in those, the function returns [None], and then it leaves the
    completed task as it was. *)
Theorem no_instance_without_due_date_or_pattern
    (completed_task : ApiService.Task) (pakistan_now : datetime)
    (new_id : Z) :
  (fst (ApiService.create_recurring_instance completed_task pakistan_now
                                             new_id) = None <->
   ApiService.due_date completed_task = None \/
   ~ recurring (ApiService.recurrence_pattern completed_task)) /\
  (fst (ApiService.create_recurring_instance completed_task pakistan_now
                                             new_id) = None ->
   snd (ApiService.create_recurring_instance completed_task pakistan_now
                                             new_id) = completed_task).
Proof.
  unfold ApiService.create_recurring_instance, recurring.
  destruct (ApiService.due_date completed_task) as [due|].
  2:{ cbn [fst snd]. split; [split; auto | reflexivity]. }
  destruct (String.eqb_spec (ApiService.recurrence_pattern completed_task)
                            "daily") as [Ed | Nd].
  { cbn [fst]. split; [| discriminate]. split; [discriminate|].
    intros [B | B]; [discriminate | exfalso; apply B; auto]. }
  destruct (String.eqb_spec (ApiService.recurrence_pattern completed_task)
                            "weekly") as [Ew | Nw].
  { cbn [fst]. split; [| discriminate]. split; [discriminate|].
    intros [B | B]; [discriminate | exfalso; apply B; auto]. }
  destruct (String.eqb_spec (ApiService.recurrence_pattern completed_task)
                            "monthly") as [Em | Nm].
  { cbn [fst]. split; [| discriminate]. split; [discriminate|].
    intros [B | B]; [discriminate | exfalso; apply B; auto]. }
  cbn [fst snd]. split; [| reflexivity]. split; [| reflexivity].
  intros _. right. intros [B | [B | B]]; contradiction.
Qed.

(* ================================================================= *)
(** * The event consumer of the recurring-task service *)

Section Handler.

Import Consumer.

Lemma append_inj_l (prefix a b : string) :
  (prefix ++ a)%string = (prefix ++ b)%string -> a = b.
Proof.
  induction prefix as [| c prefix IH]; cbn [String.append]; intros E.
  - exact E.
  - injection E as E. now apply IH.
Qed.

Lemma idempotency_key_inj (a b : string) :
  idempotency_key (Some a) = idempotency_key (Some b) -> a = b.
Proof. unfold idempotency_key. apply append_inj_l. Qed.

(** The ways the handler ends. *)
Lemma handle_task_event_inv (env : Env) (dapr dapr' : Dapr) (event : Event)
    (st : Status) :
  handle_task_event env dapr event = (st, dapr') ->
  (st = DROP /\ dapr' = dapr) \/
  (st = SUCCESS /\ dapr' = dapr /\
   event_type event = Some "task.completed"%string /\
   (exists rule, recurrence_rule (task_data_of event) = Some rule /\
                 Generator.is_empty rule = false) /\
   get_state dapr (idempotency_key (event_id event)) <> None) \/
  (st = RETRY /\ dapr' = dapr /\ publish_up dapr = false) \/
  (exists rule next,
     st = SUCCESS /\
     event_type event = Some "task.completed"%string /\
     recurrence_rule (task_data_of event) = Some rule /\
     Generator.is_empty rule = false /\
     get_state dapr (idempotency_key (event_id event)) = None /\
     Generator.calculate_next_occurrence (utcnow env) rule
       (original_due_date_of env (task_data_of event)) = Some next /\
     publish_up dapr = true /\
     published dapr'
     = published dapr
       ++ [mkPublished "task.created" (task_id event) (user_id event)
             (task_data_of event) next "pending" (task_id event)] /\
     get_up dapr' = get_up dapr /\ publish_up dapr' = publish_up dapr /\
     save_up dapr' = save_up dapr /\
     state_store dapr'
     = if save_up dapr
       then (idempotency_key (event_id event),
             mkProcessed (utcnow env) (task_id event) next)
            :: state_store dapr
       else state_store dapr).
Proof.
  unfold handle_task_event. fold (task_data_of event).
  destruct (event_type event) as [t|] eqn:Et;
    [| intros H; injection H as <- <-; auto].
  destruct (String.eqb_spec t "task.completed") as [-> | N];
    [| intros H; injection H as <- <-; auto].
  cbn [negb].
  destruct (recurrence_rule (task_data_of event)) as [rule|] eqn:Er;
    [| intros H; injection H as <- <-; auto].
  destruct (Generator.is_empty rule) eqn:Ne;
    [intros H; injection H as <- <-; auto|].
  destruct (get_state dapr (idempotency_key (event_id event))) as [v|] eqn:Eg.
  { intros H; injection H as <- <-. right; left.
    split; [reflexivity | split; [reflexivity | split; [reflexivity|]]].
    split; [exists rule; split; [reflexivity | exact Ne] | discriminate]. }
  fold (original_due_date_of env (task_data_of event)).
  destruct (Generator.calculate_next_occurrence (utcnow env) rule
              (original_due_date_of env (task_data_of event)))
    as [next|] eqn:Ec; [| intros H; injection H as <- <-; auto].
  unfold publish_task_event, save_state.
  destruct (publish_up dapr) eqn:Ep.
  - cbn [negb publish_up save_up published state_store get_up].
    destruct (save_up dapr) eqn:Es; intros H; injection H as <- <-;
      right; right; right; exists rule, next;
      cbn [published get_up publish_up save_up state_store];
      rewrite ?Ep, ?Es; repeat split; (reflexivity || assumption).
  - cbn [negb]. intros H; injection H as <- <-. right; right; left. auto.
Qed.

End Handler.

Lemma handle_already_processed (env : Consumer.Env) (dapr : Consumer.Dapr)
    (event : Consumer.Event) (rule : Generator.RecurrenceRule) :
  Consumer.event_type event = Some "task.completed"%string ->
  Consumer.recurrence_rule (task_data_of event) = Some rule ->
  Generator.is_empty rule = false ->
  Consumer.get_state dapr (Consumer.idempotency_key (Consumer.event_id event))
  <> None ->
  Consumer.handle_task_event env dapr event = (Consumer.SUCCESS, dapr).
Proof.
  intros Et Er Ne Eg. unfold Consumer.handle_task_event.
  fold (task_data_of event). rewrite Et.
  cbn [String.eqb Ascii.eqb Bool.eqb negb].
  rewrite Er, Ne.
  destruct (Consumer.get_state dapr
              (Consumer.idempotency_key (Consumer.event_id event)));
    [reflexivity | congruence].
Qed.

Lemma handle_drops (env : Consumer.Env) (dapr : Consumer.Dapr)
    (event : Consumer.Event) :
  Consumer.event_type event <> Some "task.completed"%string \/
  Consumer.recurrence_rule (task_data_of event) = None \/
  (exists rule, Consumer.recurrence_rule (task_data_of event) = Some rule /\
                Generator.is_empty rule = true) ->
  Consumer.handle_task_event env dapr event = (Consumer.DROP, dapr).
Proof.
  intros D. unfold Consumer.handle_task_event. fold (task_data_of event).
  destruct (Consumer.event_type event) as [t|]; [| reflexivity].
  destruct (String.eqb_spec t "task.completed") as [-> | N];
    [| reflexivity].
  cbn [negb].
  destruct D as [D | [D | (rule & D & Ne)]]; [congruence | |].
  - now rewrite D.
  - now rewrite D, Ne.
Qed.

(** X19. What the handler does to the outside.  It answers [DROP] for an
    event that is not [task.completed] or has no recurrence rule, or an
    empty one.  Unless
    it answers [SUCCESS] it leaves the state store and the published
    events as they were.  It publishes at most one event per call, and
    that event is [task.created] with status pending, the id of the
    completed task as parent, and as due date the generator's answer for
    the event's rule at the clock reading. *)
Theorem handler_publishes_only_with_success (env : Consumer.Env)
    (dapr dapr' : Consumer.Dapr) (event : Consumer.Event)
    (st : Consumer.Status) :
  Consumer.handle_task_event env dapr event = (st, dapr') ->
  (Consumer.event_type event <> Some "task.completed"%string \/
   Consumer.recurrence_rule (task_data_of event) = None \/
   (exists rule, Consumer.recurrence_rule (task_data_of event) = Some rule /\
                 Generator.is_empty rule = true) ->
   st = Consumer.DROP) /\
  (st <> Consumer.SUCCESS -> dapr' = dapr) /\
  (Consumer.published dapr' = Consumer.published dapr \/
   exists ev rule,
     st = Consumer.SUCCESS /\
     Consumer.published dapr' = Consumer.published dapr ++ [ev] /\
     Consumer.pub_event_type ev = "task.created"%string /\
     Consumer.pub_status ev = "pending"%string /\
     Consumer.pub_parent_task_id ev = Consumer.task_id event /\
     Consumer.recurrence_rule (task_data_of event) = Some rule /\
     Generator.calculate_next_occurrence (Consumer.utcnow env) rule
       (original_due_date_of env (task_data_of event))
     = Some (Consumer.pub_due_date ev)).
Proof.
  intros H. split.
  { intros D. rewrite (handle_drops env dapr event D) in H. congruence. }
  destruct (handle_task_event_inv env dapr dapr' event st H)
    as [(-> & ->) | [(-> & -> & _) | [(-> & -> & Ep)
       | (rule & next & -> & Et & Er & Ne & Eg & Ec & Ep & Pub & _)]]].
  - split; auto.
  - split; [congruence | auto].
  - split; [reflexivity | auto].
  - split; [congruence|].
    right. eexists. exists rule. split; [reflexivity|].
    split; [exact Pub|]. cbn. repeat split; assumption.
Qed.

Lemma handler_publishes_only_with_success_witness :
  Consumer.published
    (snd (Consumer.handle_task_event
            (sample_consumer_env (at_ 2025 1 15 10 0)) (sample_dapr true)
            sample_event))
  = Consumer.published (sample_dapr true) \/
  exists ev rule,
    Consumer.SUCCESS = Consumer.SUCCESS /\
    Consumer.published
      (snd (Consumer.handle_task_event
              (sample_consumer_env (at_ 2025 1 15 10 0)) (sample_dapr true)
              sample_event))
    = Consumer.published (sample_dapr true) ++ [ev] /\
    Consumer.pub_event_type ev = "task.created"%string /\
    Consumer.pub_status ev = "pending"%string /\
    Consumer.pub_parent_task_id ev = Consumer.task_id sample_event /\
    Consumer.recurrence_rule (task_data_of sample_event) = Some rule /\
    Generator.calculate_next_occurrence
      (Consumer.utcnow (sample_consumer_env (at_ 2025 1 15 10 0))) rule
      (original_due_date_of (sample_consumer_env (at_ 2025 1 15 10 0))
                            (task_data_of sample_event))
    = Some (Consumer.pub_due_date ev).
Proof.
  exact (proj2 (proj2 (handler_publishes_only_with_success
           (sample_consumer_env (at_ 2025 1 15 10 0)) (sample_dapr true)
           (snd (Consumer.handle_task_event
                   (sample_consumer_env (at_ 2025 1 15 10 0))
                   (sample_dapr true) sample_event))
           sample_event Consumer.SUCCESS eq_refl))).
Defined.

(** X20. Redelivery is idempotent while the state store works.  If the
    handler answers [SUCCESS] for an event, with the state store readable
    and writable, then handling the same event again, at any later clock
    reading, answers [SUCCESS] and changes nothing: no second event is
    published. *)
Theorem redelivered_event_is_not_published_again
    (env env' : Consumer.Env) (dapr dapr1 : Consumer.Dapr)
    (event : Consumer.Event) :
  Consumer.get_up dapr = true -> Consumer.save_up dapr = true ->
  Consumer.handle_task_event env dapr event = (Consumer.SUCCESS, dapr1) ->
  Consumer.handle_task_event env' dapr1 event = (Consumer.SUCCESS, dapr1).
Proof.
  intros Gup Sup H.
  destruct (handle_task_event_inv env dapr dapr1 event _ H)
    as [(B & _) | [(_ & -> & Et & (rule & Er & Ne) & Eg) | [(B & _)
       | (rule & next & _ & Et & Er & Ne & Eg & Ec & Ep & Pub & G & P & S
          & Store)]]];
    try discriminate.
  - now apply (handle_already_processed env' dapr event rule).
  - apply (handle_already_processed env' dapr1 event rule Et Er Ne).
    unfold Consumer.get_state. rewrite G, Gup, Store, Sup.
    cbn [Consumer.lookup]. rewrite String.eqb_refl. discriminate.
Qed.

Lemma redelivered_event_is_not_published_again_witness :
  Consumer.handle_task_event (sample_consumer_env (at_ 2025 1 16 10 0))
    (snd (Consumer.handle_task_event
            (sample_consumer_env (at_ 2025 1 15 10 0)) (sample_dapr true)
            sample_event))
    sample_event
  = (Consumer.SUCCESS,
     snd (Consumer.handle_task_event
            (sample_consumer_env (at_ 2025 1 15 10 0)) (sample_dapr true)
            sample_event)).
Proof.
  apply (redelivered_event_is_not_published_again
           (sample_consumer_env (at_ 2025 1 15 10 0))
           (sample_consumer_env (at_ 2025 1 16 10 0))
           (sample_dapr true) _ sample_event eq_refl eq_refl).
  reflexivity.
Defined.

(** X21. Events do not shadow each other: handling an event with one id
    leaves the stored state of every other event id as it was. *)
Theorem other_events_are_unaffected (env : Consumer.Env)
    (dapr dapr' : Consumer.Dapr) (event : Consumer.Event)
    (st : Consumer.Status) (a b : string) :
  Consumer.event_id event = Some a -> a <> b ->
  Consumer.handle_task_event env dapr event = (st, dapr') ->
  Consumer.get_state dapr' (Consumer.idempotency_key (Some b))
  = Consumer.get_state dapr (Consumer.idempotency_key (Some b)).
Proof.
  intros Ea N H.
  destruct (handle_task_event_inv env dapr dapr' event st H)
    as [(_ & ->) | [(_ & -> & _) | [(_ & -> & _)
       | (rule & next & _ & _ & _ & _ & _ & _ & _ & _ & G & _ & _ & Store)]]];
    try reflexivity.
  unfold Consumer.get_state. rewrite G, Store, Ea.
  destruct (Consumer.save_up dapr); [| reflexivity].
  cbn [Consumer.lookup].
  destruct (String.eqb_spec (Consumer.idempotency_key (Some a))
                            (Consumer.idempotency_key (Some b))) as [E | _];
    [| reflexivity].
  apply idempotency_key_inj in E. contradiction.
Qed.

Lemma other_events_are_unaffected_witness :
  Consumer.get_state
    (snd (Consumer.handle_task_event
            (sample_consumer_env (at_ 2025 1 15 10 0)) (sample_dapr true)
            sample_event))
    (Consumer.idempotency_key (Some "e-2"%string))
  = Consumer.get_state (sample_dapr true)
      (Consumer.idempotency_key (Some "e-2"%string)).
Proof.
  apply (other_events_are_unaffected
           (sample_consumer_env (at_ 2025 1 15 10 0)) (sample_dapr true)
           _ sample_event Consumer.SUCCESS "e-1" "e-2" eq_refl).
  - discriminate.
  - reflexivity.
Defined.

(** X22. Idempotency needs the state store.  Let the handler answer
    [SUCCESS] for an event that the store does not hold, while the state
    cannot be saved.  It has then published one [task.created] event, and
    a redelivery of the event is not recognised, whatever the sidecar
    lets through at that time: the handler asks the generator again at
    the new clock reading.  With no date it answers [DROP]; with a date
    it publishes a second [task.created] event for the same parent task
    and answers [SUCCESS] when that publish call goes through, and it
    answers [RETRY], with nothing changed, when it does not. *)
Theorem unsaved_event_is_published_again (env env' : Consumer.Env)
    (dapr dapr1 dapr1' dapr2 : Consumer.Dapr) (event : Consumer.Event)
    (st : Consumer.Status) :
  Consumer.lookup (Consumer.idempotency_key (Consumer.event_id event))
                  (Consumer.state_store dapr) = None ->
  Consumer.save_up dapr = false ->
  Consumer.handle_task_event env dapr event = (Consumer.SUCCESS, dapr1) ->
  Consumer.state_store dapr1' = Consumer.state_store dapr1 ->
  Consumer.published dapr1' = Consumer.published dapr1 ->
  Consumer.handle_task_event env' dapr1' event = (st, dapr2) ->
  exists rule first,
    Consumer.recurrence_rule (task_data_of event) = Some rule /\
    Consumer.published dapr1
    = Consumer.published dapr
      ++ [Consumer.mkPublished "task.created" (Consumer.task_id event)
            (Consumer.user_id event) (task_data_of event) first "pending"
            (Consumer.task_id event)] /\
    match Generator.calculate_next_occurrence (Consumer.utcnow env') rule
            (original_due_date_of env' (task_data_of event)) with
    | None => st = Consumer.DROP /\ dapr2 = dapr1'
    | Some next =>
        if Consumer.publish_up dapr1'
        then st = Consumer.SUCCESS /\
             Consumer.published dapr2
             = Consumer.published dapr1
               ++ [Consumer.mkPublished "task.created"
                     (Consumer.task_id event) (Consumer.user_id event)
                     (task_data_of event) next "pending"
                     (Consumer.task_id event)]
        else st = Consumer.RETRY /\ dapr2 = dapr1'
    end.
Proof.
  intros Fresh Sup H Store' Pub' H'.
  assert (forall d, Consumer.state_store d = Consumer.state_store dapr ->
                    Consumer.get_state d
                      (Consumer.idempotency_key (Consumer.event_id event))
                    = None) as NoState.
  { intros d Ed. unfold Consumer.get_state. rewrite Ed, Fresh.
    now destruct (Consumer.get_up d). }
  destruct (handle_task_event_inv env dapr dapr1 event _ H)
    as [(B & _) | [(_ & _ & _ & _ & B) | [(B & _)
       | (rule & first & _ & Et & Er & Ne & _ & _ & _ & P1 & _ & _ & _
          & Store)]]];
    try discriminate.
  { exfalso. apply B. now apply NoState. }
  rewrite Sup in Store.
  exists rule, first. split; [exact Er | split; [exact P1|]].
  revert H'. unfold Consumer.handle_task_event.
  fold (task_data_of event). rewrite Et.
  cbn [String.eqb Ascii.eqb Bool.eqb negb]. rewrite Er, Ne.
  rewrite (NoState dapr1') by congruence.
  fold (original_due_date_of env' (task_data_of event)).
  destruct (Generator.calculate_next_occurrence (Consumer.utcnow env') rule
              (original_due_date_of env' (task_data_of event)))
    as [next|].
  2:{ intros E. injection E as <- <-. split; reflexivity. }
  unfold Consumer.publish_task_event, Consumer.save_state.
  destruct (Consumer.publish_up dapr1').
  - cbn [negb Consumer.save_up Consumer.published Consumer.state_store].
    destruct (Consumer.save_up dapr1'); intros E; injection E as <- <-;
      cbn [Consumer.published]; rewrite Pub'; split; reflexivity.
  - cbn [negb]. intros E. injection E as <- <-. split; reflexivity.
Qed.

Lemma unsaved_event_is_published_again_witness :
  exists ev,
    Consumer.published
      (snd (Consumer.handle_task_event
              (sample_consumer_env (at_ 2025 1 16 10 0))
              (snd (Consumer.handle_task_event
                      (sample_consumer_env (at_ 2025 1 15 10 0))
                      (sample_dapr false) sample_event))
              sample_event))
    = Consumer.published
        (snd (Consumer.handle_task_event
                (sample_consumer_env (at_ 2025 1 15 10 0))
                (sample_dapr false) sample_event)) ++ [ev].
Proof.
  destruct (unsaved_event_is_published_again
              (sample_consumer_env (at_ 2025 1 15 10 0))
              (sample_consumer_env (at_ 2025 1 16 10 0))
              (sample_dapr false) _ _ _ sample_event Consumer.SUCCESS
              eq_refl eq_refl eq_refl eq_refl eq_refl eq_refl)
    as (rule & first & Er & _ & M).
  injection Er as <-. vm_compute in M. destruct M as [_ M].
  eexists. vm_compute. exact M.
Defined.
